(** * ingest.py: CSV to data.json, columns.json and metadata.json

    A shallow embedding of [scripts/ingest.py] and the properties of its
    three output documents.

    The script is a client of pandas.  The pandas calls it makes are modelled
    in [Module pd] as pandas 1.3 and later carry them out with default
    arguments: [read_csv] without [parse_dates] leaves date-like text as
    text, converts each column with the C parser's cascade int64, uint64,
    float64, bool, object, takes the leading fields of records longer than
    the header as the index, and renames repeated header names X, X.1, ...;
    [where cond None] puts [None] in object columns and leaves the nan of a
    float64 column and the NaT of a datetime column in place;
    [to_dict(orient="records")] yields one dict per row keyed by column
    label.  Tokenizing the bytes of a CSV file (delimiters, quoting, blank
    lines) is left to pandas: a source is given as the sequence of its
    records, each a sequence of fields.  A finite float64 is modelled by the
    rational its decimal literal denotes; rounding to binary64 is not
    modelled.

    A Python [str] is modelled by a [string] of one-byte characters; the
    case mapping of [str.title] is the one of the ASCII letters, so what is
    proved of a title is proved of the names made of ASCII characters. *)

From Stdlib Require Import ZArith QArith Ascii String List Bool Lia.
From Stdlib Require Import DecimalString.
From Stdlib Require DecimalNat.
From stdpp Require Import base option list gmap strings.

Set Warnings "-register-all".

Local Open Scope string_scope.
Local Open Scope Z_scope.

(** ** Python strings *)

Module Str.

(** [needle in hay] *)
Fixpoint contains (needle hay : string) : bool :=
  if String.prefix needle hay then true
  else match hay with
       | EmptyString => false
       | String _ rest => contains needle rest
       end.

(** [s.startswith(p)] *)
Definition startswith (p s : string) : bool := String.prefix p s.

(** [s.replace(old, new)] for one-character [old] and [new] *)
Fixpoint replace (old new : ascii) (s : string) : string :=
  match s with
  | EmptyString => EmptyString
  | String c rest =>
      String (if Ascii.eqb c old then new else c) (replace old new rest)
  end.

Definition is_upper (c : ascii) : bool :=
  let n := nat_of_ascii c in (65 <=? n)%nat && (n <=? 90)%nat.

Definition is_lower (c : ascii) : bool :=
  let n := nat_of_ascii c in (97 <=? n)%nat && (n <=? 122)%nat.

(** A cased character.  Among the ASCII characters the letters are the
    cased ones; the model has no case mapping for a character beyond ASCII
    and carries it through unchanged, which is not what Python does with a
    letter such as e-acute: statements on titles are made for ASCII names. *)
Definition is_cased (c : ascii) : bool := is_upper c || is_lower c.

Definition upper (c : ascii) : ascii :=
  if is_lower c then ascii_of_nat (nat_of_ascii c - 32) else c.

Definition lower (c : ascii) : ascii :=
  if is_upper c then ascii_of_nat (nat_of_ascii c + 32) else c.

(** Every character is an ASCII character. *)
Fixpoint is_ascii (s : string) : bool :=
  match s with
  | EmptyString => true
  | String c rest => (nat_of_ascii c <? 128)%nat && is_ascii rest
  end.

(** [s.title()]: a cased character is upper-cased when it follows an
    uncased one (or starts the string) and lower-cased otherwise. *)
Fixpoint title_from (previous_is_cased : bool) (s : string) : string :=
  match s with
  | EmptyString => EmptyString
  | String c rest =>
      if is_cased c
      then String (if previous_is_cased then lower c else upper c)
                  (title_from true rest)
      else String c (title_from false rest)
  end.

Definition title (s : string) : string := title_from false s.

(** [str(n)] for a non-negative integer *)
Definition of_nat (n : nat) : string :=
  NilEmpty.string_of_uint (Nat.to_uint n).

Fixpoint ends_with_slash (s : string) : bool :=
  match s with
  | EmptyString => false
  | String c EmptyString => Ascii.eqb c "/"
  | String _ rest => ends_with_slash rest
  end.

(** [os.path.join(a, b)] for a relative [b] *)
Definition path_join (a b : string) : string :=
  if String.eqb a "" then b
  else if ends_with_slash a then a +:+ b
  else a +:+ "/" +:+ b.

(** [os.path.basename(p)]: what follows the last slash *)
Fixpoint basename_from (acc p : string) : string :=
  match p with
  | EmptyString => acc
  | String c rest =>
      if Ascii.eqb c "/" then basename_from EmptyString rest
      else basename_from (acc +:+ String c EmptyString) rest
  end.

Definition basename (p : string) : string := basename_from EmptyString p.

(** The directories that [os.makedirs(p)] makes sure of: [p] and every
    leading part of [p] that a slash ends. *)
Fixpoint ancestors_from (acc p : string) : list string :=
  match p with
  | EmptyString => [acc]
  | String c rest =>
      if Ascii.eqb c "/"
      then (if String.eqb acc "" then [] else [acc])
           ++ ancestors_from (acc +:+ "/") rest
      else ancestors_from (acc +:+ String c EmptyString) rest
  end.

Definition ancestors (p : string) : list string :=
  ancestors_from EmptyString p.

End Str.

(** ** JSON documents

    What [json.dump] writes.  [JNaN] is the token [NaN] that [json.dump]
    prints for a float nan, [JInf] the tokens [Infinity] and [-Infinity]
    for the two infinite floats; none of the three is JSON.  An object keeps
    its keys in insertion order, as a Python dict does. *)

Inductive json : Type :=
| JNull
| JNaN
| JInf (negative : bool)
| JBool (b : bool)
| JInt (n : Z)
| JFloat (q : Q)
| JStr (s : string)
| JArr (items : list json)
| JObj (members : list (string * json)).

(** ** Python dicts

    A dict keeps its keys in insertion order.  [d[k] = v]: an existing key
    keeps its place and takes the new value, a new key goes last. *)

Section Dict.
Context {V : Type}.

Fixpoint dict_set (k : string) (v : V) (d : list (string * V))
  : list (string * V) :=
  match d with
  | [] => [(k, v)]
  | (k', v') :: rest =>
      if String.eqb k' k then (k, v) :: rest
      else (k', v') :: dict_set k v rest
  end.

(** A dict display [{k1: v1, k2: v2, ...}] *)
Definition dict_of (items : list (string * V)) : list (string * V) :=
  fold_left (fun d kv => dict_set (fst kv) (snd kv) d) items [].

Definition dict_keys (d : list (string * V)) : list string := map fst d.

Fixpoint dict_get (k : string) (d : list (string * V)) : option V :=
  match d with
  | [] => None
  | (k', v) :: rest => if String.eqb k' k then Some v else dict_get k rest
  end.
End Dict.

(** ** Tables

    A pandas Timestamp is an instant, counted in nanoseconds since the epoch
    in UTC; a value of a zone-aware column also carries the zone's offset
    from UTC at that instant, in seconds ([0] in a naive column). *)

Record Timestamp : Type := { value : Z; utcoffset : Z }.

(** What a table cell holds.  [CInf] is an infinite float.  [NaN], [NaT]
    and [PyNone] are the three ways pandas has to say that a value is
    missing. *)
Inductive cell : Type :=
| CInt (n : Z)
| CFloat (q : Q)
| CInf (negative : bool)
| CBool (b : bool)
| CStr (s : string)
| CTime (t : Timestamp)
| NaN
| NaT
| PyNone.

Inductive dtype : Type :=
| int64
| uint64
| float64
| bool_
| object
| datetime64 (tz : option string).

(** [str(dtype)] *)
Definition dtype_str (d : dtype) : string :=
  match d with
  | int64 => "int64"
  | uint64 => "uint64"
  | float64 => "float64"
  | bool_ => "bool"
  | object => "object"
  | datetime64 None => "datetime64[ns]"
  | datetime64 (Some tz) => "datetime64[ns, " +:+ tz +:+ "]"
  end.

Record Series : Type := { name : string; dtype_of : dtype; values : list cell }.

(** [index_length] is [len(df.index)], the number of rows. *)
Record DataFrame : Type := { index_length : nat; series : list Series }.

(** [df.columns] *)
Definition columns (df : DataFrame) : list string := map name (series df).

(** [df.shape] *)
Definition shape (df : DataFrame) : nat * nat :=
  (index_length df, length (series df)).

(** A value fits a column of a given dtype.  An object column holds Python
    scalars that are not timestamps. *)
Definition fits (d : dtype) (c : cell) : bool :=
  match d, c with
  | int64, CInt n => (- 2 ^ 63 <=? n) && (n <? 2 ^ 63)
  | uint64, CInt n => (0 <=? n) && (n <? 2 ^ 64)
  | float64, (CFloat _ | CInf _ | NaN) => true
  | bool_, CBool _ => true
  | object, (CInt _ | CFloat _ | CInf _ | CBool _ | CStr _ | NaN | PyNone) =>
      true
  | datetime64 _, CTime t =>
      (- 2 ^ 63 <? value t) && (value t <? 2 ^ 63)
      && (- 86400 <? utcoffset t) && (utcoffset t <? 86400)
  | datetime64 _, NaT => true
  | _, _ => false
  end.

(** The table invariant: every column has one value per row, of its dtype. *)
Definition well_formed (df : DataFrame) : Prop :=
  Forall (fun s => length (values s) = index_length df
                   /\ Forall (fun c => fits (dtype_of s) c = true) (values s))
         (series df).

(** ** Python objects and [json.dump] *)

Inductive pyobj : Type :=
| Scalar (c : cell)
| PyList (items : list pyobj)
| PyDict (members : list (string * pyobj)).

(** The JSON value of a scalar; a Timestamp and NaT have none
    ([TypeError: Object of type ... is not JSON serializable]). *)
Definition encode_scalar (c : cell) : option json :=
  match c with
  | CInt n => Some (JInt n)
  | CFloat q => Some (JFloat q)
  | CInf negative => Some (JInf negative)
  | CBool b => Some (JBool b)
  | CStr s => Some (JStr s)
  | PyNone => Some JNull
  | NaN => Some JNaN
  | CTime _ | NaT => None
  end.

(** Every element has a value, or the whole has none. *)
Definition traverse {A B : Type} (f : A -> option B)
  : list A -> option (list B) :=
  fix all (l : list A) : option (list B) :=
    match l with
    | [] => Some []
    | x :: rest =>
        match f x, all rest with
        | Some y, Some ys => Some (y :: ys)
        | _, _ => None
        end
    end.

Fixpoint encode (o : pyobj) : option json :=
  match o with
  | Scalar c => encode_scalar c
  | PyList items => JArr <$> traverse encode items
  | PyDict members =>
      JObj <$> traverse (fun kv => match encode (snd kv) with
                                   | Some j => Some (fst kv, j)
                                   | None => None
                                   end) members
  end.

(** ** Effects

    The script reads one source, reads the clock once, creates a directory,
    writes files and prints.  [sources] maps a path or URL to the records of
    the CSV found there; a file that was opened and left unfinished holds
    [None].  A path is the text that the script hands to the system; two
    texts that name one file are not identified.  What the file system
    refuses is given with the world: [refused] holds the paths that it will
    not create or open for writing (no permission, a read-only or missing
    parent, ...), [no_room] the paths of the files that it opens and cannot
    write in full (the disk is full). *)

Inductive exit_message : Type :=
| MissingRequired (missing : list string)
    (* f"ERROR: Missing required columns: {missing}" *)
| DuplicatedNames
    (* "ERROR: duplicated column names detected in CSV" *).

Inductive exn : Type :=
| SystemExit (message : exit_message)
| FileNotFoundError
| EmptyDataError
| ParserError
| AttributeError
| TypeError
| OSError.

Inductive result (A : Type) : Type :=
| Ok (a : A)
| Raise (e : exn).
Arguments Ok {A} a.
Arguments Raise {A} e.

Record world : Type := {
  sources : gmap string (list (list string));
  utcnow_isoformat : string;
  dirs : gset string;
  files : gmap string (option json);
  stdout : list string;
  refused : gset string;
  no_room : gset string
}.

Definition M (A : Type) : Type := world -> result A * world.

#[export] Instance M_ret : MRet M := fun A a w => (Ok a, w).

#[export] Instance M_bind : MBind M := fun A B f m w =>
  match m w with
  | (Ok a, w') => f a w'
  | (Raise e, w') => (Raise e, w')
  end.

Definition raise {A : Type} (e : exn) : M A := fun w => (Raise e, w).

Definition lift {A : Type} (r : result A) : M A := fun w => (r, w).

(** [print(line)] *)
Definition print (line : string) : M unit := fun w =>
  (Ok tt, {| sources := sources w; utcnow_isoformat := utcnow_isoformat w;
             dirs := dirs w; files := files w;
             stdout := stdout w ++ [line];
             refused := refused w; no_room := no_room w |}).

(** [os.makedirs(path, exist_ok=True)]: the empty path is no directory
    ([FileNotFoundError]); a path that the system refuses, or that is a
    file, is an [OSError] ([PermissionError], [FileExistsError], ...);
    otherwise the directory and the missing ones above it exist
    afterwards. *)
Definition makedirs (path : string) : M unit := fun w =>
  if String.eqb path "" then (Raise FileNotFoundError, w)
  else if bool_decide (path ∈ refused w)
          || bool_decide (is_Some (files w !! path))
  then (Raise OSError, w)
  else
    (Ok tt, {| sources := sources w; utcnow_isoformat := utcnow_isoformat w;
               dirs := list_to_set (Str.ancestors path) ∪ dirs w;
               files := files w; stdout := stdout w;
               refused := refused w; no_room := no_room w |}).

(** The status the process ends with: 0 when [main] returns, 1 when an
    exception, [SystemExit] with a message included, reaches the top. *)
Definition exit_status {A : Type} (r : result A) : Z :=
  match r with
  | Ok _ => 0
  | Raise _ => 1
  end.

(** ** The pandas calls of the script *)

Module pd.

(** [pd.notnull(x)] *)
Definition notnull (c : cell) : bool :=
  match c with
  | NaN | NaT | PyNone => false
  | _ => true
  end.

(** [pd.api.types.is_datetime64_any_dtype(s)] *)
Definition is_datetime64_any_dtype (s : Series) : bool :=
  match dtype_of s with
  | datetime64 _ => true
  | _ => false
  end.

(** [df[c]]: the column labelled [c].  A label that no column or several
    columns carry does not select a Series. *)
Definition getitem (df : DataFrame) (c : string) : option Series :=
  match List.filter (fun s => String.eqb (name s) c) (series df) with
  | [s] => Some s
  | _ => None
  end.

(** [df[c] = s] for a label the table has: the column is replaced in place. *)
Definition setitem (df : DataFrame) (c : string) (s : Series) : DataFrame :=
  {| index_length := index_length df;
     series := map (fun s0 => if String.eqb (name s0) c
                              then {| name := c; dtype_of := dtype_of s;
                                      values := values s |}
                              else s0)
                   (series df) |}.

(** [index.duplicated()]: marks every label that an earlier position has. *)
Fixpoint duplicated_from (seen labels : list string) : list bool :=
  match labels with
  | [] => []
  | l :: rest =>
      existsb (String.eqb l) seen :: duplicated_from (seen ++ [l]) rest
  end.

Definition duplicated (labels : list string) : list bool :=
  duplicated_from [] labels.

(** [.any()] *)
Definition any (bs : list bool) : bool := existsb id bs.

(** The date of a day of the 400-year cycle that starts on a 1st of March:
    the year of the cycle (years start in March), the month and the day. *)
Definition cycle_date (doe : Z) : Z * Z * Z :=
  let yoe := (doe - doe / 1460 + doe / 36524 - doe / 146096) / 365 in
  let doy := doe - (365 * yoe + yoe / 4 - yoe / 100) in
  let mp := (5 * doy + 2) / 153 in
  let d := doy - (153 * mp + 2) / 5 + 1 in
  let m := if mp <? 10 then mp + 3 else mp - 9 in
  (yoe, m, d).

(** The proleptic Gregorian date (year, month, day) of a day number counted
    from 1970-01-01. *)
Definition civil_from_days (days : Z) : Z * Z * Z :=
  let z := days + 719468 in
  let era := z / 146097 in
  let '(yoe, m, d) := cycle_date (z mod 146097) in
  let y := yoe + era * 400 in
  (if m <=? 2 then y + 1 else y, m, d).

Definition digit (n : Z) : ascii := ascii_of_nat (48 + Z.to_nat (n mod 10)).

(** [n] in [width] decimal digits, zero-padded on the left *)
Fixpoint zero_padded (width : nat) (n : Z) : string :=
  match width with
  | O => EmptyString
  | S w => String (digit (n / 10 ^ Z.of_nat w)) (zero_padded w n)
  end.

(** Year, month, day, hour, minute and second of an instant given in
    seconds since the epoch. *)
Definition fields_of_seconds (seconds : Z) : Z * Z * Z * Z * Z * Z :=
  let '(y, m, d) := civil_from_days (seconds / 86400) in
  let sod := seconds mod 86400 in
  (y, m, d, sod / 3600, sod mod 3600 / 60, sod mod 60).

(** The directives of ["%Y-%m-%dT%H:%M:%SZ"] in turn. *)
Definition format_fields (fields : Z * Z * Z * Z * Z * Z) : string :=
  let '(y, m, d, hour, minute, second) := fields in
  zero_padded 4 y +:+ "-" +:+ zero_padded 2 m +:+ "-" +:+ zero_padded 2 d
  +:+ "T" +:+ zero_padded 2 hour +:+ ":" +:+ zero_padded 2 minute +:+ ":"
  +:+ zero_padded 2 second +:+ "Z".

(** The second-precision text of an instant. *)
Definition format_seconds (seconds : Z) : string :=
  format_fields (fields_of_seconds seconds).

(** [t.strftime("%Y-%m-%dT%H:%M:%SZ")]: the fields are those of the wall
    clock of the column's zone; the trailing Z is a literal of the format. *)
Definition strftime (t : Timestamp) : string :=
  format_seconds (value t / 10 ^ 9 + utcoffset t).

(** [s.dt.strftime("%Y-%m-%dT%H:%M:%SZ")]: an object column of texts, with
    nan where the value is NaT. *)
Definition dt_strftime (s : Series) : Series :=
  {| name := name s;
     dtype_of := object;
     values := map (fun c => match c with
                             | CTime t => CStr (strftime t)
                             | NaT => NaN
                             | other => other
                             end)
                   (values s) |}.

(** [df.where(pd.notnull(df), None)], column by column.  In an object
    column every entry whose condition is false is replaced by [None].  In
    a column of another dtype [None] is first made a value of the dtype,
    which for float64 is nan and for datetime64 is NaT: the column is
    unchanged, its missing values included (integer and boolean columns
    have none). *)
Definition where_column (s : Series) : Series :=
  match dtype_of s with
  | object =>
      {| name := name s; dtype_of := object;
         values := map (fun c => if notnull c then c else PyNone)
                       (values s) |}
  | _ => s
  end.

Definition where_notnull_none (df : DataFrame) : DataFrame :=
  {| index_length := index_length df;
     series := map where_column (series df) |}.

(** [df.to_dict(orient="records")]: one dict per row, filled column by
    column, so a label that repeats keeps the value of its last column. *)
Definition record_at (df : DataFrame) (i : nat) : list (string * cell) :=
  fold_left (fun d s => dict_set (name s) (nth i (values s) NaN) d)
            (series df) [].

Definition to_dict_records (df : DataFrame) : list (list (string * cell)) :=
  map (record_at df) (seq 0 (index_length df)).

(** *** [pd.read_csv] with its default arguments *)

(** The texts read as a missing value (the default [na_values]). *)
Definition na_values : list string :=
  [""; "#N/A"; "#N/A N/A"; "#NA"; "-1.#IND"; "-1.#QNAN"; "-NaN"; "-nan";
   "1.#IND"; "1.#QNAN"; "<NA>"; "N/A"; "NA"; "NULL"; "NaN"; "None"; "n/a";
   "nan"; "null"].

Definition is_na (field : string) : bool :=
  existsb (String.eqb field) na_values.

Definition is_digit (c : ascii) : bool :=
  let n := nat_of_ascii c in (48 <=? n)%nat && (n <=? 57)%nat.

(** [isspace_ascii]: the blank, and the controls from tab to carriage
    return. *)
Definition is_space (c : ascii) : bool :=
  let n := nat_of_ascii c in
  (n =? 32)%nat || ((9 <=? n)%nat && (n <=? 13)%nat).

Fixpoint skip_spaces (s : string) : string :=
  match s with
  | EmptyString => EmptyString
  | String c rest => if is_space c then skip_spaces rest else s
  end.

(** Nothing but blanks is left. *)
Definition at_end (s : string) : bool := String.eqb (skip_spaces s) "".

Definition starts_with_digit (s : string) : bool :=
  match s with
  | String c _ => is_digit c
  | EmptyString => false
  end.

(** The number that the leading digits of [s] add to [acc], and what
    follows them. *)
Fixpoint digit_run (acc : Z) (s : string) : Z * string :=
  match s with
  | EmptyString => (acc, EmptyString)
  | String c rest =>
      if is_digit c
      then digit_run (10 * acc + Z.of_nat (nat_of_ascii c - 48)) rest
      else (acc, s)
  end.

(** What the tokenizer makes of a field read as a signed integer. *)
Inductive int_word : Type :=
| IntValue (n : Z)
| IntOverflow          (* ERROR_OVERFLOW *)
| IntInvalid           (* ERROR_NO_DIGITS, ERROR_INVALID_CHARS *).

(** The digits of an integer, after its sign: one digit or more, blanks.
    The digits are weighed before what follows them is looked at. *)
Definition int64_of_digits (negative : bool) (p : string) : int_word :=
  if starts_with_digit p then
    let '(v, rest) := digit_run 0 p in
    let n := if negative then - v else v in
    if (- 2 ^ 63 <=? n) && (n <? 2 ^ 63)
    then (if at_end rest then IntValue n else IntInvalid)
    else IntOverflow
  else IntInvalid.

(** [str_to_int64]: blanks, an optional sign, the digits. *)
Definition str_to_int64 (word : string) : int_word :=
  match skip_spaces word with
  | String "-" rest => int64_of_digits true rest
  | String "+" rest => int64_of_digits false rest
  | p => int64_of_digits false p
  end.

(** What the tokenizer makes of a field read as an unsigned integer. *)
Inductive uint_word : Type :=
| UintNull             (* a missing value: [seen_null] *)
| UintNegative         (* a minus sign: [seen_sint], the rest is not read *)
| UintValue (n : Z)
| UintOverflow
| UintInvalid.

Definition uint64_of_digits (p : string) : uint_word :=
  if starts_with_digit p then
    let '(v, rest) := digit_run 0 p in
    if v <? 2 ^ 64
    then (if at_end rest then UintValue v else UintInvalid)
    else UintOverflow
  else UintInvalid.

(** [str_to_uint64] *)
Definition str_to_uint64 (word : string) : uint_word :=
  match skip_spaces word with
  | String "-" _ => UintNegative
  | String "+" rest => uint64_of_digits rest
  | p => uint64_of_digits p
  end.

(** [numerator * 10 ^ exponent] *)
Definition scale10 (numerator exponent : Z) : Q :=
  Qred (if 0 <=? exponent then Qmake (numerator * 10 ^ exponent) 1
        else Qmake numerator (Z.to_pos (10 ^ (- exponent)))).

(** The digits of a decimal literal, after its sign: digits with an
    optional fraction (one digit at least on either side of the point), an
    optional exponent, blanks.  An [e] that no digit follows is not part of
    the number. *)
Definition double_of_digits (negative : bool) (p : string) : option Q :=
  let '(whole, p1) := digit_run 0 p in
  let '(fraction, places, p2) :=
    match p1 with
    | String "." rest =>
        let '(f, rest') := digit_run 0 rest in
        (f, (String.length rest - String.length rest')%nat, rest')
    | _ => (0, O, p1)
    end in
  let num_digits := (String.length p - String.length p1 + places)%nat in
  let '(exponent, p3) :=
    match p2 with
    | String c rest =>
        if Ascii.eqb c "e" || Ascii.eqb c "E" then
          let '(minus, rest1) :=
            match rest with
            | String "-" r => (true, r)
            | String "+" r => (false, r)
            | _ => (false, rest)
            end in
          if starts_with_digit rest1
          then let '(n, rest2) := digit_run 0 rest1 in
               (if minus then - n else n, rest2)
          else (0, p2)
        else (0, p2)
    | EmptyString => (0, p2)
    end in
  if (num_digits =? 0)%nat then None
  else if at_end p3 then
    let k := Z.of_nat places in
    let n := whole * 10 ^ k + fraction in
    Some (scale10 (if negative then - n else n) (exponent - k))
  else None.

(** [xstrtod] followed by the test that the whole field was read: blanks,
    an optional sign, the digits. *)
Definition xstrtod (word : string) : option Q :=
  match skip_spaces word with
  | String "-" rest => double_of_digits true rest
  | String "+" rest => double_of_digits false rest
  | p => double_of_digits false p
  end.

Fixpoint lowercase (s : string) : string :=
  match s with
  | EmptyString => EmptyString
  | String c rest => String (Str.lower c) (lowercase rest)
  end.

(** A field read as a float: a decimal literal, or one of the names of the
    infinities in any case. *)
Definition to_double (word : string) : option cell :=
  match xstrtod word with
  | Some q => Some (CFloat q)
  | None =>
      if existsb (String.eqb (lowercase word))
                 ["inf"; "+inf"; "infinity"; "+infinity"]
      then Some (CInf false)
      else if existsb (String.eqb (lowercase word)) ["-inf"; "-infinity"]
      then Some (CInf true)
      else None
  end.

Definition parse_bool (s : string) : option bool :=
  if existsb (String.eqb s) ["True"; "TRUE"; "true"] then Some true
  else if existsb (String.eqb s) ["False"; "FALSE"; "false"] then Some false
  else None.

(** The outcome of reading a column field by field: the values, or the
    first field that stops the reading, by overflow or because it is not of
    the kind looked for. *)
Inductive scan (A : Type) : Type :=
| Converted (xs : list A)
| Overflowed
| Unreadable.
Arguments Converted {A} xs.
Arguments Overflowed {A}.
Arguments Unreadable {A}.

Definition scan_cons {A : Type} (x : A) (rest : scan A) : scan A :=
  match rest with
  | Converted xs => Converted (x :: xs)
  | Overflowed => Overflowed
  | Unreadable => Unreadable
  end.

(** [_try_int64]: a missing value is counted and passed over. *)
Fixpoint try_int64 (fields : list string) : scan (option Z) :=
  match fields with
  | [] => Converted []
  | f :: rest =>
      if is_na f then scan_cons None (try_int64 rest)
      else match str_to_int64 f with
           | IntValue n => scan_cons (Some n) (try_int64 rest)
           | IntOverflow => Overflowed
           | IntInvalid => Unreadable
           end
  end.

(** [_try_uint64] *)
Fixpoint try_uint64 (fields : list string) : scan uint_word :=
  match fields with
  | [] => Converted []
  | f :: rest =>
      if is_na f then scan_cons UintNull (try_uint64 rest)
      else match str_to_uint64 f with
           | UintOverflow => Overflowed
           | UintInvalid => Unreadable
           | word => scan_cons word (try_uint64 rest)
           end
  end.

(** [_try_double] *)
Definition try_double (fields : list string) : option (list cell) :=
  traverse (fun f => if is_na f then Some NaN else to_double f) fields.

(** [_try_bool_flex] *)
Definition try_bool (fields : list string) : option (list (option bool)) :=
  traverse (fun f => if is_na f then Some None else Some <$> parse_bool f)
           fields.

(** The column of a header label, as [_convert_tokens] makes it with no
    dtype given.  The fields are read as int64; when a field overflows, as
    uint64; when a field is no integer, as float64, then as bool, and at
    last kept as text.  A column read as int64 or as bool that has missing
    values is upcast, to float64 and to object, the missing values being
    found by the mark left for them (the least int64).  Reading as uint64
    ends in a column of text when a field overflows, when a number is
    negative, or when the column mixes a number above int64 with a negative
    or a missing one, in which case the missing values stay text too.  A
    column of no rows is an object column. *)
Definition infer_series (label : string) (fields : list string) : Series :=
  let column d cells := {| name := label; dtype_of := d; values := cells |} in
  let texts (na_filter : bool) :=
    column object
      (map (fun f => if na_filter && is_na f then NaN else CStr f) fields) in
  let as_float_bool_object :=
    match try_double fields with
    | Some cells => column float64 cells
    | None =>
        match try_bool fields with
        | Some bools =>
            if forallb (fun b => bool_decide (is_Some b)) bools
            then column bool_
                   (map (fun b => CBool (default false b)) bools)
            else column object
                   (map (fun b => match b with
                                  | Some b => CBool b
                                  | None => NaN
                                  end) bools)
        | None => texts true
        end
    end in
  match fields with
  | [] => column object []
  | _ =>
      match try_int64 fields with
      | Converted ints =>
          if forallb (fun x => bool_decide (is_Some x)) ints
          then column int64 (map (fun x => CInt (default 0 x)) ints)
          else column float64
                 (map (fun x => match x with
                                | Some n => if n =? - 2 ^ 63 then NaN
                                            else CFloat (inject_Z n)
                                | None => NaN
                                end) ints)
      | Overflowed =>
          match try_uint64 fields with
          | Converted words =>
              let seen_uint :=
                existsb (fun x => match x with
                                  | UintValue n => 2 ^ 63 <=? n
                                  | _ => false
                                  end) words in
              let seen_sint :=
                existsb (fun x => match x with
                                  | UintNegative => true
                                  | _ => false
                                  end) words in
              let seen_null :=
                existsb (fun x => match x with
                                  | UintNull => true
                                  | _ => false
                                  end) words in
              if seen_uint && (seen_sint || seen_null) then texts false
              else if seen_sint then texts true
              else column uint64
                     (map (fun x => match x with
                                    | UintValue n => CInt n
                                    | _ => CInt 0
                                    end) words)
          | Overflowed => texts true
          | Unreadable => as_float_bool_object
          end
      | Unreadable => as_float_bool_object
      end
  end.

(** The renaming loop for a label that is already taken:
    [while cur_count > 0: counts[old_col] = cur_count + 1;
     col = f"{old_col}.{cur_count}"; cur_count = cur_count + 1 if col in
     this_header else counts.get(col, 0)].  The loop makes at most one pass
    more than the header has labels; [fuel] says so. *)
Fixpoint rename_taken (fuel : nat) (this_header : list string)
    (old_col : string) (counts : gmap string nat) (cur_count : nat)
    (col : string) : string * nat * gmap string nat :=
  match fuel, cur_count with
  | S fuel', S _ =>
      let counts := <[old_col := S cur_count]> counts in
      let col := old_col +:+ "." +:+ Str.of_nat cur_count in
      let cur_count :=
        if existsb (String.eqb col) this_header then S cur_count
        else default O (counts !! col) in
      rename_taken fuel' this_header old_col counts cur_count col
  | _, _ => (col, cur_count, counts)
  end.

(** One step of [for i in col_loop_order]. *)
Definition dedup_step (state : list string * gmap string nat) (i : nat)
  : list string * gmap string nat :=
  let '(this_header, counts) := state in
  let old_col := nth i this_header EmptyString in
  let '(col, cur_count, counts) :=
    rename_taken (S (length this_header)) this_header old_col counts
                 (default O (counts !! old_col)) old_col in
  (<[i := col]> this_header, <[col := S cur_count]> counts).

(** The labels of a header row: an empty field is named after its position,
    and a label that repeats takes the suffix .1, .2, ...; the labels given
    in the file are settled before the ones made up for empty fields. *)
Definition header_labels (header : list string) : list string :=
  let positions := seq 0 (length header) in
  let unnamed i := String.eqb (nth i header EmptyString) "" in
  let this_header :=
    map (fun i => if unnamed i then "Unnamed: " +:+ Str.of_nat i
                  else nth i header EmptyString) positions in
  let col_loop_order :=
    (List.filter (fun i => negb (unnamed i)) positions
     ++ List.filter unnamed positions)%list in
  fst (fold_left dedup_step col_loop_order (this_header, ∅)).

(** The number of fields of a row of the table: that of the header, or
    that of the first data record when it is longer. *)
Definition table_width (header : list string) (rows : list (list string))
  : nat :=
  match rows with
  | [] => length header
  | first :: _ => Nat.max (length header) (length first)
  end.

(** The fields of the column under field [j] of the header.  When the
    first data record is longer than the header, the fields that it has
    more come first and are the index of the table ([leading_cols]); the
    columns are the fields after them.  A record too short to have the
    field has an empty one. *)
Definition column_fields (header : list string) (rows : list (list string))
    (j : nat) : list string :=
  let leading_cols := (table_width header rows - length header)%nat in
  map (fun r => nth (leading_cols + j) r EmptyString) rows.

(** The table of a sequence of records, the first of which is the header.
    A record shorter than the table's width is completed with missing
    values; one that is longer is refused. *)
Definition parse (records : list (list string)) : result DataFrame :=
  match records with
  | [] => Raise EmptyDataError
  | header :: rows =>
      if existsb (fun r => (table_width header rows <? length r)%nat) rows
      then Raise ParserError
      else
        Ok {| index_length := length rows;
              series :=
                map (fun '(j, label) =>
                       infer_series label (column_fields header rows j))
                    (combine (seq 0 (length header))
                             (header_labels header)) |}
  end.

(** [pd.read_csv(path_or_url)] *)
Definition read_csv (path_or_url : string) : M DataFrame := fun w =>
  match sources w !! path_or_url with
  | None => (Raise FileNotFoundError, w)
  | Some records => (parse records, w)
  end.

End pd.

(** ** The script *)

(** The parsed command line. *)
Record Args : Type := {
  input : string;
  out : string;
  required_columns : list string;
  citation : string;
  license : string;
  doi : string;
  contact : string;
  notes : string
}.

Definition read_csv (path_or_url : string) : M DataFrame :=
  if Str.startswith "http://" path_or_url
     || Str.startswith "https://" path_or_url
  then pd.read_csv path_or_url
  else pd.read_csv path_or_url.

(** The sorter of a dtype name. *)
Definition sorter_of (dtype : string) : string :=
  if Str.contains "int" dtype || Str.contains "float" dtype then "number"
  else if Str.contains "datetime" dtype || Str.contains "date" dtype
       then "date"
  else "string".

Definition col_def (col : string) (sorter : string)
  : list (string * pyobj) :=
  dict_of [("title", Scalar (CStr (Str.title (Str.replace "_" " " col))));
           ("field", Scalar (CStr col));
           ("headerFilter", Scalar (CBool true));
           ("hozAlign", Scalar (CStr "left"));
           ("sorter", Scalar (CStr sorter));
           ("download", Scalar (CBool true));
           ("width", Scalar PyNone)].

(** [df[col].dtype] is an [AttributeError] when [df[col]] is not a Series. *)
Fixpoint infer_columns_loop (df : DataFrame) (cols : list string)
    (columns : list pyobj) : result (list pyobj) :=
  match cols with
  | [] => Ok columns
  | col :: rest =>
      match pd.getitem df col with
      | None => Raise AttributeError
      | Some s =>
          let dtype := dtype_str (dtype_of s) in
          infer_columns_loop df rest
            (columns ++ [PyDict (col_def col (sorter_of dtype))])%list
      end
  end.

Definition infer_tabulator_columns (df : DataFrame) : result (list pyobj) :=
  infer_columns_loop df (columns df) [].

(** [x or ""] *)
Definition or_empty (x : string) : string :=
  if String.eqb x "" then "" else x.

Definition make_metadata (args : Args) (df : DataFrame)
  : M (list (string * pyobj)) := fun w =>
  (Ok (dict_of
         [("generated_at", Scalar (CStr (utcnow_isoformat w +:+ "Z")));
          ("source_filename", Scalar (CStr (Str.basename (input args))));
          ("n_rows", Scalar (CInt (Z.of_nat (fst (shape df)))));
          ("n_columns", Scalar (CInt (Z.of_nat (snd (shape df)))));
          ("citation", Scalar (CStr (or_empty (citation args))));
          ("license", Scalar (CStr (or_empty (license args))));
          ("doi", Scalar (CStr (or_empty (doi args))));
          ("contact", Scalar (CStr (or_empty (contact args))));
          ("notes", Scalar (CStr (or_empty (notes args))))]),
   w).

(** [open] fails on a path that the system refuses or that is a
    directory, and nothing is touched.  Otherwise the file is opened, which
    creates or empties it, before [json.dump] runs; [json.dump] stops at a
    value it cannot write ([TypeError]) or when the system cannot take the
    text ([OSError]), and the file is left unfinished. *)
Definition write_json (obj : pyobj) (outpath : string) : M unit := fun w =>
  let written content :=
    {| sources := sources w; utcnow_isoformat := utcnow_isoformat w;
       dirs := dirs w; files := <[outpath := content]> (files w);
       stdout := stdout w; refused := refused w; no_room := no_room w |} in
  if bool_decide (outpath ∈ refused w) || bool_decide (outpath ∈ dirs w)
  then (Raise OSError, w)
  else
    match encode obj with
    | None => (Raise TypeError, written None)
    | Some doc =>
        if bool_decide (outpath ∈ no_room w)
        then (Raise OSError, written None)
        else print ("Wrote " +:+ outpath) (written (Some doc))
    end.

(** One turn of the loop that turns datetime columns into ISO text. *)
Definition convert_datetime (df : DataFrame) (c : string) : DataFrame :=
  match pd.getitem df c with
  | Some s =>
      if pd.is_datetime64_any_dtype s
      then pd.setitem df c (pd.dt_strftime s)
      else df
  | None => df
  end.

(** [for c in df.columns: if is_datetime64_any_dtype(df[c]): df[c] = ...] *)
Definition normalize_datetimes (df : DataFrame) : DataFrame :=
  fold_left convert_datetime (columns df) df.

Definition py_records (records : list (list (string * cell))) : pyobj :=
  PyList (map (fun r => PyDict (map (fun kv => (fst kv, Scalar (snd kv))) r))
              records).

(** [main] from the line after the table is read (lines 107 to 139). *)
Definition ingest (args : Args) (df : DataFrame) : M unit :=
  _ ← print ("Read CSV with " +:+ Str.of_nat (fst (shape df)) +:+ " rows and "
             +:+ Str.of_nat (snd (shape df)) +:+ " columns");
  let missing :=
    List.filter (fun c => negb (existsb (String.eqb c) (columns df)))
           (required_columns args) in
  match missing with
  | _ :: _ => raise (SystemExit (MissingRequired missing))
  | [] =>
      if pd.any (pd.duplicated (columns df))
      then raise (SystemExit DuplicatedNames)
      else
        let df := normalize_datetimes df in
        _ ← makedirs (out args);
        let data_records :=
          pd.to_dict_records (pd.where_notnull_none df) in
        let data_out := Str.path_join (out args) "data.json" in
        _ ← write_json (py_records data_records) data_out;
        columns_def ← lift (infer_tabulator_columns df);
        let columns_out := Str.path_join (out args) "columns.json" in
        _ ← write_json (PyList columns_def) columns_out;
        metadata ← make_metadata args df;
        let meta_out := Str.path_join (out args) "metadata.json" in
        _ ← write_json (PyDict metadata) meta_out;
        print ("Ingestion complete. Place index.html and app.js in the docs/ folder to serve with GitHub Pages.")
  end.

Definition main (args : Args) : M unit :=
  df ← read_csv (input args);
  ingest args df.

(** ** The example of the specification *)

Definition example_records : list (list string) :=
  [["id"; "name"; "score"; "joined"];
   ["1"; "Alice"; "9.5"; "2023-01-01"];
   ["2"; "Bob"; ""; "2023-02-15"]].

Definition example_args : Args :=
  {| input := "data/example.csv"; out := "docs"; required_columns := [];
     citation := ""; license := ""; doi := ""; contact := ""; notes := "" |}.

Definition example_world : world :=
  {| sources := {["data/example.csv" := example_records]};
     utcnow_isoformat := "2024-05-06T07:08:09.123456";
     dirs := ∅; files := ∅; stdout := []; refused := ∅; no_room := ∅ |}.


(** * Properties *)

(** ** Strings and dicts *)

Lemma eqb_string_true (a b : string) : String.eqb a b = true <-> a = b.
Proof. apply String.eqb_eq. Qed.

Lemma eqb_string_false (a b : string) : String.eqb a b = false <-> a <> b.
Proof. apply String.eqb_neq. Qed.

Lemma existsb_eqb_elem_of (x : string) (l : list string) :
  existsb (String.eqb x) l = true <-> x ∈ l.
Proof.
  rewrite existsb_exists, list_elem_of_In. split.
  - intros (y & Hy & Heq). apply eqb_string_true in Heq. by subst.
  - intros Hx. exists x. split; [done | apply String.eqb_refl].
Qed.

Lemma existsb_eqb_not_elem_of (x : string) (l : list string) :
  existsb (String.eqb x) l = false <-> x ∉ l.
Proof.
  rewrite <- existsb_eqb_elem_of. destruct (existsb _ l); split;
    first [done | intros H; by destruct H].
Qed.

Section DictFacts.
Context {V : Type}.
Implicit Types (d : list (string * V)) (k : string) (v : V).

Lemma dict_set_fresh d k v :
  k ∉ dict_keys d -> dict_set k v d = (d ++ [(k, v)])%list.
Proof.
  induction d as [| [k' v'] d IH]; simpl; [done |].
  intros Hk. apply not_elem_of_cons in Hk as [Hne Hk].
  destruct (String.eqb k' k) eqn:E.
  - apply eqb_string_true in E. congruence.
  - by rewrite IH.
Qed.

(** Filling a dict from distinct keys lays them out in order. *)
Lemma fold_dict_set_distinct {A : Type} (key : A -> string) (val : A -> V)
    (l : list A) d :
  NoDup (dict_keys d ++ map key l) ->
  fold_left (fun d a => dict_set (key a) (val a) d) l d
  = (d ++ map (fun a => (key a, val a)) l)%list.
Proof.
  revert d. induction l as [| a l IH]; intros d Hnd; simpl.
  - by rewrite app_nil_r.
  - rewrite dict_set_fresh.
    + rewrite IH.
      * by rewrite <- app_assoc.
      * unfold dict_keys in *. rewrite map_app. simpl.
        rewrite <- app_assoc. exact Hnd.
    + apply NoDup_app in Hnd as (_ & Hdisj & _).
      intros Hin. apply (Hdisj _ Hin). simpl. left.
Qed.

Lemma dict_get_lookup d k v (j : nat) :
  NoDup (dict_keys d) -> d !! j = Some (k, v) -> dict_get k d = Some v.
Proof.
  revert j. induction d as [| [k' v'] d IH]; intros j Hnd Hj; [done |].
  simpl in Hnd. apply NoDup_cons in Hnd as [Hk' Hnd]. simpl.
  destruct j as [| j]; simpl in Hj.
  - injection Hj as -> ->. by rewrite String.eqb_refl.
  - destruct (String.eqb k' k) eqn:E.
    + apply eqb_string_true in E. subst k'. exfalso. apply Hk'.
      apply list_elem_of_lookup. exists j. unfold dict_keys.
      by rewrite list_lookup_fmap, Hj.
    + by apply (IH j).
Qed.
End DictFacts.

(** ** The duplicate test *)

Lemma duplicated_from_none (seen labels : list string) :
  pd.any (pd.duplicated_from seen labels) = false
  <-> NoDup labels /\ (forall x, x ∈ labels -> x ∉ seen).
Proof.
  revert seen. induction labels as [| l rest IH]; intros seen; simpl.
  - split; [| done]. intros _. split; [constructor |]. intros x Hx.
    by apply elem_of_nil in Hx.
  - unfold pd.any in *. simpl. unfold id at 1.
    rewrite orb_false_iff, IH, existsb_eqb_not_elem_of, NoDup_cons. split.
    + intros (Hl & Hnd & Hrest). split; [split; [| done] |].
      * intros Hin. apply (Hrest _ Hin). apply elem_of_app. right. left.
      * intros x Hx. apply elem_of_cons in Hx as [-> | Hx]; [done |].
        intros Hs. apply (Hrest _ Hx). apply elem_of_app. by left.
    + intros ((Hl & Hnd) & Hall). split; [| split; [done |]].
      * apply Hall. left.
      * intros x Hx Hs. apply elem_of_app in Hs as [Hs | Hs].
        -- apply (Hall x); [by right | done].
        -- apply list_elem_of_singleton in Hs. by subst.
Qed.

(** The test of line 116 passes exactly on distinct labels. *)
Lemma duplicated_any_false (labels : list string) :
  pd.any (pd.duplicated labels) = false <-> NoDup labels.
Proof.
  unfold pd.duplicated. rewrite duplicated_from_none. split; [by intros [] |].
  intros H. split; [done |]. intros x _ Hx. by apply elem_of_nil in Hx.
Qed.

(** ** Columns by label *)

Lemma filter_name_absent (l : list Series) (c : string) :
  c ∉ map name l -> List.filter (fun s => String.eqb (name s) c) l = [].
Proof.
  induction l as [| s l IH]; simpl; [done |].
  intros Hc. apply not_elem_of_cons in Hc as [Hne Hc].
  destruct (String.eqb (name s) c) eqn:E.
  - apply eqb_string_true in E. congruence.
  - by apply IH.
Qed.

Lemma filter_name_unique (l : list Series) (s : Series) :
  NoDup (map name l) -> s ∈ l ->
  List.filter (fun s0 => String.eqb (name s0) (name s)) l = [s].
Proof.
  induction l as [| s0 l IH]; simpl; intros Hnd Hs.
  - by apply elem_of_nil in Hs.
  - apply NoDup_cons in Hnd as [Hs0 Hnd].
    apply elem_of_cons in Hs as [-> | Hs].
    + rewrite String.eqb_refl. f_equal. by apply filter_name_absent.
    + destruct (String.eqb (name s0) (name s)) eqn:E.
      * apply eqb_string_true in E. exfalso. apply Hs0. rewrite E.
        apply list_elem_of_fmap. by exists s.
      * by apply IH.
Qed.

Lemma getitem_elem (df : DataFrame) (s : Series) :
  NoDup (columns df) -> s ∈ series df -> pd.getitem df (name s) = Some s.
Proof.
  intros Hnd Hs. unfold pd.getitem. by rewrite filter_name_unique.
Qed.

Lemma getitem_absent (df : DataFrame) (c : string) :
  c ∉ columns df -> pd.getitem df c = None.
Proof. intros Hc. unfold pd.getitem. by rewrite filter_name_absent. Qed.

Lemma same_name_same_series (l : list Series) (s s0 : Series) :
  NoDup (map name l) -> s ∈ l -> s0 ∈ l -> name s0 = name s -> s0 = s.
Proof.
  intros Hnd Hs Hs0 Hname.
  assert (Hin : s0 ∈ List.filter (fun x => String.eqb (name x) (name s)) l).
  { apply list_elem_of_In, filter_In. split; [by apply list_elem_of_In |].
    by apply eqb_string_true. }
  rewrite filter_name_unique in Hin by done.
  by apply list_elem_of_singleton in Hin.
Qed.

(** ** The normalizer *)

(** What the loop of lines 121 to 123 makes of one column. *)
Definition converted (s : Series) : Series :=
  if pd.is_datetime64_any_dtype s then pd.dt_strftime s else s.

Lemma converted_name (s : Series) : name (converted s) = name s.
Proof. unfold converted. by destruct (pd.is_datetime64_any_dtype s). Qed.

Lemma converted_not_datetime (s : Series) :
  pd.is_datetime64_any_dtype (converted s) = false.
Proof.
  unfold converted. by destruct (pd.is_datetime64_any_dtype s) eqn:E.
Qed.

Lemma converted_idempotent (s : Series) : converted (converted s) = converted s.
Proof.
  unfold converted at 1. by rewrite converted_not_datetime.
Qed.

Lemma convert_datetime_map (df : DataFrame) (c : string) :
  NoDup (columns df) ->
  convert_datetime df c
  = {| index_length := index_length df;
       series := map (fun s => if String.eqb (name s) c then converted s
                               else s) (series df) |}.
Proof.
  intros Hnd. unfold convert_datetime.
  destruct (decide (c ∈ columns df)) as [Hc | Hc].
  - apply list_elem_of_fmap in Hc as (s0 & -> & Hs0).
    rewrite getitem_elem by done.
    assert (Hall : forall s, s ∈ series df ->
              String.eqb (name s) (name s0) = true -> s = s0).
    { intros s Hs E. apply eqb_string_true in E.
      by apply (same_name_same_series (series df)). }
    destruct (pd.is_datetime64_any_dtype s0) eqn:Edt.
    + unfold pd.setitem. f_equal. apply map_ext_in. intros s Hs.
      apply list_elem_of_In in Hs.
      destruct (String.eqb (name s) (name s0)) eqn:E; [| done].
      rewrite (Hall s Hs E). unfold converted. by rewrite Edt.
    + destruct df as [n l]. simpl in *. f_equal.
      rewrite <- (map_id l) at 1. apply map_ext_in. intros s Hs.
      apply list_elem_of_In in Hs.
      destruct (String.eqb (name s) (name s0)) eqn:E; [| done].
      rewrite (Hall s Hs E). unfold converted. by rewrite Edt.
  - rewrite getitem_absent by done.
    destruct df as [n l]. simpl in *. f_equal.
    rewrite <- (map_id l) at 1. apply map_ext_in. intros s Hs.
    destruct (String.eqb (name s) c) eqn:E; [| done].
    apply eqb_string_true in E. exfalso. apply Hc. rewrite <- E.
    apply list_elem_of_fmap. exists s. by rewrite list_elem_of_In.
Qed.

Lemma fold_convert_datetime (cs : list string) (df : DataFrame) :
  NoDup (columns df) ->
  fold_left convert_datetime cs df
  = {| index_length := index_length df;
       series := map (fun s => if existsb (String.eqb (name s)) cs
                               then converted s else s) (series df) |}.
Proof.
  revert df. induction cs as [| c cs IH]; intros df Hnd; simpl.
  - destruct df as [n l]. simpl. f_equal. by rewrite map_id.
  - rewrite convert_datetime_map by done. rewrite IH.
    + simpl. f_equal. rewrite map_map. apply map_ext. intros s.
      destruct (String.eqb (name s) c) eqn:E; simpl.
      * rewrite converted_name.
        destruct (existsb _ cs); [apply converted_idempotent | done].
      * done.
    + unfold columns. simpl. rewrite map_map.
      erewrite map_ext; [exact Hnd |]. intros s. simpl.
      destruct (String.eqb (name s) c); [apply converted_name | done].
Qed.

(** On distinct labels the loop converts every column where it stands. *)
Lemma normalize_datetimes_map (df : DataFrame) :
  NoDup (columns df) ->
  normalize_datetimes df
  = {| index_length := index_length df;
       series := map converted (series df) |}.
Proof.
  intros Hnd. unfold normalize_datetimes. rewrite fold_convert_datetime by done.
  f_equal. apply map_ext_in. intros s Hs.
  assert (H : existsb (String.eqb (name s)) (columns df) = true).
  { apply existsb_eqb_elem_of, list_elem_of_fmap. exists s.
    by rewrite list_elem_of_In. }
  by rewrite H.
Qed.

Lemma normalize_datetimes_columns (df : DataFrame) :
  NoDup (columns df) -> columns (normalize_datetimes df) = columns df.
Proof.
  intros Hnd. rewrite normalize_datetimes_map by done. unfold columns. simpl.
  rewrite map_map. apply map_ext. apply converted_name.
Qed.

(** ** Records and documents *)

Lemma record_at_distinct (df : DataFrame) (i : nat) :
  NoDup (columns df) ->
  pd.record_at df i
  = map (fun s => (name s, nth i (values s) NaN)) (series df).
Proof.
  intros Hnd. unfold pd.record_at.
  by rewrite (fold_dict_set_distinct name (fun s => nth i (values s) NaN)).
Qed.

Lemma traverse_map {A B C : Type} (f : B -> option C) (g : A -> B)
    (h : A -> C) (l : list A) :
  (forall x, x ∈ l -> f (g x) = Some (h x)) ->
  traverse f (map g l) = Some (map h l).
Proof.
  induction l as [| x l IH]; intros H; simpl; [done |].
  rewrite H by left. rewrite IH; [done |]. intros y Hy. apply H. by right.
Qed.

Lemma traverse_length {A B : Type} (f : A -> option B) (l : list A)
    (r : list B) :
  traverse f l = Some r -> length r = length l.
Proof.
  revert r. induction l as [| x l IH]; intros r; simpl.
  - by intros [= <-].
  - destruct (f x); [| done]. destruct (traverse f l) eqn:E; [| done].
    intros [= <-]. simpl. f_equal. by apply IH.
Qed.

(** The entry of [columns.json] for a column. *)
Definition column_entry (s : Series) : json :=
  JObj [("title", JStr (Str.title (Str.replace "_" " " (name s))));
        ("field", JStr (name s));
        ("headerFilter", JBool true);
        ("hozAlign", JStr "left");
        ("sorter", JStr (sorter_of (dtype_str (dtype_of s))));
        ("download", JBool true);
        ("width", JNull)].

Definition columns_document (df : DataFrame) : json :=
  JArr (map column_entry (series df)).

Lemma encode_col_def (col sorter : string) :
  encode (PyDict (col_def col sorter))
  = Some (JObj [("title", JStr (Str.title (Str.replace "_" " " col)));
                ("field", JStr col);
                ("headerFilter", JBool true);
                ("hozAlign", JStr "left");
                ("sorter", JStr sorter);
                ("download", JBool true);
                ("width", JNull)]).
Proof. reflexivity. Qed.

Lemma infer_columns_loop_distinct (df : DataFrame) (l : list Series)
    (acc : list pyobj) :
  NoDup (columns df) -> (forall s, s ∈ l -> s ∈ series df) ->
  infer_columns_loop df (map name l) acc
  = Ok (acc ++ map (fun s => PyDict (col_def (name s)
                                       (sorter_of (dtype_str (dtype_of s)))))
                   l)%list.
Proof.
  intros Hnd. revert acc. induction l as [| s l IH]; intros acc Hl; simpl.
  - by rewrite app_nil_r.
  - rewrite getitem_elem; [| done | apply Hl; left].
    rewrite IH.
    + by rewrite <- app_assoc.
    + intros s' Hs'. apply Hl. by right.
Qed.

Lemma infer_tabulator_columns_distinct (df : DataFrame) :
  NoDup (columns df) ->
  infer_tabulator_columns df
  = Ok (map (fun s => PyDict (col_def (name s)
                                (sorter_of (dtype_str (dtype_of s)))))
            (series df)).
Proof.
  intros Hnd. unfold infer_tabulator_columns, columns.
  by rewrite infer_columns_loop_distinct.
Qed.

Lemma encode_columns_def (l : list Series) :
  encode (PyList (map (fun s => PyDict (col_def (name s)
                                          (sorter_of (dtype_str (dtype_of s)))))
                      l))
  = Some (JArr (map column_entry l)).
Proof.
  simpl. rewrite (traverse_map encode _ column_entry); [done |].
  intros s _. apply encode_col_def.
Qed.

(** The document of [metadata.json]. *)
Definition metadata_document (args : Args) (df : DataFrame) (w : world)
  : json :=
  JObj [("generated_at", JStr (utcnow_isoformat w +:+ "Z"));
        ("source_filename", JStr (Str.basename (input args)));
        ("n_rows", JInt (Z.of_nat (index_length df)));
        ("n_columns", JInt (Z.of_nat (length (series df))));
        ("citation", JStr (or_empty (citation args)));
        ("license", JStr (or_empty (license args)));
        ("doi", JStr (or_empty (doi args)));
        ("contact", JStr (or_empty (contact args)));
        ("notes", JStr (or_empty (notes args)))].

(** The required names that the table lacks (line 110). *)
Definition missing_columns (args : Args) (df : DataFrame) : list string :=
  List.filter (fun c => negb (existsb (String.eqb c) (columns df)))
              (required_columns args).

(** ** The worlds of a run *)

(** The world after [print(line)]. *)
Definition said (line : string) (w : world) : world :=
  {| sources := sources w; utcnow_isoformat := utcnow_isoformat w;
     dirs := dirs w; files := files w; stdout := (stdout w ++ [line])%list;
     refused := refused w; no_room := no_room w |}.

(** The world after [os.makedirs(path)] has returned. *)
Definition made (path : string) (w : world) : world :=
  {| sources := sources w; utcnow_isoformat := utcnow_isoformat w;
     dirs := list_to_set (Str.ancestors path) ∪ dirs w; files := files w;
     stdout := stdout w; refused := refused w; no_room := no_room w |}.

(** The world in which the file at [path] has been opened and holds
    [content]. *)
Definition put (path : string) (content : option json) (w : world) : world :=
  {| sources := sources w; utcnow_isoformat := utcnow_isoformat w;
     dirs := dirs w; files := <[path := content]> (files w);
     stdout := stdout w; refused := refused w; no_room := no_room w |}.

(** The world after a [write_json] that returned. *)
Definition written (path : string) (doc : json) (w : world) : world :=
  said ("Wrote " +:+ path) (put path (Some doc) w).

(** The world when the run stops at a check: one line printed. *)
Definition stopped (df : DataFrame) (w : world) : world :=
  said ("Read CSV with " +:+ Str.of_nat (index_length df) +:+ " rows and "
        +:+ Str.of_nat (length (series df)) +:+ " columns") w.

(** The world after the three documents are written: [df] is the table as
    read, [df'] the table after the normalizer. *)
Definition emitted (args : Args) (df df' : DataFrame) (data_doc : json)
    (w : world) : world :=
  said "Ingestion complete. Place index.html and app.js in the docs/ folder to serve with GitHub Pages."
    (written (Str.path_join (out args) "metadata.json")
       (metadata_document args df' w)
       (written (Str.path_join (out args) "columns.json")
          (columns_document df')
          (written (Str.path_join (out args) "data.json") data_doc
             (made (out args) (stopped df w))))).

(** The system stands in the way of opening [p] for writing. *)
Definition blocked (w : world) (p : string) : bool :=
  bool_decide (p ∈ refused w) || bool_decide (p ∈ dirs w).

(** The system lets the run make the output directory and write the three
    files in full. *)
Definition writable (args : Args) (w : world) : bool :=
  negb (String.eqb (out args) "")
  && negb (bool_decide (out args ∈ refused w)
           || bool_decide (is_Some (files w !! out args)))
  && forallb (fun file =>
                negb (blocked w (Str.path_join (out args) file))
                && negb (bool_decide
                           (Str.path_join (out args) file ∈ no_room w)))
             ["data.json"; "columns.json"; "metadata.json"].

(** What the system answers to the run, asked in this order: is the output
    path empty, will it refuse the directory, and for each of the three
    files, will it refuse to open it and has it no room for it. *)
Record Gates : Type := {
  no_directory : bool;
  directory_refused : bool;
  data_blocked : bool;
  data_no_room : bool;
  columns_blocked : bool;
  columns_no_room : bool;
  meta_blocked : bool;
  meta_no_room : bool
}.

Definition gates (args : Args) (w : world) : Gates :=
  {| no_directory := String.eqb (out args) "";
     directory_refused :=
       bool_decide (out args ∈ refused w)
       || bool_decide (is_Some (files w !! out args));
     data_blocked := blocked w (Str.path_join (out args) "data.json");
     data_no_room :=
       bool_decide (Str.path_join (out args) "data.json" ∈ no_room w);
     columns_blocked := blocked w (Str.path_join (out args) "columns.json");
     columns_no_room :=
       bool_decide (Str.path_join (out args) "columns.json" ∈ no_room w);
     meta_blocked := blocked w (Str.path_join (out args) "metadata.json");
     meta_no_room :=
       bool_decide (Str.path_join (out args) "metadata.json" ∈ no_room w) |}.

(** Lines 126 to 139 on a table with distinct labels, [data] being what
    [json.dump] makes of the records: the run stops at the first thing that
    the system refuses, or at the records if they cannot be written. *)
Definition emit_with (g : Gates) (args : Args) (df df' : DataFrame)
    (data : option json) (w : world) : result unit * world :=
  let data_out := Str.path_join (out args) "data.json" in
  let columns_out := Str.path_join (out args) "columns.json" in
  let meta_out := Str.path_join (out args) "metadata.json" in
  let w0 := stopped df w in
  if no_directory g then (Raise FileNotFoundError, w0)
  else if directory_refused g then (Raise OSError, w0)
  else
    let w1 := made (out args) w0 in
    if data_blocked g then (Raise OSError, w1)
    else
      match data with
      | None => (Raise TypeError, put data_out None w1)
      | Some doc =>
          if data_no_room g then (Raise OSError, put data_out None w1)
          else
            let w2 := written data_out doc w1 in
            if columns_blocked g then (Raise OSError, w2)
            else if columns_no_room g
            then (Raise OSError, put columns_out None w2)
            else
              let w3 := written columns_out (columns_document df') w2 in
              if meta_blocked g then (Raise OSError, w3)
              else if meta_no_room g
              then (Raise OSError, put meta_out None w3)
              else (Ok tt, emitted args df df' doc w)
      end.

Definition emit (args : Args) (df df' : DataFrame) (data : option json)
    (w : world) : result unit * world :=
  emit_with (gates args w) args df df' data w.

Lemma length_append_string (a b : string) :
  String.length (a +:+ b) = (String.length a + String.length b)%nat.
Proof.
  induction a as [| c a IH]; [done |].
  change (String c a +:+ b) with (String c (a +:+ b)). simpl. by rewrite IH.
Qed.

Lemma ancestors_from_length (acc p x : string) :
  x ∈ Str.ancestors_from acc p ->
  (String.length x <= String.length acc + String.length p)%nat.
Proof.
  revert acc. induction p as [| c p IH]; intros acc Hx.
  - cbn [Str.ancestors_from] in Hx. apply list_elem_of_singleton in Hx.
    subst x. simpl. lia.
  - cbn [Str.ancestors_from] in Hx. destruct (Ascii.eqb c "/").
    + apply elem_of_app in Hx as [Hx | Hx].
      * destruct (String.eqb acc ""); [by apply elem_of_nil in Hx |].
        apply list_elem_of_singleton in Hx. subst x. simpl. lia.
      * apply IH in Hx. rewrite length_append_string in Hx. simpl in *. lia.
    + apply IH in Hx. rewrite length_append_string in Hx. simpl in *. lia.
Qed.

Lemma path_join_length (a b : string) :
  (String.length a + String.length b
   <= String.length (Str.path_join a b))%nat.
Proof.
  unfold Str.path_join. destruct (String.eqb a "") eqn:E.
  - apply String.eqb_eq in E. subst a. simpl. lia.
  - destruct (Str.ends_with_slash a); rewrite !length_append_string;
      simpl; lia.
Qed.

(** A file of the output directory is none of the directories that
    [makedirs] makes. *)
Lemma path_join_not_ancestor (a b : string) :
  b <> "" -> Str.path_join a b ∉ Str.ancestors a.
Proof.
  intros Hb Hin. apply ancestors_from_length in Hin.
  pose proof (path_join_length a b). simpl in Hin.
  destruct b; [done |]. simpl in *. lia.
Qed.

Lemma blocked_made (a b : string) (w : world) :
  b <> "" ->
  blocked w (Str.path_join a b)
  = bool_decide (Str.path_join a b ∈ refused w)
    || bool_decide (Str.path_join a b
                    ∈ list_to_set (C := gset string) (Str.ancestors a)
                      ∪ dirs w).
Proof.
  intros Hb. unfold blocked. f_equal.
  apply bool_decide_ext. rewrite elem_of_union, elem_of_list_to_set.
  pose proof (path_join_not_ancestor a b Hb). tauto.
Qed.

Lemma ingest_missing (args : Args) (df : DataFrame) (w : world) :
  missing_columns args df <> [] ->
  ingest args df w
  = (Raise (SystemExit (MissingRequired (missing_columns args df))),
     stopped df w).
Proof.
  intros H. unfold ingest, mbind, M_bind, print, raise. simpl.
  fold (missing_columns args df). by destruct (missing_columns args df).
Qed.

Lemma ingest_duplicated (args : Args) (df : DataFrame) (w : world) :
  missing_columns args df = [] -> ~ NoDup (columns df) ->
  ingest args df w = (Raise (SystemExit DuplicatedNames), stopped df w).
Proof.
  intros Hm Hd. unfold ingest, mbind, M_bind, print, raise. simpl.
  fold (missing_columns args df). rewrite Hm.
  destruct (pd.any (pd.duplicated (columns df))) eqn:E; [done |].
  by apply duplicated_any_false in E.
Qed.

(** A run that passes both checks goes through lines 126 to 139. *)
Lemma ingest_validated (args : Args) (df : DataFrame) (w : world) :
  missing_columns args df = [] -> NoDup (columns df) ->
  ingest args df w
  = emit args df (normalize_datetimes df)
      (encode (py_records (pd.to_dict_records
                 (pd.where_notnull_none (normalize_datetimes df))))) w.
Proof.
  intros Hm Hd.
  unfold ingest, mbind, M_bind, raise, makedirs, lift, make_metadata, emit,
    emit_with, gates.
  cbn [no_directory directory_refused data_blocked data_no_room
       columns_blocked columns_no_room meta_blocked meta_no_room].
  unfold write_json at 1 2 3.
  set (data := encode (py_records _)).
  rewrite !blocked_made by done.
  cbn [print fst snd refused files dirs no_room stdout sources
       utcnow_isoformat stopped said made written put shape].
  fold (missing_columns args df). rewrite Hm.
  apply duplicated_any_false in Hd as Hany. rewrite Hany.
  destruct (String.eqb (out args) ""); [done |].
  destruct (_ || _); [done |].
  destruct (_ || _); [done |].
  destruct data as [doc |]; [| done].
  destruct (bool_decide _); [done |].
  cbn [print fst snd refused files dirs no_room stdout sources
       utcnow_isoformat].
  rewrite infer_tabulator_columns_distinct
    by (by rewrite normalize_datetimes_columns).
  destruct (_ || _); [done |].
  rewrite encode_columns_def.
  destruct (bool_decide _); [done |].
  cbn [print fst snd refused files dirs no_room stdout sources
       utcnow_isoformat].
  destruct (_ || _); [done |].
  change (encode (PyDict _))
    with (Some (metadata_document args (normalize_datetimes df) w)).
  destruct (bool_decide _); done.
Qed.

(** A run that returns went through every gate. *)
Lemma emit_ok_inv (args : Args) (df df' : DataFrame) (data : option json)
    (w w' : world) :
  emit args df df' data w = (Ok tt, w') ->
  writable args w = true
  /\ exists doc, data = Some doc /\ w' = emitted args df df' doc w.
Proof.
  unfold emit, emit_with, gates, writable.
  cbn [forallb no_directory directory_refused data_blocked data_no_room
       columns_blocked columns_no_room meta_blocked meta_no_room].
  destruct (String.eqb (out args) ""); [done |].
  destruct (_ || _); [done |].
  destruct (blocked w _); [done |].
  destruct data as [doc |]; [| done].
  destruct (bool_decide _); [done |].
  destruct (blocked w _); [done |].
  destruct (bool_decide _); [done |].
  destruct (blocked w _); [done |].
  destruct (bool_decide _); [done |].
  intros [= <-]. split; [done |]. by exists doc.
Qed.

Lemma emit_writable (args : Args) (df df' : DataFrame) (doc : json)
    (w : world) :
  writable args w = true ->
  emit args df df' (Some doc) w = (Ok tt, emitted args df df' doc w).
Proof.
  unfold emit, emit_with, gates, writable.
  cbn [forallb no_directory directory_refused data_blocked data_no_room
       columns_blocked columns_no_room meta_blocked meta_no_room].
  destruct (String.eqb (out args) ""); [done |].
  destruct (_ || _); [done |].
  destruct (blocked w _); [done |].
  destruct (bool_decide _); [done |].
  destruct (blocked w _); [done |].
  destruct (bool_decide _); [done |].
  destruct (blocked w _); [done |].
  destruct (bool_decide _); done.
Qed.

(** ** The row-data document *)

(** What [where] makes of an entry of an object column. *)
Definition null_to_none (c : cell) : cell :=
  if pd.notnull c then c else PyNone.

(** A Timestamp or NaT, which [json.dump] cannot write. *)
Definition is_timestamp (c : cell) : bool :=
  match c with
  | CTime _ | NaT => true
  | _ => false
  end.

(** No column holds a Timestamp or NaT. *)
Definition no_timestamps (df : DataFrame) : Prop :=
  Forall (fun s => Forall (fun c => is_timestamp c = false) (values s))
         (series df).

(** The value that [data.json] has for row [i] of column [s]. *)
Definition data_value (s : Series) (i : nat) : json :=
  default JNull (encode_scalar (nth i (values (pd.where_column s)) NaN)).

Definition data_record (df : DataFrame) (i : nat) : json :=
  JObj (map (fun s => (name s, data_value s i)) (series df)).

Definition data_document (df : DataFrame) : json :=
  JArr (map (data_record df) (seq 0 (index_length df))).

Lemma where_column_name (s : Series) : name (pd.where_column s) = name s.
Proof. unfold pd.where_column. by destruct (dtype_of s). Qed.

Lemma where_column_no_timestamp (s : Series) :
  Forall (fun c => is_timestamp c = false) (values s) ->
  Forall (fun c => is_timestamp c = false) (values (pd.where_column s)).
Proof.
  intros H. unfold pd.where_column. destruct (dtype_of s); try done.
  cbn [values]. apply Forall_fmap. eapply Forall_impl; [exact H |].
  by intros [].
Qed.

Lemma encode_scalar_nth (l : list cell) (i : nat) :
  Forall (fun c => is_timestamp c = false) l ->
  encode_scalar (nth i l NaN)
  = Some (default JNull (encode_scalar (nth i l NaN))).
Proof.
  intros Hl. destruct (nth_in_or_default i l NaN) as [H | H].
  - rewrite Forall_forall in Hl. apply list_elem_of_In, Hl in H.
    by destruct (nth i l NaN).
  - by rewrite H.
Qed.

Lemma where_notnull_none_columns (df : DataFrame) :
  columns (pd.where_notnull_none df) = columns df.
Proof.
  unfold columns. simpl. rewrite map_map. apply map_ext.
  apply where_column_name.
Qed.

Lemma encode_data_records (df : DataFrame) :
  NoDup (columns df) -> no_timestamps df ->
  encode (py_records (pd.to_dict_records (pd.where_notnull_none df)))
  = Some (data_document df).
Proof.
  intros Hnd Hts. unfold py_records, pd.to_dict_records, data_document.
  cbn [encode]. rewrite map_map.
  rewrite (traverse_map encode _ (data_record df)); [done |].
  intros i _. rewrite record_at_distinct
    by (by rewrite where_notnull_none_columns).
  cbn [encode pd.where_notnull_none series]. rewrite !map_map.
  unfold data_record.
  rewrite (traverse_map _ _ (fun s => (name s, data_value s i))); [done |].
  intros s Hs. cbn [fst snd encode].
  unfold no_timestamps in Hts. rewrite Forall_forall in Hts.
  unfold data_value. rewrite where_column_name.
  by rewrite (encode_scalar_nth _ i (where_column_no_timestamp s (Hts s Hs))).
Qed.

(** ** Well-formed tables *)

Lemma converted_no_timestamp (s : Series) :
  Forall (fun c => fits (dtype_of s) c = true) (values s) ->
  Forall (fun c => is_timestamp c = false) (values (converted s)).
Proof.
  intros Hfit. unfold converted, pd.is_datetime64_any_dtype.
  destruct (dtype_of s) eqn:Ed; simpl;
    try (eapply Forall_impl; [exact Hfit |]; by intros []).
  apply Forall_fmap. eapply Forall_impl; [exact Hfit |]. by intros [].
Qed.

Lemma normalize_datetimes_no_timestamps (df : DataFrame) :
  NoDup (columns df) -> well_formed df ->
  no_timestamps (normalize_datetimes df).
Proof.
  intros Hnd Hwf. rewrite normalize_datetimes_map by done.
  unfold no_timestamps. simpl. apply Forall_fmap.
  eapply Forall_impl; [exact Hwf |]. intros s [_ Hs]. simpl.
  by apply converted_no_timestamp.
Qed.

(** The two checks of the validator. *)
Definition validated (args : Args) (df : DataFrame) : Prop :=
  (forall c, c ∈ required_columns args -> c ∈ columns df)
  /\ NoDup (columns df).

Lemma missing_columns_spec (args : Args) (df : DataFrame) (c : string) :
  c ∈ missing_columns args df
  <-> c ∈ required_columns args /\ c ∉ columns df.
Proof.
  unfold missing_columns. rewrite list_elem_of_In, filter_In.
  rewrite <- list_elem_of_In, negb_true_iff, existsb_eqb_not_elem_of. done.
Qed.

Lemma missing_columns_nil (args : Args) (df : DataFrame) :
  missing_columns args df = []
  <-> forall c, c ∈ required_columns args -> c ∈ columns df.
Proof.
  split.
  - intros Hm c Hc. destruct (decide (c ∈ columns df)) as [| Hn]; [done |].
    assert (H : c ∈ missing_columns args df) by by apply missing_columns_spec.
    rewrite Hm in H. by apply elem_of_nil in H.
  - intros Hall. destruct (missing_columns args df) as [| c l] eqn:E; [done |].
    assert (H : c ∈ missing_columns args df) by (rewrite E; left).
    apply missing_columns_spec in H as [Hr Hn]. by destruct Hn; apply Hall.
Qed.

(** The records of a well-formed table that passes the checks can be
    written. *)
Lemma ingest_well_formed_emit (args : Args) (df : DataFrame) (w : world) :
  well_formed df -> validated args df ->
  ingest args df w
  = emit args df (normalize_datetimes df)
      (Some (data_document (normalize_datetimes df))) w.
Proof.
  intros Hwf [Hreq Hnd]. rewrite ingest_validated;
    [| by apply missing_columns_nil | done].
  rewrite encode_data_records; [done | |].
  - by rewrite normalize_datetimes_columns.
  - by apply normalize_datetimes_no_timestamps.
Qed.

(** A well-formed table that passes the checks is written out in full when
    the system lets the run write. *)
Lemma ingest_well_formed (args : Args) (df : DataFrame) (w : world) :
  well_formed df -> validated args df -> writable args w = true ->
  ingest args df w
  = (Ok tt, emitted args df (normalize_datetimes df)
              (data_document (normalize_datetimes df)) w).
Proof.
  intros Hwf Hval Hw. rewrite ingest_well_formed_emit by done.
  by apply emit_writable.
Qed.

(** ** The three files *)

Lemma append_inj_l (a x y : string) : a +:+ x = a +:+ y -> x = y.
Proof.
  induction a as [| c a IH]; simpl; [done |]. intros [= H]. by apply IH.
Qed.

Lemma path_join_inj (a b b' : string) :
  Str.path_join a b = Str.path_join a b' -> b = b'.
Proof.
  unfold Str.path_join. destruct (String.eqb a ""); [done |].
  destruct (Str.ends_with_slash a); intros H.
  - by apply append_inj_l in H.
  - apply append_inj_l in H. by apply (append_inj_l "/") in H.
Qed.

Lemma path_join_ne (a b b' : string) :
  b <> b' -> Str.path_join a b <> Str.path_join a b'.
Proof. intros Hne H. by apply Hne, (path_join_inj a). Qed.

Section Emitted.
Context (args : Args) (df df' : DataFrame) (doc : json) (w : world).

Lemma emitted_data_file :
  files (emitted args df df' doc w) !! Str.path_join (out args) "data.json"
  = Some (Some doc).
Proof.
  cbn [emitted said written put files].
  rewrite !lookup_insert_ne by (by apply path_join_ne).
  apply lookup_insert_eq.
Qed.

Lemma emitted_columns_file :
  files (emitted args df df' doc w)
    !! Str.path_join (out args) "columns.json"
  = Some (Some (columns_document df')).
Proof.
  cbn [emitted said written put files].
  rewrite lookup_insert_ne by (by apply path_join_ne).
  apply lookup_insert_eq.
Qed.

Lemma emitted_metadata_file :
  files (emitted args df df' doc w)
    !! Str.path_join (out args) "metadata.json"
  = Some (Some (metadata_document args df' w)).
Proof. cbn [emitted said written put files]. apply lookup_insert_eq. Qed.
End Emitted.

(** ** What a cell becomes in [data.json] *)

(** What [json.dump] writes for a cell of a column of dtype [d] of the
    table as read: a Timestamp by its text; a value missing from an object
    column or from a datetime column by null; a nan of a float64 column by
    the token NaN; anything else by itself. *)
Definition emitted_cell (d : dtype) (c : cell) : json :=
  match c with
  | CInt n => JInt n
  | CFloat q => JFloat q
  | CInf negative => JInf negative
  | CBool b => JBool b
  | CStr s => JStr s
  | CTime t => JStr (pd.strftime t)
  | NaN => match d with
           | object => JNull
           | _ => JNaN
           end
  | NaT | PyNone => JNull
  end.

Lemma data_value_converted (s : Series) (i : nat) (c : cell) :
  fits (dtype_of s) c = true -> values s !! i = Some c ->
  data_value (converted s) i = emitted_cell (dtype_of s) c.
Proof.
  intros Hfit Hc. unfold data_value. rewrite nth_lookup.
  unfold converted, pd.is_datetime64_any_dtype, pd.where_column.
  revert Hfit.
  destruct (dtype_of s) eqn:Ed; cbn [dtype_of values pd.dt_strftime];
    rewrite ?Ed; cbn [values]; rewrite ?list_lookup_fmap, ?Hc;
    destruct c; simpl; done.
Qed.

Lemma well_formed_lookup (df : DataFrame) (j i : nat) (s : Series) :
  well_formed df -> series df !! j = Some s -> (i < index_length df)%nat ->
  exists c, values s !! i = Some c /\ fits (dtype_of s) c = true.
Proof.
  intros Hwf Hs Hi. unfold well_formed in Hwf. rewrite Forall_lookup in Hwf.
  destruct (Hwf j s Hs) as [Hlen Hfit].
  destruct (lookup_lt_is_Some_2 (values s) i) as [c Hc]; [lia |].
  exists c. split; [done |]. rewrite Forall_lookup in Hfit. by apply (Hfit i).
Qed.

Lemma well_formed_fits (df : DataFrame) (j i : nat) (s : Series) (c : cell) :
  well_formed df -> series df !! j = Some s -> values s !! i = Some c ->
  fits (dtype_of s) c = true /\ (i < index_length df)%nat.
Proof.
  intros Hwf Hs Hc. unfold well_formed in Hwf. rewrite Forall_lookup in Hwf.
  destruct (Hwf j s Hs) as [Hlen Hfit]. split.
  - rewrite Forall_lookup in Hfit. by apply (Hfit i).
  - rewrite <- Hlen. by apply lookup_lt_Some in Hc.
Qed.

(** The record of row [i], read off the table as loaded. *)
Lemma data_record_normalized (df : DataFrame) (i : nat) :
  NoDup (columns df) ->
  data_record (normalize_datetimes df) i
  = JObj (map (fun s => (name s, data_value (converted s) i)) (series df)).
Proof.
  intros Hnd. unfold data_record. rewrite normalize_datetimes_map by done.
  simpl. rewrite map_map. f_equal. apply map_ext. intros s.
  by rewrite converted_name.
Qed.

Lemma data_document_normalized (df : DataFrame) :
  NoDup (columns df) ->
  data_document (normalize_datetimes df)
  = JArr (map (fun i => JObj (map (fun s => (name s,
                                             data_value (converted s) i))
                                  (series df)))
              (seq 0 (index_length df))).
Proof.
  intros Hnd. unfold data_document.
  rewrite (normalize_datetimes_map df Hnd) at 2. simpl. f_equal.
  apply map_ext. intros i. by apply data_record_normalized.
Qed.

(** ** Sample tables *)

(** The table that [read_csv] makes of the example of the specification. *)
Definition example_table : DataFrame :=
  {| index_length := 2;
     series :=
       [ {| name := "id"; dtype_of := int64; values := [CInt 1; CInt 2] |};
         {| name := "name"; dtype_of := object;
            values := [CStr "Alice"; CStr "Bob"] |};
         {| name := "score"; dtype_of := float64;
            values := [CFloat (19 # 2); NaN] |};
         {| name := "joined"; dtype_of := object;
            values := [CStr "2023-01-01"; CStr "2023-02-15"] |} ] |}.

(** The same table with its last column parsed as dates: 2023-01-01 and
    a missing date, in a naive datetime column. *)
Definition dated_table : DataFrame :=
  {| index_length := 2;
     series :=
       [ {| name := "id"; dtype_of := int64; values := [CInt 1; CInt 2] |};
         {| name := "joined"; dtype_of := datetime64 None;
            values := [CTime {| value := 1672531200 * 10 ^ 9;
                                utcoffset := 0 |};
                       NaT] |} ] |}.

(** The clock and the files do not matter to the statements; a world with
    nothing in it. *)
Definition empty_world : world :=
  {| sources := ∅; utcnow_isoformat := "2024-05-06T07:08:09.123456";
     dirs := ∅; files := ∅; stdout := []; refused := ∅; no_room := ∅ |}.

Definition with_required (required : list string) (args : Args) : Args :=
  {| input := input args; out := out args; required_columns := required;
     citation := citation args; license := license args; doi := doi args;
     contact := contact args; notes := notes args |}.

Lemma example_table_well_formed : well_formed example_table.
Proof. repeat constructor. Qed.

Lemma dated_table_well_formed : well_formed dated_table.
Proof. repeat constructor. Qed.

Lemma example_table_validated : validated example_args example_table.
Proof.
  split.
  - intros c Hc. by apply elem_of_nil in Hc.
  - apply duplicated_any_false. reflexivity.
Qed.

Lemma dated_table_validated : validated example_args dated_table.
Proof.
  split.
  - intros c Hc. by apply elem_of_nil in Hc.
  - apply duplicated_any_false. reflexivity.
Qed.

(** ** The columns that [read_csv] makes *)

Lemma lookup_combine_inv {A B : Type} (l : list A) (k : list B) (i : nat)
    (a : A) (b : B) :
  combine l k !! i = Some (a, b) -> l !! i = Some a /\ k !! i = Some b.
Proof.
  revert k i. induction l as [| x l IH]; intros [| y k] i H; try done.
  destruct i as [| i]; simpl in *.
  - by injection H as -> ->.
  - by apply IH.
Qed.

Lemma map_snd_combine {A B : Type} (l : list A) (k : list B) :
  length l = length k -> map snd (combine l k) = k.
Proof.
  revert k. induction l as [| a l IH]; intros [| b k] Hlen; try done.
  simpl in *. f_equal. apply IH. lia.
Qed.

(** What [traverse] returns holds the value of each element, in order. *)
Lemma traverse_Forall2 {A B : Type} (f : A -> option B) (l : list A)
    (r : list B) :
  traverse f l = Some r -> Forall2 (fun x y => f x = Some y) l r.
Proof.
  revert r. induction l as [| x l IH]; intros r; simpl.
  - intros [= <-]. constructor.
  - destruct (f x) as [y |] eqn:Ex; [| done].
    destruct (traverse f l) as [ys |]; [| done].
    intros [= <-]. constructor; [done | by apply IH].
Qed.

Lemma digit_run_nonneg (s : string) (acc : Z) :
  0 <= acc -> 0 <= fst (pd.digit_run acc s).
Proof.
  revert acc. induction s as [| c s IH]; intros acc Hacc; [done |].
  simpl. destruct (pd.is_digit c); [| done]. apply IH. lia.
Qed.

Lemma int64_of_digits_range (negative : bool) (p : string) (n : Z) :
  pd.int64_of_digits negative p = pd.IntValue n -> - 2 ^ 63 <= n < 2 ^ 63.
Proof.
  unfold pd.int64_of_digits.
  destruct (pd.starts_with_digit p); [| done].
  destruct (pd.digit_run 0 p) as [v rest].
  destruct (_ && _) eqn:E; [| done].
  destruct (pd.at_end rest); [| done]. intros [= <-].
  apply andb_true_iff in E as [E1 E2]. lia.
Qed.

Lemma str_to_int64_range (word : string) (n : Z) :
  pd.str_to_int64 word = pd.IntValue n -> - 2 ^ 63 <= n < 2 ^ 63.
Proof.
  unfold pd.str_to_int64.
  destruct (pd.skip_spaces word) as [| c rest];
    [apply int64_of_digits_range |].
  destruct c as [[] [] [] [] [] [] [] []]; apply int64_of_digits_range.
Qed.

Lemma uint64_of_digits_range (p : string) (n : Z) :
  pd.uint64_of_digits p = pd.UintValue n -> 0 <= n < 2 ^ 64.
Proof.
  unfold pd.uint64_of_digits.
  destruct (pd.starts_with_digit p); [| done].
  pose proof (digit_run_nonneg p 0 ltac:(lia)) as Hv.
  destruct (pd.digit_run 0 p) as [v rest]. simpl in Hv.
  destruct (v <? 2 ^ 64) eqn:E; [| done].
  destruct (pd.at_end rest); [| done]. intros [= <-]. lia.
Qed.

Lemma str_to_uint64_range (word : string) (n : Z) :
  pd.str_to_uint64 word = pd.UintValue n -> 0 <= n < 2 ^ 64.
Proof.
  unfold pd.str_to_uint64.
  destruct (pd.skip_spaces word) as [| c rest];
    [apply uint64_of_digits_range |].
  destruct c as [[] [] [] [] [] [] [] []];
    first [apply uint64_of_digits_range | done].
Qed.

Lemma scan_cons_converted {A : Type} (x : A) (rest : pd.scan A)
    (xs : list A) :
  pd.scan_cons x rest = pd.Converted xs ->
  exists xs', rest = pd.Converted xs' /\ xs = x :: xs'.
Proof. destruct rest; try done. intros [= <-]. by eexists. Qed.

(** The integers of a column read as int64: one per field, each an int64,
    and none exactly where the field is missing. *)
Lemma try_int64_converted (fields : list string) (ints : list (option Z)) :
  pd.try_int64 fields = pd.Converted ints ->
  Forall2 (fun f x => match x with
                      | Some n => pd.is_na f = false
                                  /\ pd.str_to_int64 f = pd.IntValue n
                                  /\ - 2 ^ 63 <= n < 2 ^ 63
                      | None => pd.is_na f = true
                      end) fields ints.
Proof.
  revert ints. induction fields as [| f fields IH]; intros ints; simpl.
  - intros [= <-]. constructor.
  - destruct (pd.is_na f) eqn:Ena.
    + intros H. apply scan_cons_converted in H as (xs & Hxs & ->).
      constructor; [done | by apply IH].
    + destruct (pd.str_to_int64 f) as [n | |] eqn:Ef; try done.
      intros H. apply scan_cons_converted in H as (xs & Hxs & ->).
      constructor; [| by apply IH].
      split; [done |]. split; [done |]. by apply (str_to_int64_range f).
Qed.

Lemma try_uint64_converted (fields : list string) (words : list pd.uint_word) :
  pd.try_uint64 fields = pd.Converted words ->
  Forall2 (fun f x => match x with
                      | pd.UintValue n => 0 <= n < 2 ^ 64
                      | _ => True
                      end) fields words.
Proof.
  revert words. induction fields as [| f fields IH]; intros words; simpl.
  - intros [= <-]. constructor.
  - destruct (pd.is_na f) eqn:Ena.
    + intros H. apply scan_cons_converted in H as (xs & Hxs & ->).
      constructor; [done | by apply IH].
    + destruct (pd.str_to_uint64 f) as [| | n | |] eqn:Ef; try done;
        intros H; apply scan_cons_converted in H as (xs & Hxs & ->);
        (constructor; [| by apply IH]); try done.
      by apply (str_to_uint64_range f).
Qed.

Lemma to_double_fits (word : string) (c : cell) :
  pd.to_double word = Some c -> fits float64 c = true.
Proof.
  unfold pd.to_double. destruct (pd.xstrtod word); [by intros [= <-] |].
  destruct (existsb _ _); [by intros [= <-] |].
  destruct (existsb _ _); [by intros [= <-] | done].
Qed.

Lemma try_double_converted (fields : list string) (cells : list cell) :
  pd.try_double fields = Some cells ->
  length cells = length fields
  /\ Forall (fun c => fits float64 c = true) cells.
Proof.
  intros H. split; [by apply traverse_length in H |].
  apply traverse_Forall2 in H. induction H as [| f c fs cs Hfc _ IH];
    [constructor |].
  constructor; [| exact IH].
  destruct (pd.is_na f); [by injection Hfc as <- |].
  by apply (to_double_fits f).
Qed.

Ltac listed := solve [repeat (first [by left | right])].

(** A value of the dtype, and a column of that dtype. *)
Definition column_of (label : string) (d : dtype) (cells : list cell)
    (n : nat) : Prop :=
  length cells = n /\ Forall (fun c => fits d c = true) cells
  /\ d ∈ [int64; uint64; float64; bool_; object].

Lemma Forall2_length_l {A B : Type} (P : A -> B -> Prop) (l : list A)
    (k : list B) :
  Forall2 P l k -> length k = length l.
Proof. intros H. symmetry. by eapply Forall2_length. Qed.

(** What [read_csv] makes of the fields of a column: a column with the
    label, one value per field, each a value of the column's dtype, which
    is one of int64, uint64, float64, bool and object. *)
Lemma infer_series_column (label : string) (fields : list string) :
  exists d cells,
    pd.infer_series label fields
    = {| name := label; dtype_of := d; values := cells |}
    /\ column_of label d cells (length fields).
Proof.
  unfold pd.infer_series, column_of.
  assert (Htexts : forall na_filter : bool,
            let cells := map (fun f => if na_filter && pd.is_na f then NaN
                                       else CStr f) fields in
            length cells = length fields
            /\ Forall (fun c => fits object c = true) cells
            /\ object ∈ [int64; uint64; float64; bool_; object]).
  { intros na_filter. split; [by rewrite length_map |]. split.
    - apply Forall_fmap, Forall_forall. intros f _. simpl.
      by destruct (na_filter && pd.is_na f).
    - listed. }
  assert (Hlater :
    exists d cells,
      match pd.try_double fields with
      | Some cells => {| name := label; dtype_of := float64;
                         values := cells |}
      | None =>
          match pd.try_bool fields with
          | Some bools =>
              if forallb (fun b => bool_decide (is_Some b)) bools
              then {| name := label; dtype_of := bool_;
                      values := map (fun b => CBool (default false b))
                                    bools |}
              else {| name := label; dtype_of := object;
                      values := map (fun b => match b with
                                              | Some b => CBool b
                                              | None => NaN
                                              end) bools |}
          | None =>
              {| name := label; dtype_of := object;
                 values := map (fun f => if true && pd.is_na f then NaN
                                         else CStr f) fields |}
          end
      end = {| name := label; dtype_of := d; values := cells |}
      /\ length cells = length fields
      /\ Forall (fun c => fits d c = true) cells
      /\ d ∈ [int64; uint64; float64; bool_; object]).
  { destruct (pd.try_double fields) as [cells |] eqn:Ed.
    { apply try_double_converted in Ed as [Hlen Hfit].
      eexists _, _. split; [done |]. split; [done |]. split; [done |].
      listed. }
    destruct (pd.try_bool fields) as [bools |] eqn:Eb.
    2:{ eexists _, _. split; [done |]. apply (Htexts true). }
    apply traverse_length in Eb.
    destruct (forallb _ bools); eexists _, _; (split; [done |]);
      (split; [by rewrite length_map |]); split; try listed;
      apply Forall_fmap, Forall_forall; intros b _; simpl; by destruct b. }
  destruct fields as [| f0 fields0] eqn:Efields.
  { eexists _, _. split; [done |]. split; [done |]. split; [constructor |].
    listed. }
  rewrite <- Efields in *. clear Efields f0 fields0.
  destruct (pd.try_int64 fields) as [ints | |] eqn:Eint; [| | exact Hlater].
  - apply try_int64_converted in Eint.
    pose proof (Forall2_length_l _ _ _ Eint) as Hlen.
    destruct (forallb _ ints) eqn:Eall; eexists _, _; (split; [done |]);
      (split; [by rewrite length_map |]); split; try listed.
    + apply Forall_fmap, Forall_forall. intros x Hx. simpl.
      rewrite forallb_forall in Eall.
      assert (Hsome : is_Some x).
      { eapply bool_decide_eq_true, Eall. by apply list_elem_of_In. }
      destruct Hsome as [n ->]. simpl.
      apply list_elem_of_lookup in Hx as [i Hx].
      destruct (Forall2_lookup_r _ _ _ _ _ Eint Hx) as (f & _ & _ & _ & Hn).
      apply andb_true_iff. split; [apply Z.leb_le | apply Z.ltb_lt]; lia.
    + apply Forall_fmap, Forall_forall. intros [n |] _; simpl; [| done].
      by destruct (n =? - 2 ^ 63).
  - destruct (pd.try_uint64 fields) as [words | |] eqn:Eu;
      [| eexists _, _; split; [done |]; apply (Htexts true) | exact Hlater].
    apply try_uint64_converted in Eu.
    pose proof (Forall2_length_l _ _ _ Eu) as Hlen.
    destruct (_ && _).
    { eexists _, _. split; [done |]. apply (Htexts false). }
    destruct (existsb _ words).
    { eexists _, _. split; [done |]. apply (Htexts true). }
    eexists _, _. split; [done |]. split; [by rewrite length_map |].
    split; [| listed].
    apply Forall_fmap, Forall_forall. intros x Hx.
    apply list_elem_of_lookup in Hx as [i Hx].
    destruct (Forall2_lookup_r _ _ _ _ _ Eu Hx) as (f & _ & Hn).
    destruct x as [| | n | |]; simpl; try done.
    apply andb_true_iff. split; [apply Z.leb_le | apply Z.ltb_lt]; lia.
Qed.

Lemma infer_series_length (label : string) (fields : list string) :
  length (values (pd.infer_series label fields)) = length fields.
Proof.
  destruct (infer_series_column label fields) as (d & cells & -> & H & _).
  exact H.
Qed.

Lemma infer_series_name (label : string) (fields : list string) :
  name (pd.infer_series label fields) = label.
Proof.
  by destruct (infer_series_column label fields) as (d & cells & -> & _).
Qed.

(** [read_csv] makes no datetime column: the dtype is one of five. *)
Lemma infer_series_dtype (label : string) (fields : list string) :
  dtype_of (pd.infer_series label fields)
  ∈ [int64; uint64; float64; bool_; object].
Proof.
  destruct (infer_series_column label fields)
    as (d & cells & -> & _ & _ & H).
  exact H.
Qed.

Lemma infer_series_fits (label : string) (fields : list string) :
  Forall (fun c => fits (dtype_of (pd.infer_series label fields)) c = true)
         (values (pd.infer_series label fields)).
Proof.
  destruct (infer_series_column label fields)
    as (d & cells & -> & _ & H & _).
  exact H.
Qed.

(** ** The table of a source *)

(** The series of the table of a source, one per header field. *)
Lemma parse_series (header : list string) (rows : list (list string))
    (df : DataFrame) :
  pd.parse (header :: rows) = Ok df ->
  index_length df = length rows
  /\ Forall (fun s => exists label fields,
               s = pd.infer_series label fields
               /\ length fields = length rows) (series df).
Proof.
  unfold pd.parse. destruct (existsb _ rows); [done |]. intros [= <-].
  split; [done |]. cbn [series]. apply Forall_fmap, Forall_forall.
  intros [j label] _. simpl. eexists _, _. split; [done |].
  unfold pd.column_fields. by rewrite length_map.
Qed.

Lemma parse_well_formed (records : list (list string)) (df : DataFrame) :
  pd.parse records = Ok df -> well_formed df.
Proof.
  destruct records as [| header rows]; [done |]. intros Hparse.
  destruct (parse_series header rows df Hparse) as [Hn Hseries].
  unfold well_formed. eapply Forall_impl; [exact Hseries |].
  intros s (label & fields & -> & Hlen). split.
  - by rewrite infer_series_length, Hn.
  - apply infer_series_fits.
Qed.

Lemma parse_raises (records : list (list string)) (e : exn) :
  pd.parse records = Raise e -> e = EmptyDataError \/ e = ParserError.
Proof.
  unfold pd.parse. destruct records as [| header rows].
  - intros [= <-]. by left.
  - destruct (existsb _ rows); [| done]. intros [= <-]. by right.
Qed.

Lemma dedup_step_length (state : list string * gmap string nat) (i : nat) :
  length (fst (pd.dedup_step state i)) = length (fst state).
Proof.
  unfold pd.dedup_step. destruct state as [this_header counts].
  destruct (pd.rename_taken _ _ _ _ _ _) as [[col cur_count] counts'].
  simpl. apply length_insert.
Qed.

Lemma fold_dedup_step_length (order : list nat)
    (state : list string * gmap string nat) :
  length (fst (fold_left pd.dedup_step order state)) = length (fst state).
Proof.
  revert state. induction order as [| i order IH]; intros state; [done |].
  simpl. by rewrite IH, dedup_step_length.
Qed.

(** One label per header field. *)
Lemma header_labels_length (header : list string) :
  length (pd.header_labels header) = length header.
Proof.
  unfold pd.header_labels. rewrite fold_dedup_step_length. simpl.
  by rewrite length_map, length_seq.
Qed.




(** The columns of the table of a source are the labels of its header. *)
Lemma parse_columns (header : list string) (rows : list (list string))
    (df : DataFrame) :
  pd.parse (header :: rows) = Ok df ->
  columns df = pd.header_labels header /\ index_length df = length rows.
Proof.
  unfold pd.parse. destruct (existsb _ rows); [done |]. intros [= <-].
  split; [| done]. unfold columns. cbn [series]. rewrite map_map.
  rewrite <- (map_snd_combine (seq 0 (length header))
                (pd.header_labels header)) at 2
    by (by rewrite length_seq, header_labels_length).
  apply map_ext. intros [j label]. apply infer_series_name.
Qed.

(** Column [j] of the table of a source is what [read_csv] makes of the
    fields under field [j] of the header, with the label of that field. *)
Lemma parse_lookup (header : list string) (rows : list (list string))
    (df : DataFrame) (j : nat) (label : string) :
  pd.parse (header :: rows) = Ok df ->
  pd.header_labels header !! j = Some label ->
  series df !! j
  = Some (pd.infer_series label (pd.column_fields header rows j)).
Proof.
  unfold pd.parse. destruct (existsb _ rows); [done |]. intros [= <-] Hj.
  cbn [series]. rewrite list_lookup_fmap.
  assert (Hc : combine (seq 0 (length header)) (pd.header_labels header) !! j
               = Some (j, label)).
  { apply lookup_lt_Some in Hj as Hlt. rewrite header_labels_length in Hlt.
    destruct (combine _ _ !! j) as [[j' label'] |] eqn:E.
    - apply lookup_combine_inv in E as [Hj' Hl].
      apply lookup_seq in Hj' as [-> _]. simpl. congruence.
    - apply lookup_ge_None in E.
      rewrite length_combine, length_seq, header_labels_length in E. lia. }
  by rewrite Hc.
Qed.

(** ** The labels of a header are distinct *)

Lemma of_nat_inj (a b : nat) : Str.of_nat a = Str.of_nat b -> a = b.
Proof.
  unfold Str.of_nat. intros H.
  assert (Hu : Some (Nat.to_uint a) = Some (Nat.to_uint b))
    by (by rewrite <- !NilEmpty.usu, H).
  injection Hu as Hu.
  by rewrite <- (DecimalNat.Unsigned.of_to a), Hu, DecimalNat.Unsigned.of_to.
Qed.

(** The label tried for the [k]-th repetition of [old_col]. *)
Definition candidate (old_col : string) (k : nat) : string :=
  old_col +:+ "." +:+ Str.of_nat k.

Lemma candidate_inj (old_col : string) (a b : nat) :
  candidate old_col a = candidate old_col b -> a = b.
Proof.
  unfold candidate. intros H. apply append_inj_l in H.
  apply (append_inj_l ".") in H. by apply of_nat_inj.
Qed.

Lemma candidate_ne (old_col : string) (k : nat) : candidate old_col k <> old_col.
Proof.
  unfold candidate. intros H.
  assert (Hlen : String.length (old_col +:+ "." +:+ Str.of_nat k)
                 = String.length old_col) by (by rewrite H).
  rewrite !length_append_string in Hlen. simpl in Hlen. lia.
Qed.

(** A label that the counts know. *)
Definition counted (counts : gmap string nat) (k : string) : Prop :=
  default O (counts !! k) <> O.

Lemma rename_taken_exit (this_header : list string) (old_col : string)
    (fuel : nat) (seen : list string) (counts : gmap string nat)
    (cur_count : nat) (col : string) :
  NoDup seen -> (forall x, x ∈ seen -> x ∈ this_header) ->
  (forall x, x ∈ seen ->
             exists k, (k < cur_count)%nat /\ x = candidate old_col k) ->
  (length this_header < length seen + fuel)%nat ->
  cur_count <> O ->
  (forall k, counted counts k -> k ∈ this_header) ->
  old_col ∈ this_header ->
  exists col' n,
    pd.rename_taken fuel this_header old_col counts cur_count col
    = (col', O, <[old_col := S n]> counts)
    /\ (col' ∉ this_header)
    /\ default O (<[old_col := S n]> counts !! col') = O.
Proof.
  revert seen counts cur_count col.
  induction fuel as [| fuel IH];
    intros seen counts cur_count col Hnd Hsub Hform Hfuel Hcur Hcounted Hold.
  - exfalso.
    pose proof (submseteq_length _ _ (NoDup_submseteq _ _ Hnd Hsub)). lia.
  - destruct cur_count as [| c]; [done |]. cbn [pd.rename_taken].
    fold (candidate old_col (S c)).
    destruct (existsb (String.eqb (candidate old_col (S c))) this_header)
      eqn:Ein.
    + apply existsb_eqb_elem_of in Ein.
      destruct (IH (candidate old_col (S c) :: seen)
                  (<[old_col := S (S c)]> counts) (S (S c))
                  (candidate old_col (S c)))
        as (col' & n & Hrun & Hnot & Hzero).
      * apply NoDup_cons. split; [| done]. intros Hin.
        destruct (Hform _ Hin) as (k & Hk & Heq).
        apply candidate_inj in Heq. lia.
      * intros x Hx. apply elem_of_cons in Hx as [-> | Hx]; [done |].
        by apply Hsub.
      * intros x Hx. apply elem_of_cons in Hx as [-> | Hx].
        -- exists (S c). split; [lia | done].
        -- destruct (Hform _ Hx) as (k & Hk & Heq). exists k.
           split; [lia | done].
      * simpl. lia.
      * done.
      * intros k Hk. unfold counted in Hk. rewrite lookup_insert in Hk.
        destruct (decide (old_col = k)) as [<- | Hne]; [done |].
        by apply Hcounted.
      * done.
      * exists col', n. rewrite Hrun. rewrite insert_insert_eq in *.
        split; [done |]. split; done.
    + apply existsb_eqb_not_elem_of in Ein.
      assert (Hzero : default O (<[old_col := S (S c)]> counts
                                   !! candidate old_col (S c)) = O).
      { rewrite lookup_insert_ne by (intros H; by apply (candidate_ne old_col (S c))).
        destruct (decide (default O (counts !! candidate old_col (S c)) = O))
          as [| Hpos]; [done |].
        exfalso. apply Ein. by apply Hcounted. }
      rewrite Hzero. exists (candidate old_col (S c)), (S c).
      split; [by destruct fuel |]. split; done.
Qed.

(** What the renaming loop keeps true of the header and of the counts once
    the positions [done_] are settled: a settled label is counted, a
    counted label is a settled label, and no two settled positions have the
    same label. *)
Definition settled (done_ : list nat)
    (state : list string * gmap string nat) : Prop :=
  (forall p, p ∈ done_ ->
             exists x, fst state !! p = Some x /\ counted (snd state) x)
  /\ (forall k, counted (snd state) k ->
                exists p, p ∈ done_ /\ fst state !! p = Some k)
  /\ (forall p q x, p ∈ done_ -> q ∈ done_ ->
                    fst state !! p = Some x -> fst state !! q = Some x ->
                    p = q).

Lemma counted_insert (counts : gmap string nat) (k x : string) (n : nat) :
  counted (<[k := S n]> counts) x <-> x = k \/ counted counts x.
Proof.
  unfold counted. rewrite lookup_insert.
  destruct (decide (k = x)) as [-> | Hne]; simpl.
  - split; [by left | done].
  - split; [by right |]. intros [-> | H]; done.
Qed.

Lemma dedup_step_settled (done_ : list nat)
    (state : list string * gmap string nat) (i : nat) :
  settled done_ state -> i ∉ done_ -> (i < length (fst state))%nat ->
  settled (i :: done_) (pd.dedup_step state i).
Proof.
  destruct state as [h counts]. intros (I1 & I2 & I3) Hi Hlen.
  cbn [fst snd] in *.
  destruct (lookup_lt_is_Some_2 h i Hlen) as [old Hold].
  assert (Hin : forall k, counted counts k -> k ∈ h).
  { intros k Hk. destruct (I2 k Hk) as (p & _ & Hp).
    apply list_elem_of_lookup. by exists p. }
  unfold pd.dedup_step. rewrite nth_lookup, Hold.
  change (default EmptyString (Some old)) with old.
  destruct (default O (counts !! old)) as [| c] eqn:Ecur.
  - cbn [pd.rename_taken]. rewrite (list_insert_id h i old Hold).
    split; [| split]; cbn [fst snd].
    + intros p Hp. apply elem_of_cons in Hp as [-> | Hp].
      * exists old. split; [done |]. apply counted_insert. by left.
      * destruct (I1 p Hp) as (x & Hx & Hc). exists x. split; [done |].
        apply counted_insert. by right.
    + intros k Hk. apply counted_insert in Hk as [-> | Hk].
      * exists i. split; [left | done].
      * destruct (I2 k Hk) as (p & Hp & Hx). exists p. split; [by right | done].
    + assert (Hfresh : forall q, q ∈ done_ -> h !! q <> Some old).
      { intros q Hq Hx. destruct (I1 q Hq) as (x & Hx' & Hc).
        rewrite Hx in Hx'. injection Hx' as <-. by apply Hc. }
      intros p q x Hp Hq Hpx Hqx.
      apply elem_of_cons in Hp as [-> | Hp];
        apply elem_of_cons in Hq as [-> | Hq]; try done.
      * rewrite Hold in Hpx. injection Hpx as <-. by destruct (Hfresh q Hq).
      * rewrite Hold in Hqx. injection Hqx as <-. by destruct (Hfresh p Hp).
      * by apply (I3 p q x).
  - destruct (rename_taken_exit h old (S (length h)) [] counts (S c) old)
      as (col' & n & Hrun & Hnot & Hzero).
    + constructor.
    + intros x Hx. by apply elem_of_nil in Hx.
    + intros x Hx. by apply elem_of_nil in Hx.
    + simpl. lia.
    + done.
    + exact Hin.
    + apply list_elem_of_lookup. by exists i.
    + rewrite Hrun.
      assert (Hother : forall p, p ∈ done_ -> <[i := col']> h !! p = h !! p).
      { intros p Hp. apply list_lookup_insert_ne. intros ->. done. }
      assert (Hself : <[i := col']> h !! i = Some col')
        by (by apply list_lookup_insert_eq).
      assert (Hcold : counted counts old)
        by (unfold counted; by rewrite Ecur).
      split; [| split]; cbn [fst snd].
      * intros p Hp. apply elem_of_cons in Hp as [-> | Hp].
        -- exists col'. split; [done |]. apply counted_insert. by left.
        -- destruct (I1 p Hp) as (x & Hx & Hc). exists x.
           split; [by rewrite Hother |].
           apply counted_insert. right. apply counted_insert. by right.
      * intros k Hk. apply counted_insert in Hk as [-> | Hk].
        -- exists i. split; [left | done].
        -- apply counted_insert in Hk as [-> | Hk].
           ++ destruct (I2 old Hcold) as (p & Hp & Hx). exists p.
              split; [by right |]. by rewrite Hother.
           ++ destruct (I2 k Hk) as (p & Hp & Hx). exists p.
              split; [by right |]. by rewrite Hother.
      * assert (Hfresh : forall q, q ∈ done_ -> h !! q <> Some col').
        { intros q Hq Hx. apply Hnot. apply list_elem_of_lookup.
          by exists q. }
        intros p q x Hp Hq Hpx Hqx.
        apply elem_of_cons in Hp as [-> | Hp];
          apply elem_of_cons in Hq as [-> | Hq]; try done.
        -- rewrite Hself in Hpx. injection Hpx as <-.
           rewrite Hother in Hqx by done. by destruct (Hfresh q Hq).
        -- rewrite Hself in Hqx. injection Hqx as <-.
           rewrite Hother in Hpx by done. by destruct (Hfresh p Hp).
        -- rewrite Hother in Hpx, Hqx by done. by apply (I3 p q x).
Qed.

Lemma fold_dedup_step_settled (order done_ : list nat)
    (state : list string * gmap string nat) :
  NoDup order ->
  (forall i, i ∈ order -> (i ∉ done_) /\ (i < length (fst state))%nat) ->
  settled done_ state ->
  exists done', settled done' (fold_left pd.dedup_step order state)
                /\ forall i, i ∈ done' <-> i ∈ order \/ i ∈ done_.
Proof.
  revert done_ state.
  induction order as [| i order IH]; intros done_ state Hnd Hall Hinv.
  - exists done_. split; [done |]. intros i. split; [by right |].
    intros [H | H]; [by apply elem_of_nil in H | done].
  - apply NoDup_cons in Hnd as [Hi Hnd]. simpl.
    destruct (Hall i) as [Hid Hlen]; [left |].
    destruct (IH (i :: done_) (pd.dedup_step state i)) as (done' & Hs & Hd).
    + done.
    + intros k Hk. rewrite dedup_step_length. split.
      * intros Hin. apply elem_of_cons in Hin as [-> | Hin]; [done |].
        assert (Hk' : k ∈ i :: order) by (by right).
        by destruct (Hall k Hk').
      * assert (Hk' : k ∈ i :: order) by (by right).
        by destruct (Hall k Hk').
    + by apply dedup_step_settled.
    + exists done'. split; [done |]. intros k. rewrite Hd.
      rewrite !elem_of_cons. tauto.
Qed.

(** The labels that [read_csv] gives a header are distinct, whatever the
    header. *)
Lemma header_labels_distinct (header : list string) :
  NoDup (pd.header_labels header).
Proof.
  unfold pd.header_labels.
  set (unnamed := fun i => String.eqb (nth i header EmptyString) "").
  set (this_header := map _ (seq 0 (length header))).
  set (order := (_ ++ _)%list).
  assert (Hlen : length this_header = length header)
    by (unfold this_header; by rewrite length_map, length_seq).
  assert (Horder : forall i, i ∈ order <-> (i < length header)%nat).
  { intros i. unfold order.
    rewrite elem_of_app, !list_elem_of_In, !filter_In, !in_seq. split.
    - intros [[Hin _] | [Hin _]]; lia.
    - intros Hi. destruct (unnamed i) eqn:E.
      + right. split; [lia | done].
      + left. split; [lia |]. change (negb (unnamed i) = true).
        by rewrite E. }
  destruct (fold_dedup_step_settled order [] (this_header, ∅))
    as (done' & (_ & _ & I3) & Hdone).
  - unfold order. apply NoDup_app. split; [| split].
    + apply NoDup_ListNoDup, List.NoDup_filter, NoDup_ListNoDup, NoDup_seq.
    + intros i Ha Hb. apply list_elem_of_In, filter_In in Ha as [_ Ha].
      apply list_elem_of_In, filter_In in Hb as [_ Hb].
      change (negb (unnamed i) = true) in Ha. rewrite Hb in Ha.
      discriminate Ha.
    + apply NoDup_ListNoDup, List.NoDup_filter, NoDup_ListNoDup, NoDup_seq.
  - intros i Hi. split; [by intros H%elem_of_nil |].
    cbn [fst]. rewrite Hlen. by apply Horder.
  - split; [| split].
    + by intros p H%elem_of_nil.
    + intros k Hk. unfold counted in Hk. cbn [snd] in Hk.
      by rewrite lookup_empty in Hk.
    + by intros p q x H%elem_of_nil.
  - apply NoDup_alt. intros i j x Hi Hj.
    assert (Hl : length (fst (fold_left pd.dedup_step order
                                (this_header, ∅))) = length header)
      by (by rewrite fold_dedup_step_length).
    apply (I3 i j x); try done.
    + apply Hdone. left. apply Horder. rewrite <- Hl.
      by apply lookup_lt_Some in Hi.
    + apply Hdone. left. apply Horder. rewrite <- Hl.
      by apply lookup_lt_Some in Hj.
Qed.


Lemma parse_distinct (records : list (list string)) (df : DataFrame) :
  pd.parse records = Ok df -> NoDup (columns df).
Proof.
  destruct records as [| header rows]; [done |]. intros Hp.
  destruct (parse_columns header rows df Hp) as [-> _].
  apply header_labels_distinct.
Qed.

(** The table of a source has no datetime column: the normalizer leaves
    every column of it as it is. *)
Lemma converted_infer_series (label : string) (fields : list string) :
  converted (pd.infer_series label fields) = pd.infer_series label fields.
Proof.
  pose proof (infer_series_dtype label fields) as Hd.
  unfold converted, pd.is_datetime64_any_dtype.
  destruct (dtype_of (pd.infer_series label fields)) eqn:Ed; try done.
  exfalso.
  repeat (apply elem_of_cons in Hd as [Hd | Hd]; [discriminate Hd |]).
  by apply elem_of_nil in Hd.
Qed.

Lemma normalize_datetimes_parsed (records : list (list string))
    (df : DataFrame) :
  pd.parse records = Ok df -> normalize_datetimes df = df.
Proof.
  intros Hp. rewrite normalize_datetimes_map by (by eapply parse_distinct).
  destruct records as [| header rows]; [done |].
  destruct (parse_series header rows df Hp) as [_ Hseries].
  destruct df as [n l]. cbn [index_length series] in *. f_equal.
  rewrite <- (map_id l) at 2. apply map_ext_in. intros s Hs.
  rewrite Forall_forall in Hseries.
  destruct (Hseries s) as (label & fields & -> & _);
    [by apply list_elem_of_In |].
  apply converted_infer_series.
Qed.

(** ** The whole run *)

Lemma main_run (args : Args) (w : world) :
  main args w
  = match sources w !! input args with
    | None => (Raise FileNotFoundError, w)
    | Some records =>
        match pd.parse records with
        | Ok df => ingest args df w
        | Raise e => (Raise e, w)
        end
    end.
Proof.
  unfold main, read_csv, pd.read_csv, mbind, M_bind.
  destruct (_ || _); destruct (sources w !! input args) as [records |];
    try done; by destruct (pd.parse records).
Qed.

(** A run of [ingest] that returns passed both checks, was let through by
    the system, and wrote the three documents. *)
Lemma ingest_ok_inv (args : Args) (df : DataFrame) (w w' : world) :
  ingest args df w = (Ok tt, w') ->
  NoDup (columns df) /\ missing_columns args df = []
  /\ writable args w = true
  /\ exists records,
       length records = index_length df
       /\ encode (py_records (pd.to_dict_records
                    (pd.where_notnull_none (normalize_datetimes df))))
          = Some (JArr records)
       /\ w' = emitted args df (normalize_datetimes df) (JArr records) w.
Proof.
  intros Hrun.
  destruct (missing_columns args df) as [| c l] eqn:Em.
  2:{ rewrite ingest_missing in Hrun by (by rewrite Em). done. }
  destruct (decide (NoDup (columns df))) as [Hnd | Hnd].
  2:{ rewrite ingest_duplicated in Hrun by done. done. }
  split; [done |]. split; [done |].
  rewrite ingest_validated in Hrun by done.
  apply emit_ok_inv in Hrun as (Hw & doc & Hdoc & ->).
  split; [done |].
  unfold py_records in Hdoc. cbn [encode] in Hdoc.
  destruct (traverse encode _) as [records |] eqn:Et; [| done].
  injection Hdoc as <-. exists records. split; [| split; [| done]].
  - apply traverse_length in Et. rewrite Et, length_map.
    unfold pd.to_dict_records. rewrite length_map, length_seq. simpl.
    unfold normalize_datetimes.
    rewrite fold_convert_datetime by done. done.
  - unfold py_records. cbn [encode]. by rewrite Et.
Qed.

(** The run of [main] on a source that [read_csv] reads: the table is
    well formed and its labels are distinct, so the run stops for a missing
    required column or goes through lines 126 to 139 with records that
    [json.dump] can write. *)
Lemma main_parsed (args : Args) (w : world) (records : list (list string))
    (df : DataFrame) :
  sources w !! input args = Some records -> pd.parse records = Ok df ->
  main args w
  = match missing_columns args df with
    | [] => emit args df df (Some (data_document df)) w
    | missing => (Raise (SystemExit (MissingRequired missing)), stopped df w)
    end.
Proof.
  intros Hs Hp. rewrite main_run, Hs, Hp.
  destruct (missing_columns args df) as [| c l] eqn:Em.
  - rewrite ingest_well_formed_emit.
    + by rewrite (normalize_datetimes_parsed records df Hp).
    + by eapply parse_well_formed.
    + split; [by apply missing_columns_nil | by eapply parse_distinct].
  - rewrite ingest_missing by (by rewrite Em). by rewrite Em.
Qed.

(** * The claims *)

(** C3: for every table and every list of required column names, when some
    required name is not a column of the table the run stops with the
    error that carries exactly the required names the table lacks (all of
    them, in the order they were required), the exit status is 1, and no
    file and no directory is created; when every required name is a column
    the check lets the run go on exactly as a run that requires nothing
    does, on the same table. *)
Theorem C3_missing_required_columns (args : Args) (df : DataFrame)
    (w : world) :
  ((exists c, c ∈ required_columns args /\ c ∉ columns df) ->
   exists missing w',
     ingest args df w = (Raise (SystemExit (MissingRequired missing)), w')
     /\ missing = List.filter (fun c => bool_decide (c ∉ columns df))
                              (required_columns args)
     /\ (forall c, c ∈ missing
                   <-> c ∈ required_columns args /\ c ∉ columns df)
     /\ exit_status (fst (ingest args df w)) = 1
     /\ files w' = files w /\ dirs w' = dirs w)
  /\ ((forall c, c ∈ required_columns args -> c ∈ columns df) ->
      ingest args df w = ingest (with_required [] args) df w).
Proof.
  split.
  - intros (c & Hreq & Hcol).
    assert (Hne : missing_columns args df <> []).
    { intros Hnil. apply (elem_of_nil c). rewrite <- Hnil.
      by apply missing_columns_spec. }
    exists (missing_columns args df), (stopped df w).
    rewrite (ingest_missing args df w Hne).
    split; [done |]. split; [| split; [| done]].
    + unfold missing_columns. apply filter_ext. intros x.
      destruct (existsb (String.eqb x) (columns df)) eqn:E; simpl.
      * apply existsb_eqb_elem_of in E. symmetry.
        apply bool_decide_eq_false. by intros H.
      * apply existsb_eqb_not_elem_of in E. symmetry.
        by apply bool_decide_eq_true.
    + intros x. apply missing_columns_spec.
  - intros Hall. apply missing_columns_nil in Hall.
    unfold ingest, mbind, M_bind, print. simpl.
    fold (missing_columns args df). by rewrite Hall.
Qed.

Lemma C3_missing_required_columns_witness :
  (exists missing w',
     ingest (with_required ["a"; "b"; "c"] example_args)
            {| index_length := 0;
               series := [ {| name := "a"; dtype_of := object;
                              values := [] |} ] |}
            empty_world
     = (Raise (SystemExit (MissingRequired missing)), w')
     /\ missing = ["b"; "c"]
     /\ files w' = ∅)
  /\ ingest (with_required ["id"; "score"] example_args) example_table
            empty_world
     = ingest (with_required [] (with_required ["id"; "score"] example_args))
              example_table empty_world.
Proof.
  split.
  - destruct (proj1 (C3_missing_required_columns
                       (with_required ["a"; "b"; "c"] example_args)
                       {| index_length := 0;
                          series := [ {| name := "a"; dtype_of := object;
                                         values := [] |} ] |}
                       empty_world))
      as (missing & w' & Hrun & Hmissing & _ & _ & Hfiles & _).
    + exists "b". split; [by vm_compute; right; left |].
      intros H. apply list_elem_of_In in H. vm_compute in H.
      destruct H as [H | []]. discriminate H.
    + exists missing, w'. split; [exact Hrun |]. split; [| exact Hfiles].
      rewrite Hmissing. reflexivity.
  - apply (proj2 (C3_missing_required_columns
                    (with_required ["id"; "score"] example_args)
                    example_table empty_world)).
    intros c Hc. apply list_elem_of_In in Hc. apply list_elem_of_In.
    vm_compute in Hc. vm_compute. intuition.
Defined.

(** The records of [data.json], row by row, for a table that is written. *)
Lemma data_records_lookup (df : DataFrame) (i : nat) :
  (i < index_length df)%nat ->
  map (fun i => JObj (map (fun s => (name s, data_value (converted s) i))
                          (series df)))
      (seq 0 (index_length df)) !! i
  = Some (JObj (map (fun s => (name s, data_value (converted s) i))
                    (series df))).
Proof.
  intros Hi. rewrite list_lookup_fmap, lookup_seq_lt by done. done.
Qed.

(** C6: for every well-formed table with N rows and M columns that passes
    validation, when the system lets the run write, the run returns and
    [data.json] is an array of exactly N records; record [i] is an object
    of exactly M members whose keys are the column names in the table's
    column order, and its member [j] holds what [json.dump] writes for the
    value of row [i] of column [j], so the records follow the rows of the
    source. *)
Theorem C6_rows_and_keys (args : Args) (df : DataFrame) (w : world) :
  well_formed df -> validated args df -> writable args w = true ->
  exists records,
    fst (ingest args df w) = Ok tt
    /\ files (snd (ingest args df w)) !! Str.path_join (out args) "data.json"
       = Some (Some (JArr records))
    /\ length records = index_length df
    /\ forall i, (i < index_length df)%nat ->
       exists members,
         records !! i = Some (JObj members)
         /\ length members = length (series df)
         /\ dict_keys members = columns df
         /\ forall j s c, series df !! j = Some s ->
                          values s !! i = Some c ->
                          members !! j
                          = Some (name s, emitted_cell (dtype_of s) c).
Proof.
  intros Hwf Hval Hw. pose proof Hval as [_ Hnd].
  rewrite (ingest_well_formed args df w Hwf Hval Hw). cbn [fst snd].
  rewrite emitted_data_file, (data_document_normalized df Hnd).
  eexists. split; [done |]. split; [done |]. split.
  - by rewrite length_map, length_seq.
  - intros i Hi. eexists. split; [by apply data_records_lookup |].
    split; [by rewrite length_map |]. split.
    + unfold dict_keys, columns. rewrite map_map. by apply map_ext.
    + intros j s c Hs Hc. rewrite list_lookup_fmap, Hs. simpl.
      destruct (well_formed_fits df j i s c Hwf Hs Hc) as [Hfit _].
      by rewrite (data_value_converted s i c Hfit Hc).
Qed.

Lemma C6_rows_and_keys_witness :
  exists records,
    fst (ingest example_args example_table empty_world) = Ok tt
    /\ files (snd (ingest example_args example_table empty_world))
         !! Str.path_join (out example_args) "data.json"
       = Some (Some (JArr records))
    /\ length records = 2%nat
    /\ forall i, (i < 2)%nat ->
       exists members,
         records !! i = Some (JObj members)
         /\ length members = 4%nat
         /\ dict_keys members = ["id"; "name"; "score"; "joined"]
         /\ forall j s c, series example_table !! j = Some s ->
                          values s !! i = Some c ->
                          members !! j
                          = Some (name s, emitted_cell (dtype_of s) c).
Proof.
  apply (C6_rows_and_keys example_args example_table empty_world
           example_table_well_formed example_table_validated).
  vm_compute. reflexivity.
Defined.

(** The value under which a missing cell of a column of dtype [d] is
    written. *)
Definition missing_value (d : dtype) : json :=
  match d with
  | float64 => JNaN
  | _ => JNull
  end.

(** C5: the code does not do what the claim says.  For every well-formed
    table that passes validation, when the system lets the run write, a
    cell that is missing is in [data.json] the member of its row's record
    under its column's name, never left out; its value is null when the
    column is an object column or a datetime column, and the token NaN,
    which is not JSON, when the column is a float64 column: line 127 asks
    [where] to put [None], and [where] keeps the nan of a float64 column.
    The empty score of the example of the specification is written NaN. *)
Theorem C5_missing_values (args : Args) (df : DataFrame) (w : world) :
  well_formed df -> validated args df -> writable args w = true ->
  exists records,
    files (snd (ingest args df w)) !! Str.path_join (out args) "data.json"
    = Some (Some (JArr records))
    /\ forall j s i c,
         series df !! j = Some s -> values s !! i = Some c ->
         pd.notnull c = false ->
         exists members,
           records !! i = Some (JObj members)
           /\ members !! j = Some (name s, missing_value (dtype_of s))
           /\ dict_get (name s) members
              = Some (missing_value (dtype_of s)).
Proof.
  intros Hwf Hval Hw. pose proof Hval as [_ Hnd].
  rewrite (ingest_well_formed args df w Hwf Hval Hw). cbn [snd].
  rewrite emitted_data_file, (data_document_normalized df Hnd).
  eexists. split; [done |].
  intros j s i c Hs Hc Hnull.
  destruct (well_formed_fits df j i s c Hwf Hs Hc) as [Hfit Hi].
  eexists. split; [by apply data_records_lookup |].
  assert (Hmember :
    map (fun s0 => (name s0, data_value (converted s0) i)) (series df) !! j
    = Some (name s, missing_value (dtype_of s))).
  { rewrite list_lookup_fmap, Hs. simpl.
    rewrite (data_value_converted s i c Hfit Hc).
    revert Hfit. by destruct (dtype_of s), c. }
  split; [exact Hmember |].
  apply (dict_get_lookup _ _ _ j); [| exact Hmember].
  unfold dict_keys. rewrite map_map. exact Hnd.
Qed.

Lemma C5_missing_values_witness :
  pd.parse example_records = Ok example_table
  /\ exists records members,
       files (snd (ingest example_args example_table example_world))
         !! Str.path_join (out example_args) "data.json"
       = Some (Some (JArr records))
       /\ records !! 1%nat = Some (JObj members)
       /\ members !! 2%nat = Some ("score", JNaN)
       /\ dict_get "score" members = Some JNaN.
Proof.
  split; [by vm_compute |].
  destruct (C5_missing_values example_args example_table example_world
              example_table_well_formed example_table_validated)
    as (records & Hfile & Hnull); [by vm_compute |].
  destruct (Hnull 2%nat _ 1%nat NaN eq_refl eq_refl eq_refl)
    as (members & Hrecord & Hmember & Hget).
  exists records, members. split; [exact Hfile |]. split; [exact Hrecord |].
  split; [exact Hmember | exact Hget].
Defined.

(** The run of [main] on the example of the specification writes the token
    NaN for the empty score of its second record, where the claim says
    null. *)
Lemma C5_example_nan :
  exists records members,
    files (snd (main example_args example_world)) !! "docs/data.json"
    = Some (Some (JArr records))
    /\ records !! 1%nat = Some (JObj members)
    /\ dict_get "score" members = Some JNaN
    /\ dict_get "score" members <> Some JNull.
Proof.
  eexists _, _. split; [by vm_compute |]. split; [by vm_compute |].
  split; [by vm_compute |]. by vm_compute.
Qed.

(** ** The schema entries *)

Lemma sorter_of_cases (dtype : string) :
  sorter_of dtype ∈ ["number"; "date"; "string"].
Proof.
  unfold sorter_of.
  destruct (_ || _); [left |]. destruct (_ || _); [right; left |].
  right; right; left.
Qed.

(** The title in the words of the specification, character by character,
    for a name of ASCII characters: an underscore is rendered as a space; a
    letter is written as a capital when it starts a word, that is when no
    letter stands before it, and as a small letter otherwise; any other
    character is kept. *)
Definition is_letter (c : ascii) : bool :=
  let n := nat_of_ascii c in
  ((65 <=? n) && (n <=? 90) || (97 <=? n) && (n <=? 122))%nat.

Definition title_cased (after_letter : bool) (c : ascii) : ascii :=
  let n := nat_of_ascii c in
  if (n =? 95)%nat then " "%char
  else if ((97 <=? n) && (n <=? 122))%nat
  then (if after_letter then c else ascii_of_nat (n - 32))
  else if ((65 <=? n) && (n <=? 90))%nat
  then (if after_letter then ascii_of_nat (n + 32) else c)
  else c.

(** A letter stands before position [i] of [s]. *)
Definition after_letter (s : string) (i : nat) : bool :=
  match i with
  | O => false
  | S k => match String.get k s with
           | Some p => is_letter p
           | None => false
           end
  end.

Definition titled (name title : string) : Prop :=
  String.length title = String.length name
  /\ forall i c, String.get i name = Some c ->
                 String.get i title
                 = Some (title_cased (after_letter name i) c).

Lemma title_char (previous : bool) (c : ascii) :
  let c' := if Ascii.eqb c "_" then " "%char else c in
  Str.is_cased c' = is_letter c
  /\ (if Str.is_cased c'
      then (if previous then Str.lower c' else Str.upper c')
      else c') = title_cased previous c.
Proof.
  destruct previous; destruct c as [[] [] [] [] [] [] [] []];
    vm_compute; split; reflexivity.
Qed.

Lemma title_from_get (s : string) (previous : bool) (i : nat) (c : ascii) :
  String.get i s = Some c ->
  String.get i (Str.title_from previous (Str.replace "_" " " s))
  = Some (title_cased (match i with
                       | O => previous
                       | S _ => after_letter s i
                       end) c).
Proof.
  revert previous i. induction s as [| c0 s IH]; intros previous i Hc;
    [by destruct i |].
  cbn [Str.replace Str.title_from].
  destruct (title_char previous c0) as [Hcased Hchar]. cbv zeta in *.
  set (c' := if Ascii.eqb c0 "_" then " "%char else c0) in *.
  destruct i as [| k].
  - simpl in Hc. injection Hc as <-. rewrite <- Hchar.
    by destruct (Str.is_cased c').
  - simpl in Hc.
    assert (Hrest : String.get k (Str.title_from (is_letter c0)
                                    (Str.replace "_" " " s))
                    = Some (title_cased (after_letter (String c0 s) (S k))
                              c)).
    { rewrite (IH (is_letter c0) k Hc). destruct k; done. }
    rewrite <- Hcased in Hrest.
    by destruct (Str.is_cased c').
Qed.

Lemma title_from_length (previous : bool) (s : string) :
  String.length (Str.title_from previous s) = String.length s.
Proof.
  revert previous. induction s as [| c s IH]; intros previous; [done |].
  simpl. destruct (Str.is_cased c); simpl; by rewrite IH.
Qed.

Lemma replace_length (old new : ascii) (s : string) :
  String.length (Str.replace old new s) = String.length s.
Proof. induction s as [| c s IH]; [done |]. simpl. by rewrite IH. Qed.

(** The title of line 57 is the title of the specification. *)
Lemma title_titled (col : string) :
  titled col (Str.title (Str.replace "_" " " col)).
Proof.
  split.
  - unfold Str.title. by rewrite title_from_length, replace_length.
  - intros i c Hc. unfold Str.title. rewrite (title_from_get col false i c Hc).
    by destruct i.
Qed.

(** A table whose labels have underscores, capitals and digits. *)
Definition labelled_table : DataFrame :=
  {| index_length := 1;
     series :=
       [ {| name := "first_name"; dtype_of := object;
            values := [CStr "Ada"] |};
         {| name := "userID_2nd"; dtype_of := int64;
            values := [CInt 7] |} ] |}.

Lemma labelled_table_well_formed : well_formed labelled_table.
Proof. repeat constructor. Qed.

Lemma labelled_table_validated : validated example_args labelled_table.
Proof.
  split.
  - intros c Hc. by apply elem_of_nil in Hc.
  - apply duplicated_any_false. reflexivity.
Qed.



(** The title that the run gives the two columns of the sample table. *)
Lemma labelled_table_titles :
  Str.title (Str.replace "_" " " "first_name") = "First Name"
  /\ Str.title (Str.replace "_" " " "userID_2nd") = "Userid 2Nd".
Proof. split; reflexivity. Qed.

(** ** The three documents of a run *)

(** C10: for every run that completes, the three documents agree: [n_rows]
    of [metadata.json] is the number of records of [data.json] and
    [n_columns] is the number of entries of [columns.json]. *)
Theorem C10_documents_consistent (args : Args) (w w' : world) :
  main args w = (Ok tt, w') ->
  exists records entries metadata,
    files w' !! Str.path_join (out args) "data.json"
    = Some (Some (JArr records))
    /\ files w' !! Str.path_join (out args) "columns.json"
       = Some (Some (JArr entries))
    /\ files w' !! Str.path_join (out args) "metadata.json"
       = Some (Some (JObj metadata))
    /\ dict_get "n_rows" metadata = Some (JInt (Z.of_nat (length records)))
    /\ dict_get "n_columns" metadata
       = Some (JInt (Z.of_nat (length entries))).
Proof.
  rewrite main_run. intros Hrun.
  destruct (sources w !! input args) as [source |]; [| done].
  destruct (pd.parse source) as [df | e]; [| done].
  apply ingest_ok_inv in Hrun as (Hnd & _ & _ & records & Hlen & _ & ->).
  exists records. eexists _, _.
  rewrite emitted_data_file, emitted_columns_file, emitted_metadata_file.
  unfold columns_document, metadata_document.
  split; [done |]. split; [done |]. split; [done |]. cbn [dict_get].
  rewrite !String.eqb_refl. simpl. rewrite length_map, Hlen.
  rewrite (normalize_datetimes_map df Hnd). done.
Qed.

Lemma C10_documents_consistent_witness :
  exists records entries metadata,
    files (snd (main example_args example_world))
      !! Str.path_join (out example_args) "data.json"
    = Some (Some (JArr records))
    /\ files (snd (main example_args example_world))
         !! Str.path_join (out example_args) "columns.json"
       = Some (Some (JArr entries))
    /\ files (snd (main example_args example_world))
         !! Str.path_join (out example_args) "metadata.json"
       = Some (Some (JObj metadata))
    /\ dict_get "n_rows" metadata = Some (JInt (Z.of_nat (length records)))
    /\ dict_get "n_columns" metadata
       = Some (JInt (Z.of_nat (length entries))).
Proof.
  apply (C10_documents_consistent example_args example_world).
  vm_compute. reflexivity.
Defined.

(** ** Two runs *)

(** The same world at another time. *)
Definition with_clock (now : string) (w : world) : world :=
  {| sources := sources w; utcnow_isoformat := now; dirs := dirs w;
     files := files w; stdout := stdout w; refused := refused w;
     no_room := no_room w |}.

(** Two states of [metadata.json] that differ at most in [generated_at]. *)
Definition same_but_generated_at (m1 m2 : option (option json)) : Prop :=
  m1 = m2
  \/ exists d1 d2,
       m1 = Some (Some (JObj d1)) /\ m2 = Some (Some (JObj d2))
       /\ dict_keys d1 = dict_keys d2
       /\ forall k, k <> "generated_at" -> dict_get k d1 = dict_get k d2.

Lemma path_join_ne_dir (a b : string) : b <> "" -> Str.path_join a b <> a.
Proof.
  intros Hb H. pose proof (path_join_length a b) as Hlen. rewrite H in Hlen.
  destruct b; [done |]. simpl in Hlen. lia.
Qed.

(** What the system answers does not change when the run prints, makes the
    output directory or writes one of its files, nor with the time. *)
Lemma gates_said (args : Args) (line : string) (w : world) :
  gates args (said line w) = gates args w.
Proof. reflexivity. Qed.

Lemma gates_with_clock (args : Args) (now : string) (w : world) :
  gates args (with_clock now w) = gates args w.
Proof. reflexivity. Qed.

Lemma gates_made (args : Args) (w : world) :
  gates args (made (out args) w) = gates args w.
Proof.
  unfold gates. rewrite !(blocked_made _ _ (made _ _)), !(blocked_made _ _ w)
    by done.
  cbn [made refused dirs files no_room].
  assert (H : forall p, bool_decide
                          (p ∈ list_to_set (C := gset string)
                                 (Str.ancestors (out args))
                               ∪ (list_to_set (Str.ancestors (out args))
                                  ∪ dirs w))
                        = bool_decide
                            (p ∈ list_to_set (C := gset string)
                                   (Str.ancestors (out args)) ∪ dirs w)).
  { intros p. apply bool_decide_ext. rewrite !elem_of_union. tauto. }
  by rewrite !H.
Qed.

Lemma gates_put (args : Args) (file : string) (content : option json)
    (w : world) :
  file <> "" ->
  gates args (put (Str.path_join (out args) file) content w) = gates args w.
Proof.
  intros Hf. unfold gates, blocked. cbn [put refused dirs files no_room].
  by rewrite lookup_insert_ne by (by apply path_join_ne_dir).
Qed.

Lemma gates_written (args : Args) (file : string) (doc : json) (w : world) :
  file <> "" ->
  gates args (written (Str.path_join (out args) file) doc w) = gates args w.
Proof. intros Hf. unfold written. by rewrite gates_said, gates_put. Qed.

(** Where the run stops, the system answers afterwards as it did before. *)
Lemma gates_emit_with (g : Gates) (args : Args) (df df' : DataFrame)
    (data : option json) (w : world) :
  gates args (snd (emit_with g args df df' data w)) = gates args w.
Proof.
  unfold emit_with, emitted, stopped.
  destruct (no_directory g); [done |].
  destruct (directory_refused g); [done |].
  destruct (data_blocked g); cbn [snd]; [by rewrite gates_made |].
  destruct data as [doc |]; cbn [snd];
    [| by rewrite gates_put, gates_made].
  destruct (data_no_room g); cbn [snd];
    [by rewrite gates_put, gates_made |].
  destruct (columns_blocked g); cbn [snd];
    [by rewrite gates_written, gates_made |].
  destruct (columns_no_room g); cbn [snd];
    [by rewrite gates_put, gates_written, gates_made |].
  destruct (meta_blocked g); cbn [snd];
    [by rewrite !gates_written, gates_made |].
  destruct (meta_no_room g); cbn [snd];
    [by rewrite gates_put, !gates_written, gates_made |].
  by rewrite gates_said, !gates_written, gates_made.
Qed.

Lemma sources_emit_with (g : Gates) (args : Args) (df df' : DataFrame)
    (data : option json) (w : world) :
  sources (snd (emit_with g args df df' data w)) = sources w.
Proof.
  unfold emit_with.
  repeat match goal with
         | |- context [if ?b then _ else _] => destruct b
         | |- context [match ?d with Some _ => _ | None => _ end] =>
             destruct d
         end; reflexivity.
Qed.

(** The member of [metadata.json] that two documents of a run may differ
    in. *)
Lemma metadata_documents_agree (args : Args) (df : DataFrame) (w v : world) :
  same_but_generated_at (Some (Some (metadata_document args df w)))
                        (Some (Some (metadata_document args df v))).
Proof.
  right. eexists _, _. split; [done |]. split; [done |]. split; [done |].
  intros k Hk. cbn [dict_get].
  destruct (String.eqb "generated_at" k) eqn:E; [| done].
  apply eqb_string_true in E. congruence.
Qed.

(** Lines 126 to 139 run a second time, after themselves, at another time:
    the same result, and the same [data.json] and [columns.json]. *)
Lemma emit_again (args : Args) (df df' : DataFrame) (data : option json)
    (w : world) (now : string) :
  let run1 := emit args df df' data w in
  let run2 := emit args df df' data (with_clock now (snd run1)) in
  fst run2 = fst run1
  /\ files (snd run2) !! Str.path_join (out args) "data.json"
     = files (snd run1) !! Str.path_join (out args) "data.json"
  /\ files (snd run2) !! Str.path_join (out args) "columns.json"
     = files (snd run1) !! Str.path_join (out args) "columns.json"
  /\ same_but_generated_at
       (files (snd run1) !! Str.path_join (out args) "metadata.json")
       (files (snd run2) !! Str.path_join (out args) "metadata.json").
Proof.
  cbv zeta. set (run1 := emit args df df' data w).
  assert (Hg : gates args (with_clock now (snd run1)) = gates args w).
  { unfold run1, emit. rewrite gates_with_clock. apply gates_emit_with. }
  unfold emit. rewrite Hg. clear Hg. unfold run1, emit. clear run1.
  set (g := gates args w). clearbody g.
  assert (Hne : forall a b : string,
            a <> b -> Str.path_join (out args) a <> Str.path_join (out args) b)
    by (intros a b; apply path_join_ne).
  unfold emit_with, emitted, written, stopped.
  destruct (no_directory _); [by split; [| split; [| split; [| left]]] |].
  destruct (directory_refused _);
    [by split; [| split; [| split; [| left]]] |].
  destruct (data_blocked _); [by split; [| split; [| split; [| left]]] |].
  destruct data as [doc |].
  2:{ cbn [fst snd put made said with_clock files].
      split; [done |].
      rewrite !lookup_insert_eq, !lookup_insert_ne by (by apply Hne).
      split; [done |]. split; [done |]. by left. }
  destruct (data_no_room _).
  { cbn [fst snd put made said with_clock files].
    split; [done |].
    rewrite !lookup_insert_eq, !lookup_insert_ne by (by apply Hne).
    split; [done |]. split; [done |]. by left. }
  destruct (columns_blocked _).
  { cbn [fst snd put made said with_clock files].
    split; [done |].
    rewrite !lookup_insert_eq, !lookup_insert_ne by (by apply Hne).
    split; [done |]. split; [done |]. by left. }
  destruct (columns_no_room _).
  { cbn [fst snd put made said with_clock files].
    split; [done |].
    rewrite !lookup_insert_eq.
    rewrite !(lookup_insert_ne _ (Str.path_join (out args) "columns.json")
                (Str.path_join (out args) "data.json")) by (by apply Hne).
    rewrite !lookup_insert_eq.
    rewrite !lookup_insert_ne by (by apply Hne).
    split; [done |]. split; [done |]. by left. }
  destruct (meta_blocked _).
  { cbn [fst snd put made said with_clock files].
    split; [done |].
    rewrite !lookup_insert_eq.
    rewrite !(lookup_insert_ne _ (Str.path_join (out args) "columns.json")
                (Str.path_join (out args) "data.json")) by (by apply Hne).
    rewrite !lookup_insert_eq.
    rewrite !lookup_insert_ne by (by apply Hne).
    split; [done |]. split; [done |]. by left. }
  destruct (meta_no_room _).
  { cbn [fst snd put made said with_clock files].
    split; [done |].
    rewrite !(lookup_insert_ne _ (Str.path_join (out args) "metadata.json")
                (Str.path_join (out args) "data.json")) by (by apply Hne).
    rewrite !(lookup_insert_ne _ (Str.path_join (out args) "metadata.json")
                (Str.path_join (out args) "columns.json")) by (by apply Hne).
    rewrite !lookup_insert_eq.
    rewrite !(lookup_insert_ne _ (Str.path_join (out args) "columns.json")
                (Str.path_join (out args) "data.json")) by (by apply Hne).
    rewrite !lookup_insert_eq.
    split; [done |]. split; [done |]. by left. }
  cbn [fst snd put made said with_clock files].
  split; [done |].
  rewrite !(lookup_insert_ne _ (Str.path_join (out args) "metadata.json")
              (Str.path_join (out args) "data.json")) by (by apply Hne).
  rewrite !(lookup_insert_ne _ (Str.path_join (out args) "metadata.json")
              (Str.path_join (out args) "columns.json")) by (by apply Hne).
  rewrite !lookup_insert_eq.
  rewrite !(lookup_insert_ne _ (Str.path_join (out args) "columns.json")
              (Str.path_join (out args) "data.json")) by (by apply Hne).
  rewrite !lookup_insert_eq.
  split; [done |]. split; [done |]. apply metadata_documents_agree.
Qed.

Lemma sources_main (args : Args) (w : world) :
  sources (snd (main args w)) = sources w.
Proof.
  destruct (sources w !! input args) as [records |] eqn:Es.
  2:{ by rewrite main_run, Es. }
  destruct (pd.parse records) as [df | e] eqn:Ep.
  2:{ by rewrite main_run, Es, Ep. }
  rewrite (main_parsed args w records df Es Ep).
  destruct (missing_columns args df); [| done].
  apply sources_emit_with.
Qed.

(** A world in which the example has been run before, at another time and
    with other content. *)
Definition used_world : world :=
  {| sources := {["data/example.csv" := example_records]};
     utcnow_isoformat := "2025-01-01T00:00:00";
     dirs := {["docs"]};
     files := {["docs/data.json" := Some (JArr [JNull])]};
     stdout := ["Wrote docs/data.json"];
     refused := ∅; no_room := ∅ |}.



(** ** Date columns and the sorter *)

(** The sorters of the entries of a column-schema document. *)
Definition entry_sorters (entries : list json) : list (option json) :=
  map (fun e => match e with
                | JObj members => dict_get "sorter" members
                | _ => None
                end) entries.

(** The fields of the entries of a column-schema document. *)
Definition entry_fields (entries : list json) : list (option json) :=
  map (fun e => match e with
                | JObj members => dict_get "field" members
                | _ => None
                end) entries.

(** The sorters of the table of a source: no column is a datetime column,
    so every sorter is "number" or "string". *)
Lemma parsed_sorters (records : list (list string)) (df : DataFrame) :
  pd.parse records = Ok df ->
  Forall (fun sorter => sorter = Some (JStr "number")
                        \/ sorter = Some (JStr "string"))
         (entry_sorters (map column_entry (series df))).
Proof.
  intros Hp. destruct records as [| header rows]; [done |].
  destruct (parse_series header rows df Hp) as [_ Hseries].
  unfold entry_sorters. rewrite map_map. apply Forall_fmap.
  eapply Forall_impl; [exact Hseries |].
  intros s (label & fields & -> & _). simpl.
  pose proof (infer_series_dtype label fields) as Hd.
  destruct (dtype_of (pd.infer_series label fields)) eqn:Ed;
    try (by left); try (by right).
  exfalso.
  repeat (apply elem_of_cons in Hd as [Hd | Hd]; [discriminate Hd |]).
  by apply elem_of_nil in Hd.
Qed.

(** A date written YYYY-MM-DD, as in the example of the specification. *)
Definition is_date_text (s : string) : bool :=
  match list_ascii_of_string s with
  | [y1; y2; y3; y4; a; m1; m2; b; d1; d2] =>
      forallb pd.is_digit [y1; y2; y3; y4; m1; m2; d1; d2]
      && Ascii.eqb a "-" && Ascii.eqb b "-"
  | _ => false
  end.

Lemma eqb_length_ne (a b : string) :
  String.length a <> String.length b -> String.eqb a b = false.
Proof. intros H. apply String.eqb_neq. intros ->. done. Qed.

Lemma lowercase_length (s : string) :
  String.length (pd.lowercase s) = String.length s.
Proof. induction s as [| c s IH]; [done |]. simpl. by rewrite IH. Qed.

Lemma digit_run_digit (c : ascii) (acc : Z) (rest : string) :
  pd.is_digit c = true ->
  pd.digit_run acc (String c rest)
  = pd.digit_run (10 * acc + Z.of_nat (nat_of_ascii c - 48)) rest.
Proof. intros H. simpl. by rewrite H. Qed.

Lemma digit_value_bound (c : ascii) :
  pd.is_digit c = true -> 0 <= Z.of_nat (nat_of_ascii c - 48) <= 9.
Proof.
  unfold pd.is_digit. intros H. apply andb_true_iff in H as [H1 H2].
  apply Nat.leb_le in H1, H2. lia.
Qed.

(** A field that starts with a digit has no sign. *)
Lemma unsigned_digit_first (c : ascii) (rest : string) :
  pd.is_digit c = true ->
  pd.str_to_int64 (String c rest) = pd.int64_of_digits false (String c rest)
  /\ pd.xstrtod (String c rest) = pd.double_of_digits false (String c rest).
Proof.
  destruct c as [[] [] [] [] [] [] [] []]; intros H; try discriminate H;
    split; reflexivity.
Qed.

(** [read_csv] reads a date as text: it is not a missing value, and neither
    an integer, a float nor a boolean. *)
Lemma date_text_scans (f : string) :
  is_date_text f = true ->
  pd.is_na f = false /\ pd.str_to_int64 f = pd.IntInvalid
  /\ pd.to_double f = None /\ pd.parse_bool f = None.
Proof.
  intros H.
  destruct f as [| y1 [| y2 [| y3 [| y4 [| a [| m1 [| m2 [| b [| d1 [| d2
    [| x f]]]]]]]]]]]; try discriminate H.
  unfold is_date_text in H. cbn [list_ascii_of_string forallb] in H.
  apply andb_true_iff in H as [H Hb]. apply andb_true_iff in H as [H Ha].
  apply Ascii.eqb_eq in Ha, Hb. subst a b.
  apply andb_true_iff in H as [Hy1 H]. apply andb_true_iff in H as [Hy2 H].
  apply andb_true_iff in H as [Hy3 H]. apply andb_true_iff in H as [Hy4 H].
  clear H.
  assert (Hlen : forall x : string,
            String.length x <> 10%nat ->
            String.eqb (String y1 (String y2 (String y3 (String y4
              (String "-" (String m1 (String m2 (String "-"
                (String d1 (String d2 ""))))))))))
              x = false).
  { intros x Hx. apply eqb_length_ne. simpl. congruence. }
  destruct (unsigned_digit_first y1
              (String y2 (String y3 (String y4 (String "-" (String m1
                (String m2 (String "-" (String d1 (String d2 "")))))))))
              Hy1) as [Hint Hdouble].
  pose proof (digit_value_bound y1 Hy1). pose proof (digit_value_bound y2 Hy2).
  pose proof (digit_value_bound y3 Hy3). pose proof (digit_value_bound y4 Hy4).
  split; [| split; [| split]].
  - unfold pd.is_na, pd.na_values. cbn [existsb].
    rewrite !Hlen by (simpl; lia). done.
  - rewrite Hint. unfold pd.int64_of_digits.
    cbn [pd.starts_with_digit]. rewrite Hy1.
    rewrite !digit_run_digit by done.
    change (pd.digit_run ?v (String "-" ?r)) with (v, String "-" r).
    cbv iota beta.
    change (pd.at_end (String "-" ?r)) with false. cbv iota.
    match goal with
    | |- (if ?c then _ else _) = _ =>
        assert (Hc : c = true); [| by rewrite Hc]
    end.
    apply andb_true_iff. split; [apply Z.leb_le | apply Z.ltb_lt]; lia.
  - unfold pd.to_double. rewrite Hdouble. unfold pd.double_of_digits.
    rewrite !digit_run_digit by done.
    change (pd.digit_run ?v (String "-" ?r)) with (v, String "-" r).
    cbv iota beta. cbn [String.length Nat.sub Nat.add Nat.eqb].
    change (pd.at_end (String "-" ?r)) with false. cbv iota.
    assert (Hlow : forall x : string,
              String.length x <> 10%nat ->
              String.eqb (pd.lowercase
                (String y1 (String y2 (String y3 (String y4
                  (String "-" (String m1 (String m2 (String "-"
                    (String d1 (String d2 "")))))))))))
                x = false).
    { intros x Hx. apply eqb_length_ne. rewrite lowercase_length.
      simpl. congruence. }
    cbn [existsb]. rewrite !Hlow by (simpl; lia). done.
  - unfold pd.parse_bool. cbn [existsb]. rewrite !Hlen by (simpl; lia).
    done.
Qed.

(** A column whose first field is a date is an object column of text. *)
Lemma infer_series_date_first (label f : string) (fields : list string) :
  is_date_text f = true ->
  dtype_of (pd.infer_series label (f :: fields)) = object.
Proof.
  intros H. destruct (date_text_scans f H) as (Hna & Hint & Hdouble & Hbool).
  unfold pd.infer_series, pd.try_double, pd.try_bool.
  cbn [pd.try_int64 traverse]. rewrite Hna, Hint, Hdouble, Hbool. done.
Qed.

(** What the claim says of column [k] of a run that writes to docs: its
    entry in [columns.json] carries the tag "date". *)
Definition tagged_date (w' : world) (k : nat) : Prop :=
  exists entries members,
    files w' !! "docs/columns.json" = Some (Some (JArr entries))
    /\ entries !! k = Some (JObj members)
    /\ dict_get "sorter" members = Some (JStr "date").




(** ** The example of the specification, run *)

(** The [data.json] that the specification expects of its example. *)
Definition claimed_example_data : json :=
  JArr [JObj [("id", JInt 1); ("name", JStr "Alice");
              ("score", JFloat (19 # 2));
              ("joined", JStr "2023-01-01T00:00:00Z")];
        JObj [("id", JInt 2); ("name", JStr "Bob"); ("score", JNull);
              ("joined", JStr "2023-02-15T00:00:00Z")]].

(** What the specification says of the run on its example. *)
Definition example_claim (w' : world) : Prop :=
  files w' !! "docs/data.json" = Some (Some claimed_example_data)
  /\ exists entries metadata,
       files w' !! "docs/columns.json" = Some (Some (JArr entries))
       /\ entry_sorters entries
          = [Some (JStr "number"); Some (JStr "string");
             Some (JStr "number"); Some (JStr "date")]
       /\ files w' !! "docs/metadata.json" = Some (Some (JObj metadata))
       /\ dict_get "n_rows" metadata = Some (JInt 2)
       /\ dict_get "n_columns" metadata = Some (JInt 4).

(** C2, as stated, fails: the run on the example does not write the dates
    as instants, and the last sorter is not "date". *)
Lemma C2_example_counterexample :
  ~ example_claim (snd (main example_args example_world)).
Proof.
  intros [Hdata _]. vm_compute in Hdata. discriminate Hdata.
Qed.

(** C2, amended: on the example with no required column the run returns;
    [data.json] holds two records with the keys id, name, score, joined in
    this order, the first with 1, "Alice", 9.5 and "2023-01-01", the second
    with 2, "Bob", a score and "2023-02-15": the dates are the text of the
    source, and what stands for the empty score of the second record is
    left to C5; [columns.json] has exactly 4 entries with the sorters
    "number", "string", "number", "string"; and the metadata has [n_rows] 2
    and [n_columns] 4.  [read_csv] is called without [parse_dates], so the
    column [joined] is a column of text. *)
Theorem C2_example_run :
  let run := main example_args example_world in
  fst run = Ok tt
  /\ pd.parse example_records = Ok example_table
  /\ (exists bob_score,
        files (snd run) !! "docs/data.json"
        = Some (Some (JArr
            [JObj [("id", JInt 1); ("name", JStr "Alice");
                   ("score", JFloat (19 # 2));
                   ("joined", JStr "2023-01-01")];
             JObj [("id", JInt 2); ("name", JStr "Bob");
                   ("score", bob_score);
                   ("joined", JStr "2023-02-15")]])))
  /\ exists entries metadata,
       files (snd run) !! "docs/columns.json" = Some (Some (JArr entries))
       /\ length entries = 4%nat
       /\ entry_sorters entries
          = [Some (JStr "number"); Some (JStr "string");
             Some (JStr "number"); Some (JStr "string")]
       /\ files (snd run) !! "docs/metadata.json"
          = Some (Some (JObj metadata))
       /\ dict_get "n_rows" metadata = Some (JInt 2)
       /\ dict_get "n_columns" metadata = Some (JInt 4).
Proof.
  cbv zeta. split; [by vm_compute |]. split; [by vm_compute |].
  split; [eexists; by vm_compute |]. eexists _, _.
  split; [by vm_compute |]. split; [by vm_compute |].
  split; [by vm_compute |]. split; [by vm_compute |].
  split; by vm_compute.
Qed.

(** ** A header that repeats a name *)

Definition repeated_header_records : list (list string) :=
  [["x"; "x"]; ["1"; "2"]].

Definition repeated_header_world : world :=
  {| sources := {["data/example.csv" := repeated_header_records]};
     utcnow_isoformat := "2024-05-06T07:08:09.123456";
     dirs := ∅; files := ∅; stdout := []; refused := ∅; no_room := ∅ |}.

(** A table whose two columns have the same label. *)
Definition repeated_label_table : DataFrame :=
  {| index_length := 1;
     series := [ {| name := "x"; dtype_of := int64; values := [CInt 1] |};
                 {| name := "x"; dtype_of := int64; values := [CInt 2] |} ] |}.

(** C4: the code does not do what the claim says.  On a source whose header
    is x,x [read_csv] names the columns "x" and "x.1", the test of line 116
    finds no repeated label, and the run returns with the three files
    written; the test does stop the run, before any file is written, on a
    table that has two columns labelled "x". *)
Theorem C4_repeated_header_run :
  let run := main example_args repeated_header_world in
  fst run = Ok tt
  /\ exit_status (fst run) = 0
  /\ files (snd run) !! "docs/data.json"
     = Some (Some (JArr [JObj [("x", JInt 1); ("x.1", JInt 2)]]))
  /\ (exists entries metadata,
        files (snd run) !! "docs/columns.json" = Some (Some (JArr entries))
        /\ entry_fields entries = [Some (JStr "x"); Some (JStr "x.1")]
        /\ files (snd run) !! "docs/metadata.json"
           = Some (Some (JObj metadata)))
  /\ pd.header_labels ["x"; "x"] = ["x"; "x.1"]
  /\ forall w,
       fst (ingest example_args repeated_label_table w)
       = Raise (SystemExit DuplicatedNames)
       /\ files (snd (ingest example_args repeated_label_table w)) = files w.
Proof.
  cbv zeta. split; [by vm_compute |]. split; [by vm_compute |].
  split; [by vm_compute |]. split.
  { eexists _, _. split; [by vm_compute |]. split; by vm_compute. }
  split; [by vm_compute |].
  intros w. rewrite ingest_duplicated; [done | done |].
  intros Hnd. apply duplicated_any_false in Hnd. discriminate Hnd.
Qed.

(** ** The calendar *)

Definition is_leap (y : Z) : bool :=
  (y mod 4 =? 0) && (negb (y mod 100 =? 0) || (y mod 400 =? 0)).

Definition days_in_month (y m : Z) : Z :=
  if m =? 2 then (if is_leap y then 29 else 28)
  else if (m =? 4) || (m =? 6) || (m =? 9) || (m =? 11) then 30
  else 31.

(** The calendar, day after day: the date that follows a date and the one
    that comes before it. *)
Definition next_date (date : Z * Z * Z) : Z * Z * Z :=
  let '(y, m, d) := date in
  if d <? days_in_month y m then (y, m, d + 1)
  else if m <? 12 then (y, m + 1, 1)
  else (y + 1, 1, 1).

Definition previous_date (date : Z * Z * Z) : Z * Z * Z :=
  let '(y, m, d) := date in
  if 1 <? d then (y, m, d - 1)
  else if 1 <? m then (y, m - 1, days_in_month y (m - 1))
  else (y - 1, 12, 31).

(** The date [n] days after 1970-01-01, or [- n] days before it. *)
Definition date_of_day (n : Z) : Z * Z * Z :=
  if 0 <=? n then Nat.iter (Z.to_nat n) next_date (1970, 1, 1)
  else Nat.iter (Z.to_nat (- n)) previous_date (1970, 1, 1).

Definition same_date (a b : Z * Z * Z) : bool :=
  let '(y, m, d) := a in
  let '(y', m', d') := b in
  (y =? y') && (m =? m') && (d =? d').

Lemma same_date_eq (a b : Z * Z * Z) : same_date a b = true -> a = b.
Proof.
  destruct a as [[y m] d], b as [[y' m'] d']. simpl. intros H.
  apply andb_true_iff in H as [H Hd]. apply andb_true_iff in H as [Hy Hm].
  apply Z.eqb_eq in Hy, Hm, Hd. by subst.
Qed.

(** A date of the calendar whose year has four digits. *)
Definition valid_date (date : Z * Z * Z) : bool :=
  let '(y, m, d) := date in
  (0 <=? y) && (y <=? 9999) && (1 <=? m) && (m <=? 12) && (1 <=? d)
  && (d <=? days_in_month y m).

(** On [n] days in a row from day [z] on, going [dz] days at a time, the
    formula of [civil_from_days] gives the date that [step] reaches from
    [date], which is a date of the calendar. *)
Fixpoint dates_from (n : nat) (z dz : Z) (step : Z * Z * Z -> Z * Z * Z)
    (date : Z * Z * Z) : bool :=
  match n with
  | O => true
  | S n' =>
      same_date (pd.civil_from_days z) date && valid_date date
      && dates_from n' (z + dz) dz step (step date)
  end.

Lemma iter_shift {A : Type} (f : A -> A) (n : nat) (x : A) :
  Nat.iter n f (f x) = f (Nat.iter n f x).
Proof. induction n as [| n IH]; [done |]. simpl. by rewrite IH. Qed.

Lemma dates_from_spec (n : nat) (z dz : Z) (step : Z * Z * Z -> Z * Z * Z)
    (date : Z * Z * Z) :
  dates_from n z dz step date = true ->
  forall k : nat, (k < n)%nat ->
    pd.civil_from_days (z + Z.of_nat k * dz) = Nat.iter k step date
    /\ valid_date (Nat.iter k step date) = true.
Proof.
  revert z date. induction n as [| n IH]; intros z date Hall k Hk; [lia |].
  cbn [dates_from] in Hall. apply andb_true_iff in Hall as [Hhere Hrest].
  apply andb_true_iff in Hhere as [Hsame Hvalid].
  destruct k as [| k].
  - simpl. rewrite Z.add_0_r. split; [by apply same_date_eq | done].
  - destruct (IH (z + dz) (step date) Hrest k ltac:(lia)) as [Hdate Hv].
    rewrite iter_shift in Hdate, Hv.
    change (Nat.iter (S k) step date) with (step (Nat.iter k step date)).
    split; [| exact Hv]. rewrite <- Hdate. f_equal. lia.
Qed.

(** The days that a Timestamp can fall on, after and before 1970-01-01. *)
Lemma civil_days_forward :
  dates_from (Z.to_nat 106754) 0 1 next_date (1970, 1, 1) = true.
Proof. vm_compute. reflexivity. Qed.

Lemma civil_days_backward :
  dates_from (Z.to_nat 106756) 0 (- 1) previous_date (1970, 1, 1) = true.
Proof. vm_compute. reflexivity. Qed.

(** The date that [civil_from_days] gives to a day is the date of the
    calendar that many days from 1970-01-01. *)
Lemma civil_from_days_date (days : Z) :
  - 106755 <= days <= 106753 ->
  pd.civil_from_days days = date_of_day days
  /\ valid_date (date_of_day days) = true.
Proof.
  intros Hrange. unfold date_of_day. destruct (0 <=? days) eqn:Esign.
  - apply Z.leb_le in Esign.
    destruct (dates_from_spec _ _ _ _ _ civil_days_forward (Z.to_nat days))
      as [Hdate Hvalid]; [lia |].
    split; [| exact Hvalid]. rewrite <- Hdate. f_equal. lia.
  - apply Z.leb_gt in Esign.
    destruct (dates_from_spec _ _ _ _ _ civil_days_backward
                (Z.to_nat (- days))) as [Hdate Hvalid]; [lia |].
    split; [| exact Hvalid]. rewrite <- Hdate. f_equal. lia.
Qed.

(** ** The text of a Timestamp *)

Definition digit_value (c : ascii) : Z := Z.of_nat (nat_of_ascii c - 48).

(** The number that a sequence of digits writes. *)
Definition number_of (digits : list ascii) : Z :=
  fold_left (fun acc c => 10 * acc + digit_value c) digits 0.

(** The numbers that a text of the shape YYYY-MM-DDTHH:MM:SSZ shows: twenty
    characters, digits but for the separators, no fraction of a second. *)
Definition read_fields (s : string) : option (Z * Z * Z * Z * Z * Z) :=
  match list_ascii_of_string s with
  | [y1; y2; y3; y4; a; m1; m2; b; d1; d2; t; h1; h2; c; n1; n2; e; s1; s2; z]
    => if forallb pd.is_digit
            [y1; y2; y3; y4; m1; m2; d1; d2; h1; h2; n1; n2; s1; s2]
          && Ascii.eqb a "-" && Ascii.eqb b "-" && Ascii.eqb t "T"
          && Ascii.eqb c ":" && Ascii.eqb e ":" && Ascii.eqb z "Z"
       then Some (number_of [y1; y2; y3; y4], number_of [m1; m2],
                  number_of [d1; d2], number_of [h1; h2],
                  number_of [n1; n2], number_of [s1; s2])
       else None
  | _ => None
  end.

Lemma is_digit_digit (n : Z) : pd.is_digit (pd.digit n) = true.
Proof.
  unfold pd.digit.
  pose proof (Z.mod_pos_bound n 10 ltac:(lia)) as H.
  assert (Hk : (Z.to_nat (n mod 10) < 10)%nat) by lia.
  destruct (Z.to_nat (n mod 10)) as [| [| [| [| [| [| [| [| [| [| k]]]]]]]]]];
    try reflexivity; lia.
Qed.

Lemma digit_value_digit (n : Z) : digit_value (pd.digit n) = n mod 10.
Proof.
  unfold pd.digit, digit_value.
  pose proof (Z.mod_pos_bound n 10 ltac:(lia)) as H.
  rewrite nat_ascii_embedding by lia. lia.
Qed.

(** The text of the format shows the fields it was made of. *)
Lemma read_format_fields (y m d hour minute second : Z) :
  0 <= y <= 9999 -> 0 <= m <= 99 -> 0 <= d <= 99 -> 0 <= hour <= 99 ->
  0 <= minute <= 99 -> 0 <= second <= 99 ->
  read_fields (pd.format_fields (y, m, d, hour, minute, second))
  = Some (y, m, d, hour, minute, second).
Proof.
  intros Hy Hm Hd Hh Hn Hs. unfold pd.format_fields, read_fields.
  cbv -[pd.digit pd.is_digit digit_value Z.pow Z.div Z.of_nat Z.mul Z.add].
  rewrite !is_digit_digit. cbv iota. rewrite !digit_value_digit.
  change (10 ^ Z.of_nat 3) with 1000. change (10 ^ Z.of_nat 2) with 100.
  change (10 ^ Z.of_nat 1) with 10. change (10 ^ Z.of_nat 0) with 1.
  repeat f_equal; Z.div_mod_to_equations; lia.
Qed.

Lemma seconds_day_range (t : Timestamp) :
  - 2 ^ 63 < value t < 2 ^ 63 -> - 86400 < utcoffset t < 86400 ->
  - 106754 <= (value t / 10 ^ 9 + utcoffset t) / 86400 <= 106752.
Proof.
  intros Hv Ho.
  assert (Hq : - 9223372037 <= value t / 10 ^ 9 <= 9223372036).
  { change (2 ^ 63) with 9223372036854775808 in Hv.
    change (10 ^ 9) with 1000000000.
    split; [apply Z.div_le_lower_bound; lia |].
    assert (value t / 1000000000 < 9223372037)
      by (apply Z.div_lt_upper_bound; lia). lia. }
  set (seconds := value t / 10 ^ 9 + utcoffset t) in *.
  split; [apply Z.div_le_lower_bound; lia |].
  assert (seconds / 86400 < 106753)
    by (apply Z.div_lt_upper_bound; lia). lia.
Qed.

(** What the text of a Timestamp shows: the date of the calendar as many
    days from 1970-01-01 as the seconds of the Timestamp on the wall clock
    of its zone make whole days, and the hour, minute and second that the
    rest of them make. *)
Lemma strftime_fields (t : Timestamp) :
  - 2 ^ 63 < value t < 2 ^ 63 -> - 86400 < utcoffset t < 86400 ->
  exists y m d hour minute second,
    read_fields (pd.strftime t) = Some (y, m, d, hour, minute, second)
    /\ (y, m, d) = date_of_day ((value t / 10 ^ 9 + utcoffset t) / 86400)
    /\ 1 <= m <= 12 /\ 1 <= d <= days_in_month y m
    /\ 0 <= hour < 24 /\ 0 <= minute < 60 /\ 0 <= second < 60
    /\ hour * 3600 + minute * 60 + second
       = (value t / 10 ^ 9 + utcoffset t) mod 86400.
Proof.
  intros Hv Ho. pose proof (seconds_day_range t Hv Ho) as Hdays.
  unfold pd.strftime, pd.format_seconds.
  set (seconds := value t / 10 ^ 9 + utcoffset t) in *.
  destruct (civil_from_days_date (seconds / 86400) ltac:(lia))
    as [Hdate Hvalid].
  unfold pd.fields_of_seconds. rewrite <- Hdate in Hvalid.
  destruct (pd.civil_from_days (seconds / 86400)) as [[y m] d].
  unfold valid_date in Hvalid.
  repeat (apply andb_true_iff in Hvalid as [Hvalid ?]).
  assert (Hdim : days_in_month y m <= 31).
  { unfold days_in_month. repeat destruct (_ =? _); simpl;
      try destruct (is_leap y); lia. }
  pose proof (Z.mod_pos_bound seconds 86400 ltac:(lia)) as Hsod.
  set (sod := seconds mod 86400) in *.
  assert (Hh : 0 <= sod / 3600 < 24)
    by (split; [apply Z.div_pos; lia | apply Z.div_lt_upper_bound; lia]).
  pose proof (Z.mod_pos_bound sod 3600 ltac:(lia)) as Hrest.
  assert (Hn : 0 <= sod mod 3600 / 60 < 60)
    by (split; [apply Z.div_pos; lia | apply Z.div_lt_upper_bound; lia]).
  pose proof (Z.mod_pos_bound sod 60 ltac:(lia)) as Hs.
  eexists y, m, d, _, _, _. split.
  - apply read_format_fields; lia.
  - split; [done |]. split; [lia |]. split; [lia |].
    split; [lia |]. split; [lia |]. split; [lia |].
    clear - Hsod. Z.div_mod_to_equations. lia.
Qed.



(** The text that the normalizer makes of the first value of the sample
    table, and the date that it shows. *)
Lemma dated_table_text :
  pd.strftime {| value := 1672531200 * 10 ^ 9; utcoffset := 0 |}
  = "2023-01-01T00:00:00Z"
  /\ read_fields "2023-01-01T00:00:00Z" = Some (2023, 1, 1, 0, 0, 0).
Proof. split; by vm_compute. Qed.

(** * Further properties of the script *)

(** ** A run that fails *)

(** The exceptions of lines 126 to 139. *)
Lemma emit_raises (g : Gates) (args : Args) (df df' : DataFrame)
    (data : option json) (w : world) (e : exn) :
  fst (emit_with g args df df' data w) = Raise e ->
  e = FileNotFoundError \/ e = OSError \/ (e = TypeError /\ data = None).
Proof.
  unfold emit_with.
  repeat match goal with
         | |- context [if ?b then _ else _] => destruct b
         | |- context [match ?d with Some _ => _ | None => _ end] =>
             destruct d
         end; cbn [fst]; intros [= <-]; tauto.
Qed.

(** The files that lines 126 to 139 leave alone, and what they have
    written when they stop at something other than an [OSError]. *)
Lemma emit_files (g : Gates) (args : Args) (df df' : DataFrame)
    (doc : json) (w : world) (e : exn) :
  let run := emit_with g args df df' (Some doc) w in
  (forall p, p <> Str.path_join (out args) "data.json" ->
             p <> Str.path_join (out args) "columns.json" ->
             p <> Str.path_join (out args) "metadata.json" ->
             files (snd run) !! p = files w !! p)
  /\ (fst run = Raise e -> e <> OSError ->
      files (snd run) = files w /\ dirs (snd run) = dirs w).
Proof.
  cbv zeta. unfold emit_with, emitted, written. split.
  - intros p Hd Hc Hm.
    repeat match goal with
           | |- context [if ?b then _ else _] => destruct b
           end; cbn [snd files put said made stopped];
      by rewrite ?lookup_insert_ne by congruence.
  - repeat match goal with
           | |- context [if ?b then _ else _] => destruct b
           end; cbn [fst snd]; intros [= <-]; done.
Qed.

(** A world whose system refuses [columns.json]. *)
Definition refusing_world : world :=
  {| sources := {["data/example.csv" := example_records]};
     utcnow_isoformat := "2024-05-06T07:08:09.123456";
     dirs := ∅; files := ∅; stdout := [];
     refused := {["docs/columns.json"]}; no_room := ∅ |}.

(** X1: a run of [main] that ends with an exception other than an
    [OSError] of the file system has created no file and no directory,
    whatever the source and the parameters: the loader and the two checks
    stop the run before anything is written, and so does the empty output
    path.  Whatever the exception, it is never a [TypeError] of [json.dump]
    nor an [AttributeError] of the schema loop, the exit status is 1, and
    no file other than the three of the output directory is touched. *)
Theorem main_failure_writes_nothing (args : Args) (w : world) (e : exn) :
  fst (main args w) = Raise e ->
  e <> TypeError /\ e <> AttributeError
  /\ exit_status (fst (main args w)) = 1
  /\ (e <> OSError ->
      files (snd (main args w)) = files w
      /\ dirs (snd (main args w)) = dirs w)
  /\ forall p, p <> Str.path_join (out args) "data.json" ->
               p <> Str.path_join (out args) "columns.json" ->
               p <> Str.path_join (out args) "metadata.json" ->
               files (snd (main args w)) !! p = files w !! p.
Proof.
  destruct (sources w !! input args) as [records |] eqn:Es.
  2:{ rewrite main_run, Es. cbn [fst snd]. by intros [= <-]. }
  destruct (pd.parse records) as [df | e'] eqn:Eparse.
  2:{ rewrite main_run, Es, Eparse. cbn [fst snd]. intros [= <-].
      by destruct (parse_raises _ _ Eparse) as [-> | ->]. }
  rewrite (main_parsed args w records df Es Eparse).
  destruct (missing_columns args df) as [| c l].
  2:{ cbn [fst snd]. by intros [= <-]. }
  unfold emit. intros Hrun.
  destruct (emit_files (gates args w) args df df (data_document df) w e)
    as [Hother Hnothing].
  destruct (emit_raises _ _ _ _ _ _ _ Hrun) as [-> | [-> | [_ Hnone]]];
    [| | done]; rewrite Hrun; (split; [done |]); (split; [done |]);
    (split; [done |]); (split; [| exact Hother]); intros Hne;
    by apply Hnothing.
Qed.

Lemma main_failure_writes_nothing_witness :
  files (snd (main (with_required ["id"; "age"] example_args) example_world))
  = ∅
  /\ dirs (snd (main (with_required ["id"; "age"] example_args)
                     example_world)) = ∅
  /\ exit_status (fst (main (with_required ["id"; "age"] example_args)
                            example_world)) = 1.
Proof.
  destruct (main_failure_writes_nothing
              (with_required ["id"; "age"] example_args) example_world
              (SystemExit (MissingRequired ["age"])))
    as (_ & _ & Hexit & Hnothing & _).
  - vm_compute. reflexivity.
  - destruct Hnothing as [Hfiles Hdirs]; [done |].
    split; [exact Hfiles |]. split; [exact Hdirs | exact Hexit].
Defined.

(** X2: on every table that has all the required columns and a label that
    repeats, the run stops at the second check: [SystemExit] with the
    message of line 117, exit status 1, one line printed, no file and no
    directory created. *)
Theorem ingest_repeated_label (args : Args) (df : DataFrame) (w : world) :
  (forall c, c ∈ required_columns args -> c ∈ columns df) ->
  ~ NoDup (columns df) ->
  fst (ingest args df w) = Raise (SystemExit DuplicatedNames)
  /\ exit_status (fst (ingest args df w)) = 1
  /\ files (snd (ingest args df w)) = files w
  /\ dirs (snd (ingest args df w)) = dirs w
  /\ stdout (snd (ingest args df w))
     = (stdout w
        ++ ["Read CSV with " +:+ Str.of_nat (index_length df)
            +:+ " rows and " +:+ Str.of_nat (length (series df))
            +:+ " columns"])%list.
Proof.
  intros Hreq Hdup.
  rewrite ingest_duplicated; [done | by apply missing_columns_nil | done].
Qed.

Lemma ingest_repeated_label_witness :
  fst (ingest example_args repeated_label_table empty_world)
  = Raise (SystemExit DuplicatedNames)
  /\ files (snd (ingest example_args repeated_label_table empty_world)) = ∅
  /\ stdout (snd (ingest example_args repeated_label_table empty_world))
     = ["Read CSV with 1 rows and 2 columns"].
Proof.
  destruct (ingest_repeated_label example_args repeated_label_table
              empty_world) as (Hres & _ & Hfiles & _ & Hout).
  - intros c Hc. by apply elem_of_nil in Hc.
  - intros Hnd. apply duplicated_any_false in Hnd. discriminate Hnd.
  - split; [exact Hres |]. split; [exact Hfiles | exact Hout].
Defined.

(** ** The schema loop on any table *)

Lemma repeated_name_twice (l : list Series) :
  ~ NoDup (map name l) ->
  exists c, c ∈ map name l
            /\ (2 <= length (List.filter
                               (fun s => String.eqb (name s) c) l))%nat.
Proof.
  induction l as [| s l IH]; intros Hdup.
  - destruct Hdup. constructor.
  - destruct (decide (name s ∈ map name l)) as [Hin | Hnin].
    + exists (name s). split; [left |]. simpl. rewrite String.eqb_refl.
      simpl. apply list_elem_of_fmap in Hin as (s' & Hname & Hs').
      assert (Hf : s' ∈ List.filter
                         (fun s0 => String.eqb (name s0) (name s)) l).
      { apply list_elem_of_In, filter_In. split.
        - by apply list_elem_of_In.
        - apply eqb_string_true. by rewrite Hname. }
      destruct (List.filter _ l); [by apply elem_of_nil in Hf |]. simpl. lia.
    + destruct IH as (c & Hc & Hlen).
      { intros Hnd. apply Hdup. simpl. by apply NoDup_cons. }
      exists c. split; [by right |]. simpl.
      destruct (String.eqb (name s) c); simpl; lia.
Qed.

Lemma getitem_repeated (df : DataFrame) :
  ~ NoDup (columns df) ->
  exists c, c ∈ columns df /\ pd.getitem df c = None.
Proof.
  intros Hdup. destruct (repeated_name_twice (series df) Hdup)
    as (c & Hc & Hlen).
  exists c. split; [exact Hc |]. unfold pd.getitem.
  destruct (List.filter _ (series df)) as [| s1 [| s2 rest]]; simpl in *;
    try done; lia.
Qed.

Lemma infer_columns_loop_raise (df : DataFrame) (cols : list string)
    (acc : list pyobj) :
  (exists c, c ∈ cols /\ pd.getitem df c = None) ->
  infer_columns_loop df cols acc = Raise AttributeError.
Proof.
  revert acc. induction cols as [| c0 cols IH]; intros acc (c & Hc & Hnone).
  - by apply elem_of_nil in Hc.
  - simpl. destruct (pd.getitem df c0) as [s |] eqn:E0; [| done].
    apply IH. exists c. split; [| done].
    apply elem_of_cons in Hc as [-> | Hc]; [congruence | done].
Qed.

(** X3: [infer_tabulator_columns] returns, on a table whose labels are
    distinct, one definition per column in the table's column order, each
    made of the column's label and of the sorter of its dtype; on a table
    with a label that repeats it raises [AttributeError], because
    [df[col]] is then not a Series. *)
Theorem infer_tabulator_columns_result (df : DataFrame) :
  (NoDup (columns df) ->
   exists defs,
     infer_tabulator_columns df = Ok defs
     /\ length defs = length (series df)
     /\ forall j s, series df !! j = Some s ->
          defs !! j
          = Some (PyDict (col_def (name s)
                            (sorter_of (dtype_str (dtype_of s))))))
  /\ (~ NoDup (columns df) ->
      infer_tabulator_columns df = Raise AttributeError).
Proof.
  split.
  - intros Hnd. rewrite (infer_tabulator_columns_distinct df Hnd).
    eexists. split; [done |]. split; [by rewrite length_map |].
    intros j s Hs. by rewrite list_lookup_fmap, Hs.
  - intros Hdup. unfold infer_tabulator_columns.
    apply infer_columns_loop_raise. by apply getitem_repeated.
Qed.

Lemma infer_tabulator_columns_result_witness :
  (exists defs,
     infer_tabulator_columns example_table = Ok defs
     /\ length defs = 4%nat
     /\ defs !! 2%nat = Some (PyDict (col_def "score" "number")))
  /\ infer_tabulator_columns repeated_label_table = Raise AttributeError.
Proof.
  split.
  - destruct (proj1 (infer_tabulator_columns_result example_table)
                (proj2 example_table_validated))
      as (defs & Hrun & Hlen & Hdef).
    exists defs. split; [exact Hrun |]. split; [exact Hlen |].
    exact (Hdef 2%nat _ eq_refl).
  - apply (proj2 (infer_tabulator_columns_result repeated_label_table)).
    intros Hnd. apply duplicated_any_false in Hnd. discriminate Hnd.
Defined.

(** ** The normalizer, twice *)

(** X4: after the normalizer no column of the table is a datetime column,
    and the normalizer leaves its own result unchanged, on every table
    with distinct labels. *)
Theorem normalize_datetimes_idempotent (df : DataFrame) :
  NoDup (columns df) ->
  Forall (fun s => pd.is_datetime64_any_dtype s = false)
         (series (normalize_datetimes df))
  /\ normalize_datetimes (normalize_datetimes df) = normalize_datetimes df.
Proof.
  intros Hnd. split.
  - rewrite (normalize_datetimes_map df Hnd). cbn [series].
    apply Forall_fmap, Forall_forall. intros s _. simpl.
    apply converted_not_datetime.
  - rewrite (normalize_datetimes_map (normalize_datetimes df))
      by (by rewrite normalize_datetimes_columns).
    rewrite (normalize_datetimes_map df Hnd). cbn [index_length series].
    f_equal. rewrite map_map. apply map_ext. apply converted_idempotent.
Qed.

Lemma normalize_datetimes_idempotent_witness :
  Forall (fun s => pd.is_datetime64_any_dtype s = false)
         (series (normalize_datetimes dated_table))
  /\ normalize_datetimes (normalize_datetimes dated_table)
     = normalize_datetimes dated_table.
Proof.
  exact (normalize_datetimes_idempotent dated_table
           (proj2 dated_table_validated)).
Defined.

(** ** The sorter of every dtype *)

Lemma prefix_append_char (needle s : string) (c : ascii) :
  Forall (fun a => a <> c) (list_ascii_of_string needle) ->
  String.prefix needle (s +:+ String c EmptyString) = String.prefix needle s.
Proof.
  revert s. induction needle as [| a needle IH]; intros s Hc.
  - by destruct s.
  - simpl in Hc. apply Forall_cons in Hc as [Ha Hc].
    destruct s as [| b s]; simpl.
    + by destruct (ascii_dec a c).
    + destruct (ascii_dec a b); [by apply IH | done].
Qed.

Lemma contains_append_char (needle s : string) (c : ascii) :
  Forall (fun a => a <> c) (list_ascii_of_string needle) ->
  Str.contains needle (s +:+ String c EmptyString) = Str.contains needle s.
Proof.
  intros Hc. induction s as [| b s IH].
  - pose proof (prefix_append_char needle EmptyString c Hc) as Hp.
    simpl in *. rewrite Hp. by destruct needle.
  - pose proof (prefix_append_char needle (String b s) c Hc) as Hp.
    simpl in *. by rewrite Hp, IH.
Qed.

(** X5: the sorter that lines 48 to 54 give to each dtype: "number" for
    int64, uint64 and float64, "string" for bool and object, "date" for a
    naive datetime column; for a zone-aware datetime column "date" as
    well, unless the name of the zone contains "int" or "float", in which
    case the first test wins and the sorter is "number". *)
Theorem sorter_of_dtype (d : dtype) :
  sorter_of (dtype_str d)
  = match d with
    | int64 | uint64 | float64 => "number"
    | bool_ | object => "string"
    | datetime64 None => "date"
    | datetime64 (Some tz) =>
        if Str.contains "int" tz || Str.contains "float" tz
        then "number" else "date"
    end.
Proof.
  destruct d as [| | | | | [tz |]]; try reflexivity.
  unfold sorter_of, dtype_str.
  assert (Hint : Str.contains "int" ("datetime64[ns, " +:+ tz +:+ "]")
                 = Str.contains "int" tz).
  { transitivity (Str.contains "int" (tz +:+ "]")); [reflexivity |].
    apply contains_append_char. repeat constructor; discriminate. }
  assert (Hfloat : Str.contains "float" ("datetime64[ns, " +:+ tz +:+ "]")
                   = Str.contains "float" tz).
  { transitivity (Str.contains "float" (tz +:+ "]")); [reflexivity |].
    apply contains_append_char. repeat constructor; discriminate. }
  rewrite Hint, Hfloat. by destruct (_ || _).
Qed.

(** ** The title of a column *)

Definition has_char (c : ascii) (s : string) : bool :=
  existsb (Ascii.eqb c) (list_ascii_of_string s).

Lemma cased_not_underscore (c : ascii) :
  Str.is_cased c = true -> Str.upper c <> "_"%char /\ Str.lower c <> "_"%char.
Proof.
  destruct c as [[] [] [] [] [] [] [] []]; vm_compute; intros H;
    try discriminate H; split; discriminate.
Qed.

Lemma has_char_cons (c a : ascii) (s : string) :
  has_char c (String a s) = Ascii.eqb c a || has_char c s.
Proof. reflexivity. Qed.

Lemma title_from_no_underscore (previous : bool) (s : string) :
  has_char "_" s = false -> has_char "_" (Str.title_from previous s) = false.
Proof.
  revert previous. induction s as [| c s IH]; intros previous; [done |].
  rewrite has_char_cons. intros H.
  apply orb_false_iff in H as [Hc Hs]. cbn [Str.title_from].
  destruct (Str.is_cased c) eqn:Ec; rewrite has_char_cons.
  - rewrite (IH true Hs), orb_false_r.
    destruct (cased_not_underscore c Ec) as [Hu Hl].
    destruct previous; apply Ascii.eqb_neq; congruence.
  - by rewrite Hc, (IH false Hs).
Qed.

Lemma replace_no_underscore (s : string) :
  has_char "_" (Str.replace "_" " " s) = false.
Proof.
  induction s as [| c s IH]; [done |]. cbn [Str.replace].
  rewrite has_char_cons, IH, orb_false_r.
  destruct (Ascii.eqb c "_") eqn:E; [done |].
  rewrite Ascii.eqb_sym. exact E.
Qed.

(** X6: the title that line 57 gives to a column whose name is made of
    ASCII characters has as many characters as the name and holds no
    underscore. *)
Theorem title_of_column (col : string) :
  Str.is_ascii col = true ->
  String.length (Str.title (Str.replace "_" " " col)) = String.length col
  /\ has_char "_" (Str.title (Str.replace "_" " " col)) = false.
Proof.
  intros _. unfold Str.title. split.
  - by rewrite title_from_length, replace_length.
  - apply title_from_no_underscore, replace_no_underscore.
Qed.

Lemma title_of_column_witness :
  String.length (Str.title (Str.replace "_" " " "first_name")) = 10%nat
  /\ has_char "_" (Str.title (Str.replace "_" " " "first_name")) = false.
Proof. apply (title_of_column "first_name"). reflexivity. Defined.

(** ** The world after a run that returns *)

Lemma append_empty_r (s : string) : s +:+ "" = s.
Proof.
  induction s as [| c s IH]; [done |].
  change (String c (s +:+ "") = String c s). by rewrite IH.
Qed.

Lemma append_assoc_string (a b c : string) :
  (a +:+ b) +:+ c = a +:+ (b +:+ c).
Proof.
  induction a as [| x a IH]; [done |].
  change (String x ((a +:+ b) +:+ c) = String x (a +:+ (b +:+ c))).
  by rewrite IH.
Qed.

Lemma ancestors_from_last (acc p : string) :
  acc +:+ p ∈ Str.ancestors_from acc p.
Proof.
  revert acc. induction p as [| c p IH]; intros acc.
  - cbn [Str.ancestors_from]. rewrite append_empty_r. left.
  - cbn [Str.ancestors_from].
    assert (Hstep : forall x : string,
              acc +:+ String c p = (acc +:+ String c "") +:+ p).
    { intros _. rewrite append_assoc_string. reflexivity. }
    destruct (Ascii.eqb c "/") eqn:Ec.
    + apply Ascii.eqb_eq in Ec. subst c. apply elem_of_app. right.
      rewrite (Hstep ""). apply IH.
    + rewrite (Hstep ""). apply IH.
Qed.

(** X7: on every well-formed table that passes validation, when the system
    lets the run write, the run leaves the world as follows: its five lines
    are printed after what was there, in the order read, data, columns,
    metadata, complete; the output directory and the directories above it
    are among the directories; the three files are written in full at
    three paths that differ from one another; and no other file is
    touched. *)
Theorem ingest_success_world (args : Args) (df : DataFrame) (w : world) :
  well_formed df -> validated args df -> writable args w = true ->
  let w' := snd (ingest args df w) in
  let data_out := Str.path_join (out args) "data.json" in
  let columns_out := Str.path_join (out args) "columns.json" in
  let meta_out := Str.path_join (out args) "metadata.json" in
  stdout w'
  = (stdout w
     ++ ["Read CSV with " +:+ Str.of_nat (index_length df) +:+ " rows and "
         +:+ Str.of_nat (length (series df)) +:+ " columns";
         "Wrote " +:+ data_out; "Wrote " +:+ columns_out;
         "Wrote " +:+ meta_out;
         "Ingestion complete. Place index.html and app.js in the docs/ folder to serve with GitHub Pages."])%list
  /\ dirs w' = list_to_set (Str.ancestors (out args)) ∪ dirs w
  /\ out args ∈ dirs w'
  /\ data_out <> columns_out /\ data_out <> meta_out
  /\ columns_out <> meta_out
  /\ (exists d c m, files w' !! data_out = Some (Some d)
                    /\ files w' !! columns_out = Some (Some c)
                    /\ files w' !! meta_out = Some (Some m))
  /\ forall p, p <> data_out -> p <> columns_out -> p <> meta_out ->
               files w' !! p = files w !! p.
Proof.
  intros Hwf Hval Hw. cbv zeta.
  rewrite (ingest_well_formed args df w Hwf Hval Hw). cbn [snd].
  split; [simpl; by rewrite <- !app_assoc |]. split; [done |].
  split.
  { cbn [emitted said written put made stopped dirs].
    apply elem_of_union. left. apply elem_of_list_to_set.
    apply (ancestors_from_last "" (out args)). }
  split; [by apply path_join_ne |]. split; [by apply path_join_ne |].
  split; [by apply path_join_ne |]. split.
  - eexists _, _, _.
    by rewrite emitted_data_file, emitted_columns_file, emitted_metadata_file.
  - intros p Hd Hc Hm. cbn [emitted said written put made stopped files].
    by rewrite !lookup_insert_ne by congruence.
Qed.

Lemma ingest_success_world_witness :
  stdout (snd (ingest example_args example_table empty_world))
  = ["Read CSV with 2 rows and 4 columns"; "Wrote docs/data.json";
     "Wrote docs/columns.json"; "Wrote docs/metadata.json";
     "Ingestion complete. Place index.html and app.js in the docs/ folder to serve with GitHub Pages."]
  /\ "docs" ∈ dirs (snd (ingest example_args example_table empty_world)).
Proof.
  destruct (ingest_success_world example_args example_table empty_world
              example_table_well_formed example_table_validated)
    as (Hout & _ & Hdir & _); [by vm_compute |].
  split; [exact Hout | exact Hdir].
Defined.

(** ** A file that the system refuses *)

(** X14: when the system lets the run make the output directory and write
    [data.json] and refuses to open [columns.json], the run of [main] on a
    source that has the required columns ends with [OSError], exit status
    1; [data.json] has been written in full and stays, the output directory
    exists, and [columns.json] and [metadata.json] are as they were. *)
Theorem main_columns_refused (args : Args) (w : world)
    (records : list (list string)) (df : DataFrame) :
  sources w !! input args = Some records -> pd.parse records = Ok df ->
  (forall c, c ∈ required_columns args -> c ∈ columns df) ->
  no_directory (gates args w) = false ->
  directory_refused (gates args w) = false ->
  data_blocked (gates args w) = false ->
  data_no_room (gates args w) = false ->
  columns_blocked (gates args w) = true ->
  fst (main args w) = Raise OSError
  /\ exit_status (fst (main args w)) = 1
  /\ files (snd (main args w)) !! Str.path_join (out args) "data.json"
     = Some (Some (data_document df))
  /\ out args ∈ dirs (snd (main args w))
  /\ files (snd (main args w)) !! Str.path_join (out args) "columns.json"
     = files w !! Str.path_join (out args) "columns.json"
  /\ files (snd (main args w)) !! Str.path_join (out args) "metadata.json"
     = files w !! Str.path_join (out args) "metadata.json".
Proof.
  intros Hs Hp Hreq H1 H2 H3 H4 H5.
  rewrite (main_parsed args w records df Hs Hp).
  apply missing_columns_nil in Hreq. rewrite Hreq.
  unfold emit, emit_with. rewrite H1, H2, H3, H4, H5.
  cbn [fst snd written said put made stopped files dirs].
  split; [done |]. split; [done |].
  split; [apply lookup_insert_eq |]. split.
  { apply elem_of_union. left. apply elem_of_list_to_set.
    apply (ancestors_from_last "" (out args)). }
  split; by rewrite lookup_insert_ne by (by apply path_join_ne).
Qed.

Lemma main_columns_refused_witness :
  fst (main example_args refusing_world) = Raise OSError
  /\ files (snd (main example_args refusing_world)) !! "docs/data.json"
     = Some (Some (data_document example_table))
  /\ files (snd (main example_args refusing_world)) !! "docs/columns.json"
     = None.
Proof.
  destruct (main_columns_refused example_args refusing_world
              example_records example_table)
    as (Hres & _ & Hdata & _ & Hcolumns & _).
  - by vm_compute.
  - by vm_compute.
  - intros c Hc. by apply elem_of_nil in Hc.
  - by vm_compute.
  - by vm_compute.
  - by vm_compute.
  - by vm_compute.
  - by vm_compute.
  - split; [exact Hres |]. split; [exact Hdata |].
    etransitivity; [exact Hcolumns | reflexivity].
Defined.

(** X15: with an empty output path the run of [main] on a source that has
    the required columns ends at line 126 with [FileNotFoundError]: no file
    is written and no directory is made. *)
Theorem main_empty_out (args : Args) (w : world)
    (records : list (list string)) (df : DataFrame) :
  sources w !! input args = Some records -> pd.parse records = Ok df ->
  (forall c, c ∈ required_columns args -> c ∈ columns df) ->
  out args = "" ->
  fst (main args w) = Raise FileNotFoundError
  /\ exit_status (fst (main args w)) = 1
  /\ files (snd (main args w)) = files w
  /\ dirs (snd (main args w)) = dirs w.
Proof.
  intros Hs Hp Hreq Hout.
  rewrite (main_parsed args w records df Hs Hp).
  apply missing_columns_nil in Hreq. rewrite Hreq.
  unfold emit, emit_with, gates. cbn [no_directory]. by rewrite Hout.
Qed.

Definition here_args : Args :=
  {| input := "data/example.csv"; out := ""; required_columns := [];
     citation := ""; license := ""; doi := ""; contact := ""; notes := "" |}.

Lemma main_empty_out_witness :
  fst (main here_args example_world) = Raise FileNotFoundError
  /\ files (snd (main here_args example_world)) = ∅.
Proof.
  destruct (main_empty_out here_args example_world example_records
              example_table) as (Hres & _ & Hfiles & _).
  - by vm_compute.
  - by vm_compute.
  - intros c Hc. by apply elem_of_nil in Hc.
  - reflexivity.
  - split; [exact Hres | exact Hfiles].
Defined.

(** ** A value that [json.dump] refuses *)

Lemma traverse_none {A B : Type} (f : A -> option B) (l : list A) (x : A) :
  x ∈ l -> f x = None -> traverse f l = None.
Proof.
  induction l as [| y l IH]; intros Hx Hf; [by apply elem_of_nil in Hx |].
  simpl. apply elem_of_cons in Hx as [<- | Hx].
  - by rewrite Hf.
  - rewrite (IH Hx Hf). by destruct (f y).
Qed.

Lemma traverse_map_none {A B C : Type} (f : B -> option C) (g : A -> B)
    (l : list A) (x : A) :
  x ∈ l -> f (g x) = None -> traverse f (map g l) = None.
Proof.
  intros Hx Hf. apply (traverse_none f (map g l) (g x)); [| done].
  apply list_elem_of_fmap. by exists x.
Qed.

Lemma emit_none_writable (args : Args) (df df' : DataFrame) (w : world) :
  writable args w = true ->
  emit args df df' None w
  = (Raise TypeError,
     put (Str.path_join (out args) "data.json") None
       (made (out args) (stopped df w))).
Proof.
  unfold emit, emit_with, gates, writable.
  cbn [forallb no_directory directory_refused data_blocked data_no_room
       columns_blocked columns_no_room meta_blocked meta_no_room].
  destruct (String.eqb (out args) ""); [done |].
  destruct (_ || _); [done |].
  destruct (blocked w _); done.
Qed.

(** X8: a table that passes validation and holds a Timestamp in a column
    that is not a datetime column makes the run stop in the first
    [write_json] with [TypeError], when the system lets the run write: the
    output directory has been created, [data.json] has been opened and is
    left unfinished, and neither [columns.json] nor [metadata.json] is
    written. *)
Theorem ingest_timestamp_object (args : Args) (df : DataFrame) (w : world)
    (j i : nat) (s : Series) (t : Timestamp) :
  validated args df -> writable args w = true ->
  series df !! j = Some s -> pd.is_datetime64_any_dtype s = false ->
  values s !! i = Some (CTime t) -> (i < index_length df)%nat ->
  fst (ingest args df w) = Raise TypeError
  /\ dirs (snd (ingest args df w))
     = list_to_set (Str.ancestors (out args)) ∪ dirs w
  /\ files (snd (ingest args df w))
     = <[Str.path_join (out args) "data.json" := None]> (files w)
  /\ stdout (snd (ingest args df w))
     = (stdout w
        ++ ["Read CSV with " +:+ Str.of_nat (index_length df)
            +:+ " rows and " +:+ Str.of_nat (length (series df))
            +:+ " columns"])%list.
Proof.
  intros [Hreq Hnd] Hw Hs Hdt Hc Hi.
  rewrite ingest_validated; [| by apply missing_columns_nil | done].
  assert (Hnone : encode (py_records (pd.to_dict_records
                    (pd.where_notnull_none (normalize_datetimes df))))
                  = None).
  { unfold py_records, pd.to_dict_records. cbn [encode].
    rewrite map_map.
    rewrite (traverse_map_none encode _ _ i); [done | |].
    - apply elem_of_seq. cbn [pd.where_notnull_none index_length].
      rewrite (normalize_datetimes_map df Hnd). simpl. lia.
    - rewrite record_at_distinct
        by (by rewrite where_notnull_none_columns,
                 normalize_datetimes_columns).
      cbn [encode pd.where_notnull_none series]. rewrite !map_map.
      rewrite (normalize_datetimes_map df Hnd). cbn [series].
      rewrite map_map.
      rewrite (traverse_map_none _ _ _ s); [done | |].
      + apply list_elem_of_lookup. by exists j.
      + cbn [fst snd encode]. unfold converted. rewrite Hdt.
        rewrite nth_lookup. unfold pd.where_column.
        destruct (dtype_of s); cbn [values];
          rewrite ?list_lookup_fmap, Hc; done. }
  rewrite Hnone, emit_none_writable by done. done.
Qed.

(** A table whose object column holds a Timestamp. *)
Definition stamped_series : Series :=
  {| name := "seen"; dtype_of := object;
     values := [CTime {| value := 0; utcoffset := 0 |}] |}.

Definition stamped_table : DataFrame :=
  {| index_length := 1; series := [stamped_series] |}.

Lemma ingest_timestamp_object_witness :
  fst (ingest example_args stamped_table empty_world) = Raise TypeError
  /\ files (snd (ingest example_args stamped_table empty_world))
     = <[Str.path_join (out example_args) "data.json" := None]> ∅.
Proof.
  destruct (ingest_timestamp_object example_args stamped_table empty_world
              0%nat 0%nat stamped_series {| value := 0; utcoffset := 0 |})
    as (Hres & _ & Hfiles & _).
  - split.
    + intros c Hc. by apply elem_of_nil in Hc.
    + apply duplicated_any_false. reflexivity.
  - by vm_compute.
  - reflexivity.
  - reflexivity.
  - reflexivity.
  - simpl. lia.
  - split; [exact Hres | exact Hfiles].
Defined.

(** ** The metadata *)

Lemma or_empty_id (x : string) : or_empty x = x.
Proof.
  unfold or_empty. destruct (String.eqb x "") eqn:E; [| done].
  by apply eqb_string_true in E.
Qed.

Lemma has_char_append (c : ascii) (a b : string) :
  has_char c (a +:+ b) = has_char c a || has_char c b.
Proof.
  induction a as [| x a IH]; [done |].
  change (String x a +:+ b) with (String x (a +:+ b)).
  by rewrite !has_char_cons, IH, orb_assoc.
Qed.

Lemma ends_with_slash_append (a b : string) :
  b <> "" -> Str.ends_with_slash (a +:+ b) = Str.ends_with_slash b.
Proof.
  intros Hb. induction a as [| c a IH]; [done |].
  change (String c a +:+ b) with (String c (a +:+ b)).
  cbn [Str.ends_with_slash]. rewrite IH.
  destruct (a +:+ b) eqn:E; [| done].
  exfalso. apply Hb. destruct a; [exact E | discriminate E].
Qed.

(** The basename is what follows the last slash: the path is a directory
    part, empty or ended by a slash, followed by the basename, which holds
    no slash. *)
Lemma basename_from_spec (acc p : string) :
  has_char "/" acc = false ->
  has_char "/" (Str.basename_from acc p) = false
  /\ exists dir, acc +:+ p = dir +:+ Str.basename_from acc p
                 /\ (dir = "" \/ Str.ends_with_slash dir = true).
Proof.
  revert acc. induction p as [| c p IH]; intros acc Hacc.
  - cbn [Str.basename_from]. split; [done |]. exists "".
    split; [by rewrite append_empty_r | by left].
  - cbn [Str.basename_from]. destruct (Ascii.eqb c "/") eqn:Ec.
    + apply Ascii.eqb_eq in Ec. subst c.
      destruct (IH "" eq_refl) as [Hno (dir & Hdir & Hend)].
      split; [done |]. exists (acc +:+ "/" +:+ dir). split.
      * rewrite !append_assoc_string. f_equal.
        change ("" +:+ p) with p in Hdir.
        change ("/" +:+ dir +:+ Str.basename_from "" p)
          with (String "/" (dir +:+ Str.basename_from "" p)).
        by rewrite <- Hdir.
      * right. destruct Hend as [-> | Hend].
        -- rewrite ends_with_slash_append by done. reflexivity.
        -- rewrite ends_with_slash_append by done.
           rewrite ends_with_slash_append; [done |]. by intros ->.
    + destruct (IH (acc +:+ String c "")) as [Hno (dir & Hdir & Hend)].
      { rewrite has_char_append, Hacc, has_char_cons.
        rewrite Ascii.eqb_sym, Ec. done. }
      split; [done |]. exists dir. split; [| done]. rewrite <- Hdir.
      by rewrite append_assoc_string.
Qed.

(** X9: in every run that returns, [metadata.json] has exactly the nine
    keys of lines 73 to 83 in their order; the five provenance texts are
    those of the command line, unchanged; [generated_at] is the clock's
    text followed by Z; and [source_filename] is the part of the input path
    after its last slash: it holds no slash, and the input path is a
    directory part, empty or ended by a slash, followed by it. *)
Theorem metadata_of_run (args : Args) (df : DataFrame) (w w' : world) :
  ingest args df w = (Ok tt, w') ->
  exists metadata basename,
    files w' !! Str.path_join (out args) "metadata.json"
    = Some (Some (JObj metadata))
    /\ dict_keys metadata
       = ["generated_at"; "source_filename"; "n_rows"; "n_columns";
          "citation"; "license"; "doi"; "contact"; "notes"]
    /\ dict_get "generated_at" metadata
       = Some (JStr (utcnow_isoformat w +:+ "Z"))
    /\ dict_get "source_filename" metadata = Some (JStr basename)
    /\ has_char "/" basename = false
    /\ (exists dir, input args = dir +:+ basename
                    /\ (dir = "" \/ Str.ends_with_slash dir = true))
    /\ dict_get "n_rows" metadata = Some (JInt (Z.of_nat (index_length df)))
    /\ dict_get "n_columns" metadata
       = Some (JInt (Z.of_nat (length (series df))))
    /\ dict_get "citation" metadata = Some (JStr (citation args))
    /\ dict_get "license" metadata = Some (JStr (license args))
    /\ dict_get "doi" metadata = Some (JStr (doi args))
    /\ dict_get "contact" metadata = Some (JStr (contact args))
    /\ dict_get "notes" metadata = Some (JStr (notes args)).
Proof.
  intros Hrun.
  apply ingest_ok_inv in Hrun as (Hnd & _ & _ & records & _ & _ & ->).
  rewrite emitted_metadata_file. unfold metadata_document.
  destruct (basename_from_spec "" (input args) eq_refl) as [Hno Hdir].
  eexists _, _. split; [done |]. split; [done |]. split; [done |].
  split; [done |]. split; [exact Hno |]. split; [exact Hdir |].
  rewrite !or_empty_id, (normalize_datetimes_map df Hnd).
  cbn [index_length series]. rewrite length_map. done.
Qed.

Lemma metadata_of_run_witness :
  exists metadata basename,
    files (snd (ingest example_args example_table empty_world))
      !! Str.path_join (out example_args) "metadata.json"
    = Some (Some (JObj metadata))
    /\ dict_get "source_filename" metadata = Some (JStr basename)
    /\ has_char "/" basename = false
    /\ (exists dir, "data/example.csv" = dir +:+ basename
                    /\ (dir = "" \/ Str.ends_with_slash dir = true))
    /\ dict_get "n_rows" metadata = Some (JInt 2)
    /\ dict_get "n_columns" metadata = Some (JInt 4).
Proof.
  destruct (metadata_of_run example_args example_table empty_world
              (snd (ingest example_args example_table empty_world)))
    as (metadata & basename & Hfile & _ & _ & Hname & Hslash & Hdir & Hrows
        & Hcols & _).
  - vm_compute. reflexivity.
  - exists metadata, basename. split; [exact Hfile |].
    split; [exact Hname |]. split; [exact Hslash |]. split; [exact Hdir |].
    split; [exact Hrows | exact Hcols].
Defined.

(** ** The run on a source *)

Lemma entry_fields_columns_document (df : DataFrame) :
  entry_fields (map column_entry (series df))
  = map (fun c => Some (JStr c)) (columns df).
Proof. unfold entry_fields, columns. rewrite !map_map. by apply map_ext. Qed.

(** X10: in every run of [main] that returns, the documents have the
    dimensions of the source: [data.json] has one record per data record
    of the source, [columns.json] has one entry per field of the header,
    its fields being the labels that [read_csv] gives the header, in
    order, and [n_rows] and [n_columns] of the metadata are these two
    numbers. *)
Theorem main_source_dimensions (args : Args) (w w' : world)
    (header : list string) (rows : list (list string)) :
  sources w !! input args = Some (header :: rows) ->
  main args w = (Ok tt, w') ->
  exists records entries metadata,
    files w' !! Str.path_join (out args) "data.json"
    = Some (Some (JArr records))
    /\ length records = length rows
    /\ files w' !! Str.path_join (out args) "columns.json"
       = Some (Some (JArr entries))
    /\ length entries = length header
    /\ entry_fields entries
       = map (fun c => Some (JStr c)) (pd.header_labels header)
    /\ files w' !! Str.path_join (out args) "metadata.json"
       = Some (Some (JObj metadata))
    /\ dict_get "n_rows" metadata = Some (JInt (Z.of_nat (length rows)))
    /\ dict_get "n_columns" metadata
       = Some (JInt (Z.of_nat (length header))).
Proof.
  intros Hsource. rewrite main_run, Hsource.
  destruct (pd.parse (header :: rows)) as [df | e] eqn:Eparse; [| done].
  destruct (parse_columns header rows df Eparse) as [Hcols Hrows].
  intros Hrun.
  apply ingest_ok_inv in Hrun as (Hnd & _ & _ & records & Hlen & _ & ->).
  rewrite emitted_data_file, emitted_columns_file, emitted_metadata_file.
  unfold columns_document, metadata_document.
  assert (Hn : length (series (normalize_datetimes df)) = length header).
  { rewrite (normalize_datetimes_map df Hnd). cbn [series].
    rewrite length_map. rewrite <- (length_map name).
    fold (columns df). by rewrite Hcols, header_labels_length. }
  eexists _, _, _. split; [done |]. split; [by rewrite Hlen, Hrows |].
  split; [done |]. split; [by rewrite length_map |]. split.
  - by rewrite entry_fields_columns_document, normalize_datetimes_columns,
      Hcols.
  - split; [done |]. cbn [dict_get]. rewrite !String.eqb_refl. simpl.
    rewrite Hn. rewrite (normalize_datetimes_map df Hnd). simpl.
    by rewrite Hrows.
Qed.

Lemma main_source_dimensions_witness :
  exists records entries metadata,
    files (snd (main example_args example_world))
      !! Str.path_join (out example_args) "data.json"
    = Some (Some (JArr records))
    /\ length records = 2%nat
    /\ files (snd (main example_args example_world))
         !! Str.path_join (out example_args) "columns.json"
       = Some (Some (JArr entries))
    /\ length entries = 4%nat
    /\ entry_fields entries
       = map (fun c => Some (JStr c))
             (pd.header_labels ["id"; "name"; "score"; "joined"])
    /\ files (snd (main example_args example_world))
         !! Str.path_join (out example_args) "metadata.json"
       = Some (Some (JObj metadata))
    /\ dict_get "n_rows" metadata = Some (JInt 2)
    /\ dict_get "n_columns" metadata = Some (JInt 4).
Proof.
  apply (main_source_dimensions example_args example_world
           (snd (main example_args example_world))
           ["id"; "name"; "score"; "joined"]
           [["1"; "Alice"; "9.5"; "2023-01-01"];
            ["2"; "Bob"; ""; "2023-02-15"]]).
  - vm_compute. reflexivity.
  - vm_compute. reflexivity.
Defined.

(** X11: no run of [main] tags a column "date": in every run that
    returns, every entry of [columns.json] has the sorter "number" or
    "string", because [read_csv] is called without [parse_dates] and makes
    no datetime column. *)
Theorem main_never_date (args : Args) (w w' : world) :
  main args w = (Ok tt, w') ->
  exists entries,
    files w' !! Str.path_join (out args) "columns.json"
    = Some (Some (JArr entries))
    /\ Forall (fun sorter => sorter = Some (JStr "number")
                             \/ sorter = Some (JStr "string"))
              (entry_sorters entries).
Proof.
  rewrite main_run.
  destruct (sources w !! input args) as [records |]; [| done].
  destruct (pd.parse records) as [df | e] eqn:Eparse; [| done].
  intros Hrun.
  apply ingest_ok_inv in Hrun as (Hnd & _ & _ & records' & _ & _ & ->).
  rewrite emitted_columns_file. unfold columns_document.
  eexists. split; [done |].
  rewrite (normalize_datetimes_parsed records df Eparse).
  by eapply parsed_sorters.
Qed.

Lemma main_never_date_witness :
  exists entries,
    files (snd (main example_args example_world))
      !! Str.path_join (out example_args) "columns.json"
    = Some (Some (JArr entries))
    /\ Forall (fun sorter => sorter = Some (JStr "number")
                             \/ sorter = Some (JStr "string"))
              (entry_sorters entries).
Proof.
  apply (main_never_date example_args example_world).
  vm_compute. reflexivity.
Defined.

Lemma map_const_length {A B C : Type} (c : C) (l : list A) (k : list B) :
  length l = length k -> map (fun _ => c) l = map (fun _ => c) k.
Proof.
  revert k. induction l as [| a l IH]; intros [| b k] Hlen; try done.
  simpl in *. f_equal. apply IH. lia.
Qed.

(** X12: a source that has a header and no data record: in every run that
    returns, [data.json] is the empty array, every column is tagged
    "string", and [n_rows] is 0. *)
Theorem main_header_only (args : Args) (w w' : world)
    (header : list string) :
  sources w !! input args = Some [header] ->
  main args w = (Ok tt, w') ->
  files w' !! Str.path_join (out args) "data.json" = Some (Some (JArr []))
  /\ exists entries metadata,
       files w' !! Str.path_join (out args) "columns.json"
       = Some (Some (JArr entries))
       /\ entry_sorters entries
          = map (fun _ => Some (JStr "string")) header
       /\ files w' !! Str.path_join (out args) "metadata.json"
          = Some (Some (JObj metadata))
       /\ dict_get "n_rows" metadata = Some (JInt 0).
Proof.
  intros Hsource. rewrite main_run, Hsource.
  destruct (pd.parse [header]) as [df | e] eqn:Eparse; [| done].
  intros Hrun.
  apply ingest_ok_inv in Hrun as (Hnd & _ & _ & records & Hlen & _ & ->).
  rewrite emitted_data_file, emitted_columns_file, emitted_metadata_file.
  injection Eparse as <-. cbn [index_length] in Hlen.
  destruct records; [| done]. split; [done |].
  eexists _, _. split; [done |]. split; [| split; [done |]].
  - unfold columns_document. rewrite (normalize_datetimes_map _ Hnd).
    cbn [series]. unfold entry_sorters. rewrite !map_map.
    transitivity (map (fun _ : nat * string => Some (JStr "string"))
                      (combine (seq 0 (length header))
                               (pd.header_labels header))).
    + apply map_ext. by intros [j label].
    + apply map_const_length.
      rewrite length_combine, length_seq, header_labels_length. lia.
  - unfold metadata_document. cbn [dict_get]. rewrite !String.eqb_refl.
    simpl. by rewrite (normalize_datetimes_map _ Hnd).
Qed.

Lemma main_header_only_witness :
  files (snd (main example_args
                {| sources := {["data/example.csv" := [["a"; "b"]]]};
                   utcnow_isoformat := "2024-05-06T07:08:09";
                   dirs := ∅; files := ∅; stdout := [];
                   refused := ∅; no_room := ∅ |}))
    !! Str.path_join (out example_args) "data.json"
  = Some (Some (JArr []))
  /\ exists entries,
       files (snd (main example_args
                     {| sources := {["data/example.csv" := [["a"; "b"]]]};
                        utcnow_isoformat := "2024-05-06T07:08:09";
                        dirs := ∅; files := ∅; stdout := [];
                   refused := ∅; no_room := ∅ |}))
         !! Str.path_join (out example_args) "columns.json"
       = Some (Some (JArr entries))
       /\ entry_sorters entries
          = [Some (JStr "string"); Some (JStr "string")].
Proof.
  destruct (main_header_only example_args
              {| sources := {["data/example.csv" := [["a"; "b"]]]};
                 utcnow_isoformat := "2024-05-06T07:08:09";
                 dirs := ∅; files := ∅; stdout := [];
                   refused := ∅; no_room := ∅ |}
              (snd (main example_args
                      {| sources := {["data/example.csv" := [["a"; "b"]]]};
                         utcnow_isoformat := "2024-05-06T07:08:09";
                         dirs := ∅; files := ∅; stdout := [];
                   refused := ∅; no_room := ∅ |}))
              ["a"; "b"])
    as (Hdata & entries & metadata & Hcolumns & Hsorters & _).
  - vm_compute. reflexivity.
  - vm_compute. reflexivity.
  - split; [exact Hdata |]. exists entries.
    split; [exact Hcolumns | exact Hsorters].
Defined.

(** ** The duplicate test in a run *)

(** X13: the test of line 116 never fires in a run of [main]: whatever the
    source and the parameters, the run does not end with the error of line
    117, because [read_csv] has already given the columns distinct
    labels. *)
Theorem main_duplicate_check_never_fires (args : Args) (w : world) :
  fst (main args w) <> Raise (SystemExit DuplicatedNames)
  /\ forall header rows df,
       pd.parse (header :: rows) = Ok df ->
       pd.any (pd.duplicated (columns df)) = false.
Proof.
  split.
  - destruct (sources w !! input args) as [records |] eqn:Es.
    2:{ by rewrite main_run, Es. }
    destruct (pd.parse records) as [df | e] eqn:Eparse.
    + rewrite (main_parsed args w records df Es Eparse).
      destruct (missing_columns args df); [| done].
      unfold emit. intros Hrun.
      by destruct (emit_raises _ _ _ _ _ _ _ Hrun) as [H | [H | [H _]]].
    + rewrite main_run, Es, Eparse. cbn [fst]. intros [= ->].
      by destruct (parse_raises _ _ Eparse).
  - intros header rows df Hp. apply duplicated_any_false.
    by eapply parse_distinct.
Qed.
